(** * data_steward/vocabulary.py: date normalisation, record transform and
      vocabulary augmentation

    A shallow embedding of [vocabulary.py].  Python [str] values are Rocq
    strings whose characters stand for code points below 256; text streams
    are the sequence of chunks handed to [write]; the file system, the log
    and the template rows of [VOCABULARY_UPDATES] form an explicit world
    that every effectful function threads through. *)

From Stdlib Require Import Ascii String Btauto.
From stdpp Require Import base list strings gmap.

Local Open Scope string_scope.
Local Open Scope list_scope.

(** ** Python values *)

Module Py.

Definition LF : ascii := "010"%char.
Definition CR : ascii := "013"%char.
Definition TAB : ascii := "009"%char.

(** ["\n"] *)
Definition nl : string := String LF EmptyString.

(** The subclasses of [OSError] the code can meet. *)
Inductive os_error :=
| PlainOSError
| FileExistsError
| FileNotFoundError
| PermissionError
| NotADirectoryError.

(** Exceptions, with the text [str(e)] gives.  [IOError] is [OSError]. *)
Inductive exception :=
| ValueError (msg : string)
| IndexError (msg : string)
| TypeError (msg : string)
| StopIteration
| CsvError (msg : string)
| OSError (kind : os_error) (msg : string).

Definition str_exc (e : exception) : string :=
  match e with
  | ValueError m | IndexError m | TypeError m | CsvError m | OSError _ m => m
  | StopIteration => ""
  end.

Inductive result (A : Type) :=
| Ok (a : A)
| Raise (e : exception).
Arguments Ok {A} a.
Arguments Raise {A} e.

(** [s[lo:hi]] for [0 <= lo <= hi]; out-of-range bounds are clamped. *)
Definition slice (s : string) (lo hi : nat) : string :=
  String.substring lo (hi - lo) s.

(** [sep.join(parts)] *)
Fixpoint join (sep : string) (parts : list string) : string :=
  match parts with
  | [] => ""
  | [p] => p
  | p :: ps => p +:+ sep +:+ join sep ps
  end.

(** [s.startswith(p)] *)
Fixpoint startswith (p s : string) : bool :=
  match p, s with
  | EmptyString, _ => true
  | String a p', String b s' => if Ascii.eqb a b then startswith p' s' else false
  | String _ _, EmptyString => false
  end.

(** [sub in s] *)
Fixpoint contains (sub s : string) : bool :=
  startswith sub s ||
  match s with
  | EmptyString => false
  | String _ s' => contains sub s'
  end.

(** [s.endswith(p)] *)
Fixpoint endswith (p s : string) : bool :=
  String.eqb p s ||
  match s with
  | EmptyString => false
  | String _ s' => endswith p s'
  end.

(** Truth value of a [str]: only the empty string is false. *)
Definition truthy (s : string) : bool :=
  match s with EmptyString => false | _ => true end.

(** Decimal digits: below code point 256, [\d] and category Nd are
    exactly ['0'..'9']. *)
Definition is_digit (c : ascii) : bool :=
  let n := nat_of_ascii c in (48 <=? n)%nat && (n <=? 57)%nat.

End Py.
Import Py.

(** ** Regular expressions of the module

    Both patterns are a fixed run of one-character atoms closed by [$];
    [Pattern.match] anchors at the start of the string, and [$] (without
    MULTILINE) holds at the end of the string and also just before a
    newline that ends the string. *)

Module Re.

Inductive atom :=
| Digit              (* \d *)
| Lit (c : ascii).   (* a literal character *)

Definition atom_ok (a : atom) (c : ascii) : bool :=
  match a with
  | Digit => is_digit c
  | Lit l => Ascii.eqb l c
  end.

(** Consume one character per atom; the unread rest on success. *)
Fixpoint consume (p : list atom) (s : string) : option string :=
  match p with
  | [] => Some s
  | a :: p' =>
      match s with
      | EmptyString => None
      | String c s' => if atom_ok a c then consume p' s' else None
      end
  end.

(** The characters are as many as the atoms and fit them one by one. *)
Fixpoint atoms_ok (p : list atom) (cs : list ascii) : bool :=
  match p, cs with
  | [], [] => true
  | a :: p', c :: cs' => atom_ok a c && atoms_ok p' cs'
  | _, _ => false
  end.

(** [$] *)
Definition dollar (rest : string) : bool :=
  String.eqb rest "" || String.eqb rest nl.

(** [re.compile(p + '$').match(s)] as a truth value *)
Definition re_match (p : list atom) (s : string) : bool :=
  match consume p s with
  | Some rest => dollar rest
  | None => false
  end.

End Re.

(** ** DateNormalizer *)

(** [re.compile(r'\d{8}$')] *)
Definition RAW_DATE_PATTERN : list Re.atom := replicate 8 Re.Digit.

(** [re.compile(r'\d{4}-\d{2}-\d{2}$')] *)
Definition BQ_DATE_PATTERN : list Re.atom :=
  replicate 4 Re.Digit ++ [Re.Lit "-"] ++
  replicate 2 Re.Digit ++ [Re.Lit "-"] ++ replicate 2 Re.Digit.

Definition format_date_str (date_str : string) : result string :=
  if Re.re_match BQ_DATE_PATTERN date_str then
    Ok date_str
  else if Re.re_match RAW_DATE_PATTERN date_str then
    let parts := [slice date_str 0 4; slice date_str 4 6; slice date_str 6 8] in
    Ok (join "-" parts)
  else
    Raise (ValueError ("Cannot parse value " +:+ date_str +:+ " as date")).

(** What the specification calls an 8-digit string and the canonical form. *)
Definition all_digits (s : string) : bool :=
  forallb is_digit (list_ascii_of_string s).

Definition eight_digits (s : string) : bool :=
  (String.length s =? 8)%nat && all_digits s.

Definition canonical_date (s : string) : bool :=
  match list_ascii_of_string s with
  | [y1; y2; y3; y4; h1; m1; m2; h2; d1; d2] =>
      forallb is_digit [y1; y2; y3; y4; m1; m2; d1; d2]
      && Ascii.eqb "-" h1 && Ascii.eqb "-" h2
  | _ => false
  end.

(** ** More of Python's library: [repr], [os.path], [str.lower] *)

Module PyLib.

Definition QUOTE : ascii := "039"%char.
Definition DQUOTE : ascii := "034"%char.
Definition BACKSLASH : ascii := "092"%char.

Definition hex_digit (n : nat) : ascii :=
  match String.get n "0123456789abcdef" with
  | Some c => c
  | None => "0"%char
  end.

(** Characters [repr] shows as they are: the printable ones. *)
Definition printable (c : ascii) : bool :=
  let n := nat_of_ascii c in
  ((32 <=? n) && (n <? 127) || (161 <=? n) && negb (n =? 173))%nat.

Definition repr_char (quote c : ascii) : string :=
  if Ascii.eqb c quote || Ascii.eqb c BACKSLASH then
    String BACKSLASH (String c EmptyString)
  else if Ascii.eqb c TAB then String BACKSLASH "t"
  else if Ascii.eqb c LF then String BACKSLASH "n"
  else if Ascii.eqb c CR then String BACKSLASH "r"
  else if printable c then String c EmptyString
  else
    let n := nat_of_ascii c in
    String BACKSLASH
      (String "x" (String (hex_digit (n / 16)) (String (hex_digit (n mod 16)) EmptyString))).

Fixpoint repr_chars (quote : ascii) (s : string) : string :=
  match s with
  | EmptyString => EmptyString
  | String c s' => repr_char quote c +:+ repr_chars quote s'
  end.

(** [repr(s)] of a [str]: single quotes unless the text has a single
    quote and no double quote. *)
Definition repr_str (s : string) : string :=
  let quote :=
    if contains (String QUOTE EmptyString) s
       && negb (contains (String DQUOTE EmptyString) s)
    then DQUOTE else QUOTE in
  String quote (repr_chars quote s +:+ String quote EmptyString).

(** [repr(row)] of a list of [str], which is also what ['%s' % row] and
    [str(row)] give. *)
Definition repr_list (row : list string) : string :=
  "[" +:+ join ", " (map repr_str row) +:+ "]".

(** [str.lower] on one character: A-Z and the upper-case letters of
    Latin-1 (all of U+00C0..U+00DE but the multiplication sign). *)
Definition lower_char (c : ascii) : ascii :=
  let n := nat_of_ascii c in
  if ((65 <=? n) && (n <=? 90) || (192 <=? n) && (n <=? 222) && negb (n =? 215))%nat
  then ascii_of_nat (n + 32) else c.

Fixpoint lower (s : string) : string :=
  match s with
  | EmptyString => EmptyString
  | String c s' => String (lower_char c) (lower s')
  end.

(** [s.rfind(c)] for a one-character [c]: [-1] when absent. *)
Fixpoint rfind (c : ascii) (s : string) : Z :=
  match s with
  | EmptyString => (-1)%Z
  | String a s' =>
      let r := rfind c s' in
      if (0 <=? r)%Z then (r + 1)%Z
      else if Ascii.eqb a c then 0%Z else (-1)%Z
  end.

(** [s[i:]] *)
Fixpoint slice_from (i : nat) (s : string) : string :=
  match i, s with
  | O, _ => s
  | S i', String _ s' => slice_from i' s'
  | S _, EmptyString => EmptyString
  end.

Module path.

(** [posixpath.basename] *)
Definition basename (p : string) : string :=
  slice_from (Z.to_nat (rfind "/" p + 1)) p.

(** [posixpath.join(a, b)] *)
Definition join (a b : string) : string :=
  if startswith "/" b then b
  else if negb (truthy a) || endswith "/" a then a +:+ b
  else a +:+ "/" +:+ b.

(** [posixpath.splitext]: the extension starts at the last dot of the
    last component, unless only dots precede it there. *)
Definition splitext (p : string) : string * string :=
  let sepIndex := rfind "/" p in
  let dotIndex := rfind "." p in
  if (sepIndex <? dotIndex)%Z
     && existsb
          (fun k => match String.get k p with
                    | Some c => negb (Ascii.eqb c ".")
                    | None => false
                    end)
          (seq (Z.to_nat (sepIndex + 1)) (Z.to_nat (dotIndex - sepIndex - 1)))
  then (slice p 0 (Z.to_nat dotIndex), slice_from (Z.to_nat dotIndex) p)
  else (p, EmptyString).

End path.

End PyLib.
Import PyLib.

(** ** The world the code runs in

    A text stream is kept as the list of chunks passed to [write], oldest
    first; the text of a file is their concatenation.  [listing] holds the
    directories with what [os.listdir] answers; [mkdir_fault] and
    [open_fault] give, for a path, the error the operating system answers
    to [os.makedirs] and [open] (permissions, quotas and the like), when it
    answers one.  [VOCABULARY_UPDATES] is the module-global dict of
    [common]: insertion-ordered, each reserved id owning its template row
    (a mutable list); its contents are not part of [vocabulary.py].

    Two conventions bound what the theorems say.  [files] is keyed by the
    path as the code spells it: two spellings of one file (["f"] and
    ["./f"], a link) are two keys here, so a statement about a path other
    than the one written is a statement about another file only when the
    two paths do not name the same file.  And a file opened for reading
    is read when it is opened, where Python reads it as the loop goes;
    the two differ only when a file is written to while a loop is still
    reading it. *)

Record World := mkWorld {
  files : gmap string (list string);
  listing : gmap string (list string);
  mkdir_fault : gmap string os_error;
  open_fault : gmap string os_error;
  stderr : list string;
  VOCABULARY_UPDATES : list (string * list string);
  warnings : list string;
  infos : list string
}.

Definition set_files (f : gmap string (list string)) (w : World) : World :=
  mkWorld f (listing w) (mkdir_fault w) (open_fault w) (stderr w)
          (VOCABULARY_UPDATES w) (warnings w) (infos w).

Definition set_listing (d : gmap string (list string)) (w : World) : World :=
  mkWorld (files w) d (mkdir_fault w) (open_fault w) (stderr w)
          (VOCABULARY_UPDATES w) (warnings w) (infos w).

Definition set_stderr (e : list string) (w : World) : World :=
  mkWorld (files w) (listing w) (mkdir_fault w) (open_fault w) e
          (VOCABULARY_UPDATES w) (warnings w) (infos w).

Definition set_VOCABULARY_UPDATES (d : list (string * list string)) (w : World) : World :=
  mkWorld (files w) (listing w) (mkdir_fault w) (open_fault w) (stderr w)
          d (warnings w) (infos w).

Definition set_warnings (l : list string) (w : World) : World :=
  mkWorld (files w) (listing w) (mkdir_fault w) (open_fault w) (stderr w)
          (VOCABULARY_UPDATES w) l (infos w).

Definition set_infos (l : list string) (w : World) : World :=
  mkWorld (files w) (listing w) (mkdir_fault w) (open_fault w) (stderr w)
          (VOCABULARY_UPDATES w) (warnings w) l.

(** Statements run in the world and end normally or with an exception;
    what was done before an exception stays done. *)
Definition M (A : Type) : Type := World -> result A * World.

Definition ret {A} (a : A) : M A := fun w => (Ok a, w).

Definition raise {A} (e : exception) : M A := fun w => (Raise e, w).

Definition bind {A B} (c : M A) (k : A -> M B) : M B :=
  fun w =>
    match c w with
    | (Ok a, w') => k a w'
    | (Raise e, w') => (Raise e, w')
    end.

#[global] Instance M_ret : MRet M := @ret.
#[global] Instance M_bind : MBind M := fun A B k c => bind c k.

(** [try: body  except <catches>: handler] *)
Definition try_except {A} (body : M A) (catches : exception -> bool)
    (handler : exception -> M A) : M A :=
  fun w =>
    match body w with
    | (Ok a, w') => (Ok a, w')
    | (Raise e, w') => if catches e then handler e w' else (Raise e, w')
    end.

(** [for x in xs: body] *)
Fixpoint for_each {A} (xs : list A) (body : A -> M unit) : M unit :=
  match xs with
  | [] => ret tt
  | x :: xs' => body x ;; for_each xs' body
  end.

(** *** Streams *)

(** A file object open for writing, or [sys.stderr]. *)
Inductive stream :=
| File (path : string)
| Stderr.

(** What has been written to a stream so far. *)
Definition chunks (s : stream) (w : World) : list string :=
  match s with
  | File p => default [] (files w !! p)
  | Stderr => stderr w
  end.

(** [fp.write(data)] *)
Definition write (fp : stream) (data : string) : M unit :=
  fun w =>
    match fp with
    | File p => (Ok tt, set_files (<[p := chunks fp w ++ [data]]> (files w)) w)
    | Stderr => (Ok tt, set_stderr (stderr w ++ [data]) w)
    end.

Fixpoint concat_chunks (cs : list string) : string :=
  match cs with
  | [] => EmptyString
  | c :: cs' => c +:+ concat_chunks cs'
  end.

(** Reading in text mode with the default [newline=None]: ["\r\n"] and a
    lone ["\r"] arrive as ["\n"]. *)
Fixpoint universal_newlines (s : string) : string :=
  match s with
  | EmptyString => EmptyString
  | String c s' =>
      if Ascii.eqb c CR then
        match s' with
        | String c' s'' =>
            if Ascii.eqb c' LF then String LF (universal_newlines s'')
            else String LF (universal_newlines s')
        | EmptyString => nl
        end
      else String c (universal_newlines s')
  end.

(** The lines a file object yields: each keeps its ["\n"]; the last one
    has none when the text does not end with one. *)
Fixpoint lines (s : string) : list string :=
  match s with
  | EmptyString => []
  | String c s' =>
      if Ascii.eqb c LF then nl :: lines s'
      else match lines s' with
           | [] => [String c EmptyString]
           | l :: ls => String c l :: ls
           end
  end.

Definition os_error_at (faults : gmap string os_error) (p : string) : M unit :=
  match faults !! p with
  | Some k => raise (OSError k p)
  | None => ret tt
  end.

(** [open(path, 'r')], as the lines it will yield. *)
Definition open_r (path : string) : M (list string) :=
  fun w =>
    match open_fault w !! path with
    | Some k => (Raise (OSError k path), w)
    | None =>
        match files w !! path with
        | Some cs => (Ok (lines (universal_newlines (concat_chunks cs))), w)
        | None => (Raise (OSError FileNotFoundError path), w)
        end
    end.

(** [open(path, 'w')]: creates the file or empties it. *)
Definition open_w (path : string) : M stream :=
  fun w =>
    match open_fault w !! path with
    | Some k => (Raise (OSError k path), w)
    | None => (Ok (File path), set_files (<[path := []]> (files w)) w)
    end.

(** [os.makedirs(path)] *)
Definition os_makedirs (path : string) : M unit :=
  fun w =>
    match mkdir_fault w !! path with
    | Some k => (Raise (OSError k path), w)
    | None =>
        match listing w !! path with
        | Some _ => (Raise (OSError FileExistsError path), w)
        | None => (Ok tt, set_listing (<[path := []]> (listing w)) w)
        end
    end.

(** [os.listdir(path)] *)
Definition os_listdir (path : string) : M (list string) :=
  fun w =>
    match listing w !! path with
    | Some names => (Ok names, w)
    | None => (Raise (OSError FileNotFoundError path), w)
    end.

(** [logging.info(msg)] *)
Definition logging_info (msg : string) : M unit :=
  fun w => (Ok tt, set_infos (infos w ++ [msg]) w).

(** [warnings.warn(msg)] *)
Definition warnings_warn (msg : string) : M unit :=
  fun w => (Ok tt, set_warnings (warnings w ++ [msg]) w).

(** ** What [vocabulary.py] imports

    The constants of [common] and [resources], and the [csv] functions it
    calls, with the delimiter and line terminator they are given. *)

Class Imports := {
  CONCEPT : string;
  VOCABULARY : string;
  DELIMITER : string;
  LINE_TERMINATOR : string;
  ERRORS : string;
  (** [ERROR_APPENDING.format(in_path=.., vocab_id=..)] *)
  ERROR_APPENDING : string -> string -> string;
  AOU_GEN_ID : string;
  AOU_CUSTOM_ID : string;
  AOU_VOCAB_PATH : string;
  AOU_VOCAB_CONCEPT_CSV_PATH : string;
  (** [resources.hash_dir]: the digest of a directory's content; the
      resource directory is only read here, so it is a function of the
      path. *)
  hash_dir : string -> string;
  (** the rows [csv.reader(fp, delimiter=d)] yields for the lines of [fp] *)
  csv_reader : string -> list string -> list (list string);
  (** the text [csv.writer(fp, delimiter=d, lineterminator=t).writerow(row)]
      writes *)
  csv_writerow : string -> string -> list string -> string;
  (** [csv.Sniffer().has_header(sample)] *)
  has_header : string -> result bool
}.

(** ** RecordTransformer *)

Section vocabulary.

Context {imports : Imports}.

(** The indexes of the header fields that end in [_date], in order. *)
Fixpoint date_indexes_from (index : nat) (header : list string) : list nat :=
  match header with
  | [] => []
  | item :: header' =>
      if endswith "_date" item
      then index :: date_indexes_from (S index) header'
      else date_indexes_from (S index) header'
  end.

(** [for i in date_indexes: row[i] = format_date_str(row[i])]: the row is
    changed in place, so the result is the row as the loop leaves it and
    the exception that ended it, if one did. *)
Fixpoint normalize_dates (date_indexes : list nat) (row : list string)
  : list string * option exception :=
  match date_indexes with
  | [] => (row, None)
  | i :: date_indexes' =>
      match row !! i with
      | None => (row, Some (IndexError "list index out of range"))
      | Some v =>
          match format_date_str v with
          | Raise e => (row, Some e)
          | Ok v' => normalize_dates date_indexes' (<[i := v']> row)
          end
      end
  end.

(** [except (ValueError, IndexError)] *)
Definition value_or_index_error (e : exception) : bool :=
  match e with
  | ValueError _ | IndexError _ => true
  | _ => false
  end.

(** ['Error %s transforming row:\n%s' % (str(e), row)] *)
Definition error_message (e : exception) (row : list string) : string :=
  "Error " +:+ str_exc e +:+ " transforming row:" +:+ nl +:+ repr_list row.

(** The body of [for row in csv_reader]. *)
Definition transform_row (out_fp err_fp : stream) (date_indexes : list nat)
    (row : list string) : M unit :=
  match normalize_dates date_indexes row with
  | (row', None) => write out_fp (csv_writerow DELIMITER LINE_TERMINATOR row')
  | (row', Some e) =>
      if value_or_index_error e
      then write err_fp (error_message e row')
      else raise e
  end.

(** [in_fp] is given by the lines it yields. *)
Definition _transform_csv (in_fp : list string) (out_fp : stream)
    (err_fp : option stream) : M unit :=
  let err_fp := default Stderr err_fp in
  match csv_reader DELIMITER in_fp with
  | [] => raise StopIteration
  | header :: rows =>
      let date_indexes := date_indexes_from 0 header in
      write out_fp (csv_writerow DELIMITER LINE_TERMINATOR header);;
      for_each rows (transform_row out_fp err_fp date_indexes)
  end.

(** ** FileTransformJob *)

Definition any_os_error (e : exception) : bool :=
  match e with
  | OSError _ _ => true
  | _ => false
  end.

Definition transform_file (file_path out_dir : string) : M unit :=
  let file_name := path.basename file_path in
  let out_file_name := path.join out_dir file_name in
  let err_dir := path.join out_dir ERRORS in
  let err_file_name := path.join err_dir file_name in
  try_except (os_makedirs err_dir) any_os_error
    (fun _ =>
       logging_info ("Error directory:" +:+ String TAB err_dir
                     +:+ String TAB " already exists"));;
  in_fp ← open_r file_path;
  out_fp ← open_w out_file_name;
  err_fp ← open_w err_file_name;
  _transform_csv in_fp out_fp (Some err_fp).

(** ** VocabularyAugmentor and ConceptAugmentor *)

(** [d.get(k)] and [d[k] = v] for a key already there. *)
Fixpoint dict_get (d : list (string * list string)) (k : string)
  : option (list string) :=
  match d with
  | [] => None
  | (k', v) :: d' => if String.eqb k' k then Some v else dict_get d' k
  end.

Fixpoint dict_set (d : list (string * list string)) (k : string)
    (v : list string) : list (string * list string) :=
  match d with
  | [] => []
  | (k', v') :: d' =>
      if String.eqb k' k then (k', v) :: d' else (k', v') :: dict_set d' k v
  end.

Definition get_aou_vocab_version : string := hash_dir AOU_VOCAB_PATH.

(** [vocab_row] is the list object held by the dict, so the assignment to
    [vocab_row[-2]] changes the dict's row. *)
Definition get_aou_vocabulary_row (vocab_id : string) : M string :=
  fun w =>
    let aou_vocab_version := get_aou_vocab_version in
    match dict_get (VOCABULARY_UPDATES w) vocab_id with
    | None =>
        (Raise (TypeError "'NoneType' object does not support item assignment"), w)
    | Some vocab_row =>
        if (length vocab_row <? 2)%nat then
          (Raise (IndexError "list assignment index out of range"), w)
        else
          let vocab_row' :=
            <[(length vocab_row - 2)%nat := aou_vocab_version]> vocab_row in
          (Ok (join DELIMITER vocab_row'),
           set_VOCABULARY_UPDATES
             (dict_set (VOCABULARY_UPDATES w) vocab_id vocab_row') w)
    end.

(** The first key of [VOCABULARY_UPDATES] found in [s], if any. *)
Definition _vocab_id_match (s : string) : M (option string) :=
  fun w =>
    (Ok (List.find (fun vocab_id => contains vocab_id s)
                   (map fst (VOCABULARY_UPDATES w))), w).

(** Truth value of [None] or a [str]. *)
Definition truthy_opt (o : option string) : bool :=
  match o with
  | Some s => truthy s
  | None => false
  end.

(** The body of [for row in in_fp], the same in both augmentors. *)
Definition copy_row (in_path : string) (out_fp : stream) (row : string) : M unit :=
  vocab_id_in_row ← _vocab_id_match row;
  if truthy_opt vocab_id_in_row
  then warnings_warn (ERROR_APPENDING in_path (default EmptyString vocab_id_in_row))
  else write out_fp row.

Definition lift {A} (r : result A) : M A :=
  fun w => (r, w).

Definition append_concepts (in_path out_path : string) : M unit :=
  out_fp ← open_w out_path;
  in_fp ← open_r in_path;
  for_each in_fp (copy_row in_path out_fp);;
  aou_gen_fp ← open_r AOU_VOCAB_CONCEPT_CSV_PATH;
  let five_lines := concat_chunks (take 5 aou_gen_fp) in
  header_found ← lift (has_header five_lines);
  rows ← (if header_found : bool
           then match aou_gen_fp with
                | [] => raise StopIteration
                | _ :: rest => ret rest
                end
           else ret aou_gen_fp);
  for_each rows (write out_fp).

Definition append_vocabulary (in_path out_path : string) : M unit :=
  aou_general_row ← get_aou_vocabulary_row AOU_GEN_ID;
  aou_custom_row ← get_aou_vocabulary_row AOU_CUSTOM_ID;
  out_fp ← open_w out_path;
  in_fp ← open_r in_path;
  for_each in_fp (copy_row in_path out_fp);;
  write out_fp (aou_general_row +:+ nl);;
  write out_fp aou_custom_row.

(** ** AugmentationOrchestrator *)

(** The body of [for file_name in file_names], on the pair
    [(concept_in_path, vocabulary_in_path)]. *)
Definition locate (in_dir : string) (found : option string * option string)
    (file_name : string) : option string * option string :=
  let '(table_name, _) := path.splitext (lower file_name) in
  let in_path := path.join in_dir file_name in
  if String.eqb table_name CONCEPT then (Some in_path, snd found)
  else if String.eqb table_name VOCABULARY then (fst found, Some in_path)
  else found.

Definition add_aou_vocabs (in_dir out_dir : string) : M unit :=
  file_names ← os_listdir in_dir;
  let '(concept_in_path, vocabulary_in_path) :=
    fold_left (locate in_dir) file_names (None, None) in
  match concept_in_path with
  | None => raise (OSError PlainOSError ("CONCEPT.csv was not found in " +:+ in_dir))
  | Some concept_in_path =>
      match vocabulary_in_path with
      | None =>
          raise (OSError PlainOSError ("VOCABULARY.csv was not found in " +:+ in_dir))
      | Some vocabulary_in_path =>
          let concept_out_path :=
            path.join out_dir (path.basename concept_in_path) in
          append_concepts concept_in_path concept_out_path;;
          let vocabulary_out_path :=
            path.join out_dir (path.basename vocabulary_in_path) in
          append_vocabulary vocabulary_in_path vocabulary_out_path
      end
  end.

End vocabulary.

(** ** Notions used in the statements *)

(** A date field of [row] that cannot be normalised: its index exceeds
    the record's length, or [format_date_str] raises on its value. *)
Definition field_fails (row : list string) (i : nat) : bool :=
  match row !! i with
  | None => true
  | Some v =>
      match format_date_str v with
      | Raise _ => true
      | Ok _ => false
      end
  end.

(** The exception met at date field [i] of [row]. *)
Definition failure_at (row : list string) (i : nat) (e : exception) : Prop :=
  match row !! i with
  | None => e = IndexError "list index out of range"
  | Some v => format_date_str v = Raise e
  end.

(** Field [j] of [row] after a successful normalisation is field [j] of
    [shown]. *)
Definition normalised_at (row shown : list string) (j : nat) : Prop :=
  ∃ v v', row !! j = Some v ∧ format_date_str v = Ok v' ∧ shown !! j = Some v'.

(** Some key of the dict occurs in the raw text of [row]. *)
Definition mentions_reserved_id (d : list (string * list string)) (row : string) : bool :=
  existsb (fun vocab_id => contains vocab_id row) (map fst d).

(** The records the augmentors copy. *)
Definition surviving (d : list (string * list string)) (rows : list string) : list string :=
  List.filter (fun row => negb (mentions_reserved_id d row)) rows.

(** A template row rendered with the version [v] in its last field but
    one. *)
Definition rendered (delimiter v : string) (vocab_row : list string) : string :=
  join delimiter (<[(length vocab_row - 2)%nat := v]> vocab_row).

(** Some entry of the directory has this base name once lower-cased and
    stripped of its extension. *)
Definition has_resource (name : string) (file_names : list string) : bool :=
  existsb (fun file_name => String.eqb (path.splitext (lower file_name)).1 name)
          file_names.

(** A line with its terminator: characters other than ["\n"] and ["\r"],
    then one ["\n"]. *)
Fixpoint is_line (l : string) : bool :=
  match l with
  | EmptyString => false
  | String c l' =>
      if Ascii.eqb c LF then negb (truthy l')
      else negb (Ascii.eqb c CR) && is_line l'
  end.

(** A last line without terminator: not empty, no ["\n"] and no ["\r"]. *)
Fixpoint is_open_line (l : string) : bool :=
  match l with
  | EmptyString => false
  | String c l' =>
      negb (Ascii.eqb c LF) && negb (Ascii.eqb c CR)
      && (negb (truthy l') || is_open_line l')
  end.

(** ** A sample of the imports

    Values to run the code on: a tab-separated layout, a [csv] module
    without quoting, and two template rows. *)

Module Sample.

Definition tab : string := String TAB EmptyString.

Fixpoint chomp (line : string) : string :=
  match line with
  | EmptyString => EmptyString
  | String c line' =>
      if Ascii.eqb c LF && negb (truthy line') then EmptyString
      else String c (chomp line')
  end.

Fixpoint split_on (d : ascii) (s : string) : list string :=
  match s with
  | EmptyString => [EmptyString]
  | String c s' =>
      if Ascii.eqb c d then EmptyString :: split_on d s'
      else match split_on d s' with
           | [] => [String c EmptyString]
           | f :: fs => String c f :: fs
           end
  end.

Definition plain_reader (d : string) (in_fp : list string) : list (list string) :=
  map (fun line =>
         match chomp line, d with
         | EmptyString, _ => []
         | text, String c _ => split_on c text
         | text, EmptyString => [text]
         end) in_fp.

Definition plain_writerow (d t : string) (row : list string) : string :=
  join d row +:+ t.

Definition imports : Imports := {|
  CONCEPT := "concept";
  VOCABULARY := "vocabulary";
  DELIMITER := tab;
  LINE_TERMINATOR := nl;
  ERRORS := "errors";
  ERROR_APPENDING := fun in_path vocab_id =>
    "Appending to " +:+ in_path +:+ " which already contains rows for " +:+ vocab_id;
  AOU_GEN_ID := "AoU_General";
  AOU_CUSTOM_ID := "AoU_Custom";
  AOU_VOCAB_PATH := "resources/aou_vocab";
  AOU_VOCAB_CONCEPT_CSV_PATH := "resources/aou_vocab/CONCEPT.csv";
  hash_dir := fun _ => "5d41402a";
  csv_reader := plain_reader;
  csv_writerow := plain_writerow;
  has_header := fun sample => Ok (startswith "concept_id" sample)
|}.

Definition templates : list (string * list string) :=
  [("AoU_General", ["AoU_General"; "AoU_General"; "aou.org/general"; "old"; "2000000000"]);
   ("AoU_Custom", ["AoU_Custom"; "AoU_Custom"; "aou.org/custom"; "old"; "2100000000"])].

(** Nothing on disk, nothing logged. *)
Definition world : World :=
  mkWorld ∅ ∅ ∅ ∅ [] templates [] [].

Definition with_file (path text : string) (w : World) : World :=
  set_files (<[path := [text]]> (files w)) w.

Definition with_mkdir_fault (path : string) (k : os_error) (w : World) : World :=
  mkWorld (files w) (listing w) (<[path := k]> (mkdir_fault w)) (open_fault w)
          (stderr w) (VOCABULARY_UPDATES w) (warnings w) (infos w).

Definition with_open_fault (path : string) (k : os_error) (w : World) : World :=
  mkWorld (files w) (listing w) (mkdir_fault w) (<[path := k]> (open_fault w))
          (stderr w) (VOCABULARY_UPDATES w) (warnings w) (infos w).

Definition with_dir (path : string) (names : list string) (w : World) : World :=
  set_listing (<[path := names]> (listing w)) w.

(** A vocabulary file whose last record has no newline after it, and the
    same file with one. *)
Definition vocabulary_header : string :=
  "vocabulary_id" +:+ tab +:+ "vocabulary_name" +:+ tab +:+ "vocabulary_reference"
  +:+ tab +:+ "vocabulary_version" +:+ tab +:+ "vocabulary_concept_id" +:+ nl.

Definition snomed : string :=
  "SNOMED" +:+ tab +:+ "Systematic Nomenclature" +:+ tab +:+ "snomed.org"
  +:+ tab +:+ "v1" +:+ tab +:+ "12345".

Definition general_row : string :=
  "AoU_General" +:+ tab +:+ "AoU_General" +:+ tab +:+ "aou.org/general"
  +:+ tab +:+ "5d41402a" +:+ tab +:+ "2000000000".

Definition custom_row : string :=
  "AoU_Custom" +:+ tab +:+ "AoU_Custom" +:+ tab +:+ "aou.org/custom"
  +:+ tab +:+ "5d41402a" +:+ tab +:+ "2100000000".

Definition unterminated : World :=
  with_file "in/VOCABULARY.csv" (vocabulary_header +:+ snomed) world.

Definition terminated : World :=
  with_file "in/VOCABULARY.csv" (vocabulary_header +:+ snomed +:+ nl) world.

(** A concept file and the custom concept resource. *)
Definition concept_header : string :=
  "concept_id" +:+ tab +:+ "concept_name" +:+ tab +:+ "vocabulary_id" +:+ nl.

Definition concepts : World :=
  with_file "in/CONCEPT.csv"
    (concept_header
     +:+ "1" +:+ tab +:+ "Aspirin" +:+ tab +:+ "RxNorm" +:+ nl
     +:+ "2" +:+ tab +:+ "Old" +:+ tab +:+ "AoU_General" +:+ nl)
    (with_file "resources/aou_vocab/CONCEPT.csv"
       (concept_header +:+ "2000000001" +:+ tab +:+ "New" +:+ tab +:+ "AoU_General" +:+ nl)
       world).

(** A file to transform, in a world where creating [out/errors] is
    refused. *)
Definition refused : World :=
  with_mkdir_fault "out/errors" PermissionError
    (with_file "in/f.csv"
       ("name" +:+ tab +:+ "valid_start_date" +:+ nl
        +:+ "a" +:+ tab +:+ "20200101" +:+ nl)
       world).

(** The same, and the error file cannot be opened either, as happens
    when [out/errors] is not there. *)
Definition refused_and_missing : World :=
  with_open_fault "out/errors/f.csv" FileNotFoundError
    (with_file "out/f.csv" "kept from an earlier run" refused).

End Sample.

(** ** The rest of the module *)

Section vocabulary_rest.

Context {imports : Imports}.

Definition transform_files (in_dir out_dir : string) : M unit :=
  fs ← os_listdir in_dir;
  for_each fs (fun f =>
    let in_path := path.join in_dir f in
    transform_file in_path out_dir).

(** What a record adds to the output stream, when it is written. *)
Definition written_for (date_indexes : list nat) (row : list string) : option string :=
  match normalize_dates date_indexes row with
  | (row', None) => Some (csv_writerow DELIMITER LINE_TERMINATOR row')
  | (_, Some _) => None
  end.

(** What a record adds to the error stream, when it is diverted. *)
Definition reported_for (date_indexes : list nat) (row : list string) : option string :=
  match normalize_dates date_indexes row with
  | (row', Some e) => Some (error_message e row')
  | (_, None) => None
  end.

(** The warning a line of the input gives rise to, when it is dropped:
    the message names the first key of the dict found in it. *)
Definition warning_for (d : list (string * list string)) (in_path row : string)
  : option string :=
  if mentions_reserved_id d row
  then Some (ERROR_APPENDING in_path
               (default EmptyString
                  (List.find (fun vocab_id => contains vocab_id row) (map fst d))))
  else None.

End vocabulary_rest.

(** ** The command line of the module

    The parser declares the positional argument [command], with four
    choices (constants of [common]), and the required options [--in_dir]
    and [--out_dir].  A namespace is its attributes by name; reading one
    that is not there raises [AttributeError]. *)

Class Commands := {
  TRANSFORM_FILES : string;
  ADD_AOU_VOCABS : string;
  APPEND_VOCABULARY : string;
  APPEND_CONCEPTS : string
}.

Abbreviation Namespace := (gmap string string).

(** [args.name] *)
Definition getattr (args : Namespace) (name : string) : string + string :=
  match args !! name with
  | Some value => inl value
  | None => inr ("'Namespace' object has no attribute '" +:+ name +:+ "'")
  end.

(** How the script ends: the called function returned or raised, or the
    lookup of an attribute the namespace does not have raised
    [AttributeError] before any call. *)
Inductive outcome :=
| Called (r : result unit)
| AttributeError (msg : string).

(** Reading an attribute, then going on with its value. *)
Definition attr (args : Namespace) (name : string)
    (k : string → World → outcome * World) (w : World) : outcome * World :=
  match getattr args name with
  | inl value => k value w
  | inr msg => (AttributeError msg, w)
  end.

Definition called (c : M unit) (w : World) : outcome * World :=
  let '(r, w') := c w in (Called r, w').

Section command_line.

Context {imports : Imports} {commands : Commands}.

(** [arg_parser.parse_args()] on a command line that gives the command
    and both options: the parser exits ([None]) when the command is not
    one of the choices, and otherwise returns a namespace with the three
    destinations it declares, and no other attribute. *)
Definition parse_args (command in_dir out_dir : string) : option Namespace :=
  if existsb (String.eqb command)
       [TRANSFORM_FILES; ADD_AOU_VOCABS; APPEND_VOCABULARY; APPEND_CONCEPTS]
  then Some (<["command" := command]>
               (<["in_dir" := in_dir]> (<["out_dir" := out_dir]> ∅)))
  else None.

(** The body of [if __name__ == '__main__'], after [parse_args]: each
    [args.x] is read where the source reads it, the arguments of a call
    from left to right. *)
Definition main (args : Namespace) : World → outcome * World :=
  attr args "command" (fun command =>
  if String.eqb command TRANSFORM_FILES then
    attr args "in_dir" (fun in_dir =>
    attr args "out_dir" (fun out_dir =>
    called (transform_files in_dir out_dir)))
  else
  attr args "command" (fun command =>
  if String.eqb command ADD_AOU_VOCABS then
    attr args "in_dir" (fun in_dir =>
    attr args "out_dir" (fun out_dir =>
    called (add_aou_vocabs in_dir out_dir)))
  else
  attr args "command" (fun command =>
  if String.eqb command APPEND_VOCABULARY then
    attr args "file" (fun file =>
    attr args "out_dir" (fun out_dir =>
    called (append_vocabulary file out_dir)))
  else
  attr args "command" (fun command =>
  if String.eqb command APPEND_CONCEPTS then
    attr args "file" (fun file =>
    attr args "out_dir" (fun out_dir =>
    called (append_concepts file out_dir)))
  else fun w => (Called (Ok tt), w))))).

End command_line.

(** ** sandbox.py *)

Module sandbox.

Definition SANDBOX_SUFFIX : string := "sandbox".

(** ['{dataset_id}_{sandbox_suffix}'.format(..)] *)
Definition get_sandbox_dataset_id (dataset_id : string) : string :=
  dataset_id +:+ "_" +:+ SANDBOX_SUFFIX.

(** [\w] below code point 256: the underscore and the alphanumeric
    characters, that is the ASCII letters and digits, the letters of
    Latin-1 (the ordinal indicators, the micro sign, U+00C0..U+00FF but the
    multiplication and division signs) and its numeric characters (the
    superscripts one to three and the three vulgar fractions). *)
Definition is_word (c : ascii) : bool :=
  let n := nat_of_ascii c in
  ((48 <=? n) && (n <=? 57) || (65 <=? n) && (n <=? 90) || (n =? 95)
   || (97 <=? n) && (n <=? 122)
   || (n =? 170) || (n =? 178) || (n =? 179) || (n =? 181) || (n =? 185) || (n =? 186)
   || (188 <=? n) && (n <=? 190)
   || (192 <=? n) && negb (n =? 215) && negb (n =? 247))%nat.

#[global] Arguments is_word : simpl never.

(** [re.sub(r'\W', repl, s)] *)
Fixpoint sub_non_word (repl s : string) : string :=
  match s with
  | EmptyString => EmptyString
  | String c s' =>
      if is_word c then String c (sub_non_word repl s')
      else repl +:+ sub_non_word repl s'
  end.

(** ['{dataset_id}_{rule_name}'.format(.., rule_name=re.sub(r'\W', '_', rule_name))] *)
Definition get_sandbox_table_name (dataset_id rule_name : string) : string :=
  dataset_id +:+ "_" +:+ sub_non_word "_" rule_name.

(** The calls into BigQuery, [bq_utils.create_dataset] and
    [utils.bq.list_datasets], are not part of the file: any state [S] of
    the service, with the ids of the datasets a project lists in place of
    the dataset objects. *)
Class BigQuery (S : Type) := {
  flag : Type;
  (** [bq_consts.FALSE] *)
  FALSE : flag;
  list_datasets : string -> S -> result (list string) * S;
  (** [create_dataset(project_id, dataset_id, friendly_name, description,
      overwrite_existing)] *)
  create_dataset : string -> string -> string -> string -> flag -> S -> result unit * S
}.

Section bigquery.

Context {S : Type} {bq : BigQuery S}.

Definition create_sandbox_dataset (project_id dataset_id : string)
  : S -> result string * S :=
  fun s =>
    let sandbox_dataset_id := get_sandbox_dataset_id dataset_id in
    let friendly_name := "Sandbox for " +:+ dataset_id in
    let description :=
      "Sandbox created for storing records affected by the cleaning rules applied to "
      +:+ dataset_id in
    match create_dataset project_id sandbox_dataset_id friendly_name description FALSE s with
    | (Ok _, s') => (Ok sandbox_dataset_id, s')
    | (Raise e, s') => (Raise e, s')
    end.

Definition check_and_create_sandbox_dataset (project_id dataset_id : string)
  : S -> result string * S :=
  fun s =>
    let sandbox_dataset := get_sandbox_dataset_id dataset_id in
    match list_datasets project_id s with
    | (Raise e, s') => (Raise e, s')
    | (Ok datasets, s') =>
        if bool_decide (sandbox_dataset ∈ datasets) then (Ok sandbox_dataset, s')
        else
          match create_sandbox_dataset project_id dataset_id s' with
          | (Ok _, s'') => (Ok sandbox_dataset, s'')
          | (Raise e, s'') => (Raise e, s'')
          end
    end.

End bigquery.

(** A service that keeps the dataset ids of each project and refuses to
    create what is there. *)
Definition listed (project_id : string) (s : list (string * string)) : list string :=
  omap (fun '(p, d) => if String.eqb p project_id then Some d else None) s.

#[export] Instance memory : BigQuery (list (string * string)) := {|
  flag := bool;
  FALSE := false;
  list_datasets := fun project_id s => (Ok (listed project_id s), s);
  create_dataset := fun project_id dataset_id _ _ overwrite s =>
    if bool_decide (dataset_id ∈ listed project_id s) && negb overwrite
    then (Raise (ValueError ("Already Exists: Dataset " +:+ dataset_id)), s)
    else (Ok tt, s ++ [(project_id, dataset_id)])
|}.

End sandbox.

(** ** More sample worlds *)

Module More.

(** A directory of three entries, the second of which is not there as a
    file. *)
Definition batch : World :=
  Sample.with_dir "in" ["a.csv"; "gone.csv"; "c.csv"]
    (Sample.with_file "in/a.csv"
       ("name" +:+ Sample.tab +:+ "valid_start_date" +:+ nl
        +:+ "a" +:+ Sample.tab +:+ "20200101" +:+ nl)
       (Sample.with_file "in/c.csv"
          ("name" +:+ Sample.tab +:+ "valid_start_date" +:+ nl) Sample.world)).

(** A file of no bytes. *)
Definition blank : World :=
  Sample.with_file "in/empty.csv" EmptyString Sample.world.

(** A concept file to augment where the custom concept file is not
    there. *)
Definition no_resource : World :=
  Sample.with_file "in/CONCEPT.csv"
    (Sample.concept_header
     +:+ "1" +:+ Sample.tab +:+ "Aspirin" +:+ Sample.tab +:+ "RxNorm" +:+ nl
     +:+ "2" +:+ Sample.tab +:+ "Old" +:+ Sample.tab +:+ "AoU_General" +:+ nl)
    Sample.world.

(** No template for any reserved id. *)
Definition no_templates : World := set_VOCABULARY_UPDATES [] Sample.terminated.

(** An input directory with both resources, next to the custom concept
    file. *)
Definition both : World :=
  Sample.with_dir "in" ["CONCEPT.csv"; "VOCABULARY.csv"]
    (Sample.with_file "in/VOCABULARY.csv"
       (Sample.vocabulary_header +:+ Sample.snomed +:+ nl) Sample.concepts).

(** The four commands. *)
Definition commands : Commands := {|
  TRANSFORM_FILES := "transform_files";
  ADD_AOU_VOCABS := "add_aou_vocabs";
  APPEND_VOCABULARY := "append_vocabulary";
  APPEND_CONCEPTS := "append_concepts"
|}.

End More.

(** * Properties *)

(** ** DateNormalizer *)

Lemma consume_length p s rest :
  Re.consume p s = Some rest → String.length s = (length p + String.length rest)%nat.
Proof.
  revert s. induction p as [|a p IH]; intros s; simpl.
  - intros [= ->]. done.
  - destruct s as [|c s]; [done|].
    destruct (Re.atom_ok a c); [|done].
    intros H%IH. simpl. lia.
Qed.

Lemma consume_digits s :
  all_digits s = true → Re.consume (replicate (String.length s) Re.Digit) s = Some EmptyString.
Proof.
  unfold all_digits. induction s as [|c s IH]; simpl; [done|].
  intros [Hc Hs]%andb_true_iff. rewrite Hc. auto.
Qed.

Lemma eight_digits_not_canonical D :
  eight_digits D = true → Re.re_match BQ_DATE_PATTERN D = false.
Proof.
  intros [Hlen%Nat.eqb_eq _]%andb_true_iff. unfold Re.re_match.
  destruct (Re.consume BQ_DATE_PATTERN D) as [rest|] eqn:E; [|done].
  apply consume_length in E. simpl in E. lia.
Qed.

(** C5: on a string of exactly eight digits [format_date_str] returns
    [D[0:4] + "-" + D[4:6] + "-" + D[6:8]]. *)
Theorem format_date_str_eight_digits (D : string) :
  eight_digits D = true →
  format_date_str D = Ok (slice D 0 4 +:+ "-" +:+ slice D 4 6 +:+ "-" +:+ slice D 6 8).
Proof.
  intros H. unfold format_date_str.
  rewrite (eight_digits_not_canonical D H).
  apply andb_true_iff in H as [Hlen%Nat.eqb_eq Hd].
  unfold Re.re_match, RAW_DATE_PATTERN.
  rewrite <- Hlen, (consume_digits D Hd). reflexivity.
Qed.

Lemma format_date_str_eight_digits_witness :
  eight_digits "20200101" = true ∧ format_date_str "20200101" = Ok "2020-01-01".
Proof.
  split; [reflexivity|].
  apply (format_date_str_eight_digits "20200101"). reflexivity.
Defined.

(** C6, at the input the code gets wrong: ["20200101\n"] is neither an
    8-digit string nor in canonical form, yet [format_date_str] returns
    ["2020-01-01"] for it instead of raising [ValueError], because [$]
    also matches before a final newline; likewise ["2020-01-01\n"] is
    returned as it is. *)
Theorem format_date_str_trailing_newline :
  eight_digits ("20200101" +:+ nl) = false
  ∧ canonical_date ("20200101" +:+ nl) = false
  ∧ format_date_str ("20200101" +:+ nl) = Ok "2020-01-01"
  ∧ canonical_date ("2020-01-01" +:+ nl) = false
  ∧ format_date_str ("2020-01-01" +:+ nl) = Ok ("2020-01-01" +:+ nl).
Proof. repeat split; reflexivity. Qed.

(** The example of the specification does fail. *)
Lemma format_date_str_slashes :
  format_date_str "2020/01/01"
  = Raise (ValueError "Cannot parse value 2020/01/01 as date").
Proof. reflexivity. Qed.

Lemma append_empty_r s : s +:+ EmptyString = s.
Proof.
  induction s as [|c s IH]; [done|].
  change (String c (s +:+ EmptyString) = String c s). by f_equal.
Qed.

Lemma consume_split p s rest :
  Re.consume p s = Some rest → ∃ t, s = t +:+ rest ∧ Re.consume p t = Some EmptyString.
Proof.
  revert s. induction p as [|a p IH]; intros s; simpl.
  - intros [= ->]. by exists EmptyString.
  - destruct s as [|c s]; [done|].
    destruct (Re.atom_ok a c) eqn:E; [|done].
    intros (t & -> & Ht)%IH. exists (String c t). simpl. by rewrite E.
Qed.

Lemma consume_app p t rest :
  Re.consume p t = Some EmptyString → Re.consume p (t +:+ rest) = Some rest.
Proof.
  revert t. induction p as [|a p IH]; intros t; simpl.
  - by intros [= ->].
  - destruct t as [|c t]; [done|].
    change (String c t +:+ rest) with (String c (t +:+ rest)). simpl.
    destruct (Re.atom_ok a c); [|done]. apply IH.
Qed.

Lemma dollar_spec rest :
  Re.dollar rest = true ↔ rest = EmptyString ∨ rest = nl.
Proof.
  unfold Re.dollar. rewrite orb_true_iff, !String.eqb_eq. done.
Qed.

(** A pattern closed by [$] matches the strings it spells out, with or
    without one newline after them. *)
Lemma re_match_spec p s :
  Re.re_match p s = true
  ↔ ∃ t, Re.consume p t = Some EmptyString ∧ (s = t ∨ s = t +:+ nl).
Proof.
  unfold Re.re_match. split.
  - destruct (Re.consume p s) as [rest|] eqn:E; [|done].
    intros [->| ->]%dollar_spec; apply consume_split in E as (t & -> & Ht);
      exists t; (split; [done|]); [left; apply append_empty_r|by right].
  - intros (t & Ht & [->| ->]).
    + rewrite Ht. done.
    + by rewrite (consume_app _ _ nl Ht).
Qed.

Lemma consume_raw t :
  Re.consume RAW_DATE_PATTERN t = Some EmptyString ↔ eight_digits t = true.
Proof.
  unfold eight_digits. rewrite andb_true_iff, Nat.eqb_eq. split.
  - intros H. pose proof (consume_length _ _ _ H) as Hlen. simpl in Hlen.
    split; [lia|]. clear Hlen. unfold RAW_DATE_PATTERN in H.
    revert H. generalize 8%nat as n. unfold all_digits.
    induction t as [|c t IH]; intros n; [done|]. destruct n as [|n]; simpl; [done|].
    destruct (is_digit c); [|done]. apply IH.
  - intros [Hlen Hd]. unfold RAW_DATE_PATTERN. rewrite <- Hlen.
    by apply consume_digits.
Qed.

Lemma consume_atoms_ok p t :
  Re.consume p t = Some EmptyString ↔ Re.atoms_ok p (list_ascii_of_string t) = true.
Proof.
  revert t. induction p as [|a p IH]; intros [|c t]; simpl; try done.
  destruct (Re.atom_ok a c); simpl; [apply IH|done].
Qed.

Lemma atoms_ok_bq cs :
  Re.atoms_ok BQ_DATE_PATTERN cs
  = match cs with
    | [y1; y2; y3; y4; h1; m1; m2; h2; d1; d2] =>
        forallb is_digit [y1; y2; y3; y4; m1; m2; d1; d2]
        && Ascii.eqb "-" h1 && Ascii.eqb "-" h2
    | _ => false
    end.
Proof.
  do 10 (destruct cs as [|? cs]; [simpl; by rewrite ?andb_false_r|]).
  destruct cs; simpl; [btauto|by rewrite ?andb_false_r].
Qed.

Lemma consume_bq t :
  Re.consume BQ_DATE_PATTERN t = Some EmptyString ↔ canonical_date t = true.
Proof. rewrite consume_atoms_ok, atoms_ok_bq. done. Qed.

(** When [format_date_str] raises: exactly on the strings that, with a
    final newline taken off or not, are neither canonical nor eight
    digits. *)
Lemma format_date_str_raises_iff s :
  format_date_str s = Raise (ValueError ("Cannot parse value " +:+ s +:+ " as date"))
  ↔ ∀ t, s = t ∨ s = t +:+ nl → canonical_date t = false ∧ eight_digits t = false.
Proof.
  unfold format_date_str. split.
  - destruct (Re.re_match BQ_DATE_PATTERN s) eqn:Hbq; [done|].
    destruct (Re.re_match RAW_DATE_PATTERN s) eqn:Hraw; [done|].
    intros _ t Ht. split.
    + destruct (canonical_date t) eqn:E; [|done].
      rewrite <- Hbq. symmetry. apply re_match_spec. exists t. by rewrite consume_bq.
    + destruct (eight_digits t) eqn:E; [|done].
      rewrite <- Hraw. symmetry. apply re_match_spec. exists t. by rewrite consume_raw.
  - intros H.
    destruct (Re.re_match BQ_DATE_PATTERN s) eqn:Hbq.
    { apply re_match_spec in Hbq as (t & Ht%consume_bq & Hs).
      destruct (H t Hs) as [Hc _]. congruence. }
    destruct (Re.re_match RAW_DATE_PATTERN s) eqn:Hraw; [|done].
    apply re_match_spec in Hraw as (t & Ht%consume_raw & Hs).
    destruct (H t Hs) as [_ He]. congruence.
Qed.

Lemma endswith_app_nl t : endswith nl (t +:+ nl) = true.
Proof.
  induction t as [|c t IH]; [done|].
  change (String c t +:+ nl) with (String c (t +:+ nl)).
  simpl. rewrite IH. apply orb_true_r.
Qed.

(** On strings that do not end with a newline the code does what the
    specification says: any that is neither canonical nor eight digits is
    refused with a [ValueError] that carries it. *)
Lemma format_date_str_raises_unless_newline s :
  endswith nl s = false →
  canonical_date s = false →
  eight_digits s = false →
  format_date_str s = Raise (ValueError ("Cannot parse value " +:+ s +:+ " as date")).
Proof.
  intros Hend Hc He. apply format_date_str_raises_iff.
  intros t [<-| ->]; [done|]. by rewrite endswith_app_nl in Hend.
Qed.

(** ** RecordTransformer *)

Section record_transformer.

Context {imports : Imports}.

Lemma chunks_write_same fp data w :
  chunks fp (write fp data w).2 = chunks fp w ++ [data].
Proof.
  destruct fp as [p|]; simpl; [|done].
  by rewrite lookup_insert_eq.
Qed.

Lemma chunks_write_other fp fp' data w :
  fp ≠ fp' → chunks fp' (write fp data w).2 = chunks fp' w.
Proof.
  intros Hne. destruct fp as [p|], fp' as [q|]; simpl; try done.
  rewrite lookup_insert_ne; [done|congruence].
Qed.

Lemma write_returns fp data w : write fp data w = (Ok tt, (write fp data w).2).
Proof. by destruct fp. Qed.

Lemma format_date_str_raises v e :
  format_date_str v = Raise e →
  e = ValueError ("Cannot parse value " +:+ v +:+ " as date").
Proof.
  unfold format_date_str.
  destruct (Re.re_match BQ_DATE_PATTERN v); [done|].
  destruct (Re.re_match RAW_DATE_PATTERN v); [done|].
  by intros [= <-].
Qed.

Lemma normalize_dates_exception date_indexes row shown e :
  normalize_dates date_indexes row = (shown, Some e) → value_or_index_error e = true.
Proof.
  revert row. induction date_indexes as [|i idx IH]; intros row; simpl; [done|].
  destruct (row !! i) as [v|]; [|by intros [= _ <-]].
  destruct (format_date_str v) as [v'|e'] eqn:E; [by apply IH|].
  intros [= _ <-]. by rewrite (format_date_str_raises _ _ E).
Qed.

(** One record: one chunk, on one of the two streams. *)
Lemma transform_row_one_chunk out_fp err_fp date_indexes row w :
  out_fp ≠ err_fp →
  ∃ w' written errored,
    transform_row out_fp err_fp date_indexes row w = (Ok tt, w')
    ∧ chunks out_fp w' = chunks out_fp w ++ written
    ∧ chunks err_fp w' = chunks err_fp w ++ errored
    ∧ (length written + length errored = 1)%nat.
Proof.
  intros Hne. unfold transform_row.
  destruct (normalize_dates date_indexes row) as [shown [e|]] eqn:E.
  - rewrite (normalize_dates_exception _ _ _ _ E), write_returns.
    eexists _, [], [_]. split; [done|].
    rewrite chunks_write_same, chunks_write_other, app_nil_r by done. done.
  - rewrite write_returns. eexists _, [_], [].
    split; [done|].
    rewrite chunks_write_same, chunks_write_other, app_nil_r by done. done.
Qed.

Lemma transform_rows_chunks out_fp err_fp date_indexes rows w :
  out_fp ≠ err_fp →
  ∃ w' written errored,
    for_each rows (transform_row out_fp err_fp date_indexes) w = (Ok tt, w')
    ∧ chunks out_fp w' = chunks out_fp w ++ written
    ∧ chunks err_fp w' = chunks err_fp w ++ errored
    ∧ (length written + length errored = length rows)%nat.
Proof.
  intros Hne. revert w. induction rows as [|row rows IH]; intros w.
  - exists w, [], []. by rewrite !app_nil_r.
  - destruct (transform_row_one_chunk out_fp err_fp date_indexes row w Hne)
      as (w1 & o1 & e1 & Hrun1 & Ho1 & He1 & Hn1).
    destruct (IH w1) as (w2 & o2 & e2 & Hrun2 & Ho2 & He2 & Hn2).
    exists w2, (o1 ++ o2), (e1 ++ e2).
    split; [|split_and!].
    + simpl. unfold mbind, M_bind, bind. by rewrite Hrun1.
    + by rewrite Ho2, Ho1, app_assoc.
    + by rewrite He2, He1, app_assoc.
    + rewrite !length_app. simpl. lia.
Qed.

(** C1: when the first record read is the header, the records written to
    the output stream after the header and the messages written to the
    error stream are together as many as the input's data records. *)
Theorem transform_csv_conservation in_fp out_fp err_fp header rows w :
  csv_reader DELIMITER in_fp = header :: rows →
  out_fp ≠ default Stderr err_fp →
  ∃ w' written errored,
    _transform_csv in_fp out_fp err_fp w = (Ok tt, w')
    ∧ chunks out_fp w'
      = chunks out_fp w ++ csv_writerow DELIMITER LINE_TERMINATOR header :: written
    ∧ chunks (default Stderr err_fp) w' = chunks (default Stderr err_fp) w ++ errored
    ∧ (length written + length errored = length rows)%nat.
Proof.
  intros Hread Hne. unfold _transform_csv. rewrite Hread.
  set (hdr := csv_writerow DELIMITER LINE_TERMINATOR header).
  destruct (transform_rows_chunks out_fp (default Stderr err_fp)
              (date_indexes_from 0 header) rows (write out_fp hdr w).2 Hne)
    as (w' & written & errored & Hrun & Hout & Herr & Hlen).
  exists w', written, errored. split; [|split_and!].
  - unfold mbind, M_bind, bind. by rewrite write_returns.
  - by rewrite Hout, chunks_write_same, <- app_assoc.
  - by rewrite Herr, chunks_write_other.
  - done.
Qed.

Lemma date_indexes_from_ge index header i :
  i ∈ date_indexes_from index header → (index ≤ i)%nat.
Proof.
  revert index. induction header as [|item header IH]; intros index; simpl.
  - by intros ?%elem_of_nil.
  - destruct (endswith "_date" item).
    + intros [->|Hi%IH]%elem_of_cons; lia.
    + intros Hi%IH. lia.
Qed.

Lemma date_indexes_from_NoDup index header :
  NoDup (date_indexes_from index header).
Proof.
  revert index. induction header as [|item header IH]; intros index; simpl.
  - constructor.
  - destruct (endswith "_date" item); [|done].
    constructor; [|done]. intros Hi%date_indexes_from_ge. lia.
Qed.

(** What the loop over the date fields leaves behind: the fields of the
    indexes it got through are normalised, the others are as read, and an
    exception comes from the first index that fails. *)
Lemma normalize_dates_spec date_indexes row shown r :
  NoDup date_indexes →
  normalize_dates date_indexes row = (shown, r) →
  length shown = length row
  ∧ ∃ normalised,
      (∀ j, j ∈ normalised → normalised_at row shown j)
      ∧ (∀ j, j ∉ normalised → shown !! j = row !! j)
      ∧ match r with
        | None => normalised = date_indexes
        | Some e => ∃ i rest, date_indexes = normalised ++ i :: rest ∧ failure_at row i e
        end.
Proof.
  revert row. induction date_indexes as [|i idx IH]; intros row Hnd; simpl.
  { intros [= <- <-]. split; [done|]. exists []. split_and!; [|done..].
    by intros j ?%elem_of_nil. }
  apply NoDup_cons in Hnd as [Hi Hnd].
  destruct (row !! i) as [v|] eqn:Hv; cycle 1.
  { intros [= <- <-]. split; [done|]. exists []. split_and!; [|done|].
    - by intros j ?%elem_of_nil.
    - exists i, idx. split; [done|]. unfold failure_at. by rewrite Hv. }
  destruct (format_date_str v) as [v'|e] eqn:Hf; cycle 1.
  { intros [= <- <-]. split; [done|]. exists []. split_and!; [|done|].
    - by intros j ?%elem_of_nil.
    - exists i, idx. split; [done|]. unfold failure_at. by rewrite Hv. }
  intros Hrun. destruct (IH _ Hnd Hrun) as (Hlen & nd & Hin & Hout & Hr).
  rewrite length_insert in Hlen. split; [done|].
  assert (Hsub : ∀ j, j ∈ nd → j ∈ idx).
  { intros j Hj. destruct r as [e|]; [|by subst].
    destruct Hr as (k & rest & -> & _). apply elem_of_app. by left. }
  exists (i :: nd). split_and!.
  - intros j [->|Hj]%elem_of_cons.
    + exists v, v'. split_and!; [done..|].
      rewrite Hout by (intros ?%Hsub; done).
      apply list_lookup_insert_eq. by eapply lookup_lt_Some.
    + destruct (Hin j Hj) as (u & u' & Hu & Hfu & Hs).
      exists u, u'. split_and!; [|done..].
      rewrite list_lookup_insert_ne in Hu; [done|].
      intros ->. by apply Hi, Hsub.
  - intros j Hj. rewrite Hout by (intros ?; apply Hj; by right).
    apply list_lookup_insert_ne. intros ->. apply Hj. by left.
  - destruct r as [e|]; [|by subst].
    destruct Hr as (k & rest & -> & Hfail). exists k, rest. split; [done|].
    unfold failure_at in *. rewrite list_lookup_insert_ne in Hfail; [done|].
    intros ->. apply Hi. apply elem_of_app. right. by left.
Qed.

Lemma normalised_at_not_fails row shown j :
  normalised_at row shown j → field_fails row j = false.
Proof.
  intros (v & v' & Hv & Hf & _). unfold field_fails. by rewrite Hv, Hf.
Qed.

(** C2, as the code has it: a record with a date field that cannot be
    normalised (its index exceeds the record's length, or
    [format_date_str] raises on it) is not written to the output stream;
    one message is appended to the error stream, made of the failure and
    of the record as the failure left it: the date fields before the
    failing one already normalised, every other field as read; and the
    loop goes on with the next record.  The failing field [i] is the first
    date column that fails: the date columns split into [normalised], all
    of which parse, then [i], then the columns never looked at. *)
Theorem failed_record_diverted header row rest out_fp err_fp w :
  out_fp ≠ err_fp →
  existsb (field_fails row) (date_indexes_from 0 header) = true →
  ∃ e shown (normalised : list nat) i later,
    date_indexes_from 0 header = normalised ++ i :: later
    ∧ i ∈ date_indexes_from 0 header ∧ failure_at row i e
    ∧ length shown = length row
    ∧ (∀ j, j ∈ normalised →
         j ∈ date_indexes_from 0 header ∧ normalised_at row shown j)
    ∧ (∀ j, j ∉ normalised → shown !! j = row !! j)
    ∧ for_each (row :: rest) (transform_row out_fp err_fp (date_indexes_from 0 header)) w
      = for_each rest (transform_row out_fp err_fp (date_indexes_from 0 header))
          (write err_fp (error_message e shown) w).2
    ∧ chunks out_fp (write err_fp (error_message e shown) w).2 = chunks out_fp w
    ∧ chunks err_fp (write err_fp (error_message e shown) w).2
      = chunks err_fp w ++ [error_message e shown].
Proof.
  intros Hne Hfails.
  destruct (normalize_dates (date_indexes_from 0 header) row) as [shown r] eqn:E.
  destruct (normalize_dates_spec _ _ _ _ (date_indexes_from_NoDup 0 header) E)
    as (Hlen & nd & Hin & Hout & Hr).
  destruct r as [e|]; cycle 1.
  { subst nd. apply existsb_exists in Hfails as (j & Hj%list_elem_of_In & Hf).
    by rewrite (normalised_at_not_fails _ _ _ (Hin j Hj)) in Hf. }
  destruct Hr as (i & rest' & Hsplit & Hfail).
  exists e, shown, nd, i, rest'. split_and!; try done.
  - rewrite Hsplit. apply elem_of_app. right. by left.
  - intros j Hj. split; [|by apply Hin].
    rewrite Hsplit. apply elem_of_app. by left.
  - simpl. unfold mbind, M_bind, bind, transform_row at 1. rewrite E.
    by rewrite (normalize_dates_exception _ _ _ _ E), write_returns.
  - apply chunks_write_other. congruence.
  - apply chunks_write_same.
Qed.

End record_transformer.

Section record_transformer_runs.

#[local] Existing Instance Sample.imports.

Lemma transform_csv_conservation_witness :
  ∃ w' written errored,
    _transform_csv
      ["name" +:+ Sample.tab +:+ "valid_start_date" +:+ nl;
       "a" +:+ Sample.tab +:+ "20200101" +:+ nl;
       "b" +:+ Sample.tab +:+ "2020/01/01" +:+ nl]
      (File "out/f.csv") (Some (File "out/errors/f.csv")) Sample.world = (Ok tt, w')
    ∧ chunks (File "out/f.csv") w'
      = chunks (File "out/f.csv") Sample.world
        ++ csv_writerow DELIMITER LINE_TERMINATOR ["name"; "valid_start_date"] :: written
    ∧ chunks (File "out/errors/f.csv") w'
      = chunks (File "out/errors/f.csv") Sample.world ++ errored
    ∧ (length written + length errored = 2)%nat.
Proof.
  apply (transform_csv_conservation
           ["name" +:+ Sample.tab +:+ "valid_start_date" +:+ nl;
            "a" +:+ Sample.tab +:+ "20200101" +:+ nl;
            "b" +:+ Sample.tab +:+ "2020/01/01" +:+ nl]
           (File "out/f.csv") (Some (File "out/errors/f.csv"))
           ["name"; "valid_start_date"] [["a"; "20200101"]; ["b"; "2020/01/01"]]).
  - reflexivity.
  - discriminate.
Defined.

Lemma failed_record_diverted_witness :
  existsb (field_fails ["20200101"; "bad"])
    (date_indexes_from 0 ["valid_start_date"; "valid_end_date"]) = true
  ∧ ∃ e shown (normalised : list nat) i later,
      date_indexes_from 0 ["valid_start_date"; "valid_end_date"]
      = normalised ++ i :: later
      ∧ i ∈ date_indexes_from 0 ["valid_start_date"; "valid_end_date"]
      ∧ failure_at ["20200101"; "bad"] i e
      ∧ length shown = 2%nat
      ∧ (∀ j, j ∈ normalised →
           j ∈ date_indexes_from 0 ["valid_start_date"; "valid_end_date"]
           ∧ normalised_at ["20200101"; "bad"] shown j)
      ∧ (∀ j, j ∉ normalised → shown !! j = ["20200101"; "bad"] !! j)
      ∧ for_each [["20200101"; "bad"]]
          (transform_row (File "out") Stderr
             (date_indexes_from 0 ["valid_start_date"; "valid_end_date"])) Sample.world
        = for_each []
            (transform_row (File "out") Stderr
               (date_indexes_from 0 ["valid_start_date"; "valid_end_date"]))
            (write Stderr (error_message e shown) Sample.world).2
      ∧ chunks (File "out") (write Stderr (error_message e shown) Sample.world).2
        = chunks (File "out") Sample.world
      ∧ chunks Stderr (write Stderr (error_message e shown) Sample.world).2
        = chunks Stderr Sample.world ++ [error_message e shown].
Proof.
  split; [reflexivity|].
  apply (failed_record_diverted ["valid_start_date"; "valid_end_date"]
           ["20200101"; "bad"] [] (File "out") Stderr Sample.world).
  - discriminate.
  - reflexivity.
Defined.

(** C2 as the specification words it does not hold: with two date
    columns, the first in raw form and the second unparseable, the message
    shows the first field already rewritten, and the record as read
    (['20200101', 'bad']) is nowhere in it. *)
Lemma failed_record_not_reported_raw :
  let date_indexes := date_indexes_from 0 ["valid_start_date"; "valid_end_date"] in
  let row := ["20200101"; "bad"] in
  let w' := (transform_row (File "out") Stderr date_indexes row Sample.world).2 in
  existsb (field_fails row) date_indexes = true
  ∧ chunks Stderr w'
    = ["Error Cannot parse value bad as date transforming row:" +:+ nl
       +:+ "['2020-01-01', 'bad']"]
  ∧ Forall (fun message => contains (repr_list row) message = false) (chunks Stderr w').
Proof.
  split_and!; [reflexivity..|].
  repeat constructor.
Qed.

End record_transformer_runs.

(** ** Lines of a text *)

Lemma lines_line_app l rest :
  is_line l = true → lines (l +:+ rest) = l :: lines rest.
Proof.
  induction l as [|c l IH]; [done|].
  change (String c l +:+ rest) with (String c (l +:+ rest)). simpl.
  destruct (Ascii.eqb c LF) eqn:E.
  - apply Ascii.eqb_eq in E as ->. by destruct l.
  - intros [_ Hl]%andb_true_iff. by rewrite (IH Hl).
Qed.

Lemma lines_open_line l :
  is_open_line l = true → lines l = [l].
Proof.
  induction l as [|c l IH]; [done|]. simpl.
  intros [[Hlf%negb_true_iff _]%andb_true_iff Hl]%andb_true_iff. rewrite Hlf.
  destruct l as [|c' l]; [done|]. simpl in Hl. by rewrite (IH Hl).
Qed.

Lemma universal_newlines_line_app l rest :
  is_line l = true → universal_newlines (l +:+ rest) = l +:+ universal_newlines rest.
Proof.
  induction l as [|c l IH]; [done|].
  change (String c l +:+ rest) with (String c (l +:+ rest)). simpl.
  destruct (Ascii.eqb c LF) eqn:E.
  - apply Ascii.eqb_eq in E as ->. by destruct l.
  - intros [Hcr%negb_true_iff Hl]%andb_true_iff. rewrite Hcr.
    by rewrite (IH Hl).
Qed.

Lemma universal_newlines_open_line l :
  is_open_line l = true → universal_newlines l = l.
Proof.
  induction l as [|c l IH]; [done|]. simpl.
  intros [[_ Hcr%negb_true_iff]%andb_true_iff Hl]%andb_true_iff. rewrite Hcr.
  destruct l as [|c' l]; [done|]. simpl in Hl. by rewrite (IH Hl).
Qed.

(** Text written line by line reads back as the same lines. *)
Lemma lines_of_written ls last :
  Forall (fun l => is_line l = true) ls →
  is_open_line last = true →
  lines (universal_newlines (concat_chunks (ls ++ [last]))) = ls ++ [last].
Proof.
  intros Hls Hlast. induction Hls as [|l ls Hl _ IH]; simpl.
  - by rewrite append_empty_r, universal_newlines_open_line, lines_open_line.
  - by rewrite universal_newlines_line_app, lines_line_app, IH.
Qed.

(** ** VocabularyAugmentor *)

Section augmentors.

Context {imports : Imports}.

Lemma dict_get_set_eq d k v v0 :
  dict_get d k = Some v0 → dict_get (dict_set d k v) k = Some v.
Proof.
  induction d as [|[k' v'] d IH]; simpl; [done|].
  destruct (String.eqb k' k) eqn:E; simpl; rewrite E; [done|]. exact IH.
Qed.

Lemma dict_get_set_ne d k k' v :
  k ≠ k' → dict_get (dict_set d k v) k' = dict_get d k'.
Proof.
  intros Hne. induction d as [|[k0 v0] d IH]; simpl; [done|].
  destruct (String.eqb k0 k) eqn:E; simpl.
  - apply String.eqb_eq in E as ->.
    by destruct (String.eqb k k') eqn:E'; [apply String.eqb_eq in E'|].
  - by rewrite IH.
Qed.

Lemma dict_set_keys d k v : map fst (dict_set d k v) = map fst d.
Proof.
  induction d as [|[k0 v0] d IH]; simpl; [done|].
  destruct (String.eqb k0 k); simpl; [done|]. by rewrite IH.
Qed.

Lemma mentions_reserved_id_set d k v row :
  mentions_reserved_id (dict_set d k v) row = mentions_reserved_id d row.
Proof. unfold mentions_reserved_id. by rewrite dict_set_keys. Qed.

Lemma surviving_set d k v rows : surviving (dict_set d k v) rows = surviving d rows.
Proof.
  unfold surviving. induction rows as [|row rows IH]; simpl; [done|].
  by rewrite mentions_reserved_id_set, IH.
Qed.

(** C10: for a reserved id whose template row has a last field but one,
    [get_aou_vocabulary_row] returns the delimiter-joined row and leaves
    the row held by [VOCABULARY_UPDATES] with that field overwritten by
    the version: a later reader of the dict gets the changed row, the
    rows of the other ids are untouched, and the world differs from the
    one before whenever the field held something else. *)
Theorem get_aou_vocabulary_row_overwrites_template vocab_id vocab_row w :
  dict_get (VOCABULARY_UPDATES w) vocab_id = Some vocab_row →
  (2 ≤ length vocab_row)%nat →
  ∃ w',
    get_aou_vocabulary_row vocab_id w
    = (Ok (rendered DELIMITER get_aou_vocab_version vocab_row), w')
    ∧ dict_get (VOCABULARY_UPDATES w') vocab_id
      = Some (<[(length vocab_row - 2)%nat := get_aou_vocab_version]> vocab_row)
    ∧ (∀ row', dict_get (VOCABULARY_UPDATES w') vocab_id = Some row' →
         row' !! (length row' - 2)%nat = Some get_aou_vocab_version)
    ∧ (∀ k, k ≠ vocab_id →
         dict_get (VOCABULARY_UPDATES w') k = dict_get (VOCABULARY_UPDATES w) k)
    ∧ (vocab_row !! (length vocab_row - 2)%nat ≠ Some get_aou_vocab_version → w' ≠ w).
Proof.
  intros Hget Hlen. unfold get_aou_vocabulary_row. rewrite Hget.
  destruct (length vocab_row <? 2)%nat eqn:E; [apply Nat.ltb_lt in E; lia|].
  eexists. split; [reflexivity|]. simpl.
  rewrite (dict_get_set_eq _ _ _ _ Hget). split_and!.
  - done.
  - intros row' [= <-]. rewrite length_insert.
    apply list_lookup_insert_eq. lia.
  - intros k Hk. by apply dict_get_set_ne.
  - intros Hold Heq. apply Hold.
    apply (f_equal VOCABULARY_UPDATES) in Heq. simpl in Heq.
    pose proof (dict_get_set_eq _ _
      (<[(length vocab_row - 2)%nat := get_aou_vocab_version]> vocab_row) _ Hget) as Hnew.
    rewrite Heq, Hget in Hnew. injection Hnew as Hnew.
    assert (<[(length vocab_row - 2)%nat := get_aou_vocab_version]> vocab_row
              !! (length vocab_row - 2)%nat = Some get_aou_vocab_version) as Hx
      by (apply list_lookup_insert_eq; lia).
    congruence.
Qed.

Lemma run_bind {A B} (c : M A) (k : A → M B) w a w' :
  c w = (Ok a, w') → (c ≫= k) w = k a w'.
Proof. intros H. unfold mbind, M_bind, bind. by rewrite H. Qed.

Lemma get_aou_vocabulary_row_run vocab_id vocab_row w :
  dict_get (VOCABULARY_UPDATES w) vocab_id = Some vocab_row →
  (2 ≤ length vocab_row)%nat →
  get_aou_vocabulary_row vocab_id w
  = (Ok (rendered DELIMITER get_aou_vocab_version vocab_row),
     set_VOCABULARY_UPDATES
       (dict_set (VOCABULARY_UPDATES w) vocab_id
          (<[(length vocab_row - 2)%nat := get_aou_vocab_version]> vocab_row)) w).
Proof.
  intros Hget Hlen. unfold get_aou_vocabulary_row. rewrite Hget.
  by destruct (length vocab_row <? 2)%nat eqn:E; [apply Nat.ltb_lt in E; lia|].
Qed.

Lemma rendered_again d v vocab_row :
  rendered d v (<[(length vocab_row - 2)%nat := v]> vocab_row) = rendered d v vocab_row.
Proof. unfold rendered. by rewrite length_insert, list_insert_insert_eq. Qed.

Lemma find_truthy (f : string → bool) keys :
  Forall (fun k => k ≠ EmptyString) keys →
  truthy_opt (List.find f keys) = existsb f keys.
Proof.
  induction 1 as [|k keys Hk _ IH]; simpl; [done|].
  destruct (f k); simpl; [by destruct k|done].
Qed.

(** The copy loop: the surviving records go to the output in order; the
    dict, the faults and the other files stay as they are. *)
Lemma copy_rows_run in_path out_fp rows w :
  Forall (fun k => k ≠ EmptyString) (map fst (VOCABULARY_UPDATES w)) →
  ∃ w',
    for_each rows (copy_row in_path out_fp) w = (Ok tt, w')
    ∧ chunks out_fp w' = chunks out_fp w ++ surviving (VOCABULARY_UPDATES w) rows
    ∧ VOCABULARY_UPDATES w' = VOCABULARY_UPDATES w
    ∧ open_fault w' = open_fault w
    ∧ (∀ p, File p ≠ out_fp → files w' !! p = files w !! p).
Proof.
  intros Hkeys. revert w Hkeys. induction rows as [|row rows IH]; intros w Hkeys.
  { exists w. by rewrite app_nil_r. }
  assert (∃ w1, copy_row in_path out_fp row w = (Ok tt, w1)
            ∧ chunks out_fp w1 = chunks out_fp w ++ surviving (VOCABULARY_UPDATES w) [row]
            ∧ VOCABULARY_UPDATES w1 = VOCABULARY_UPDATES w
            ∧ open_fault w1 = open_fault w
            ∧ (∀ p, File p ≠ out_fp → files w1 !! p = files w !! p))
    as (w1 & Hrun1 & Hout1 & Hd1 & Hf1 & Hfiles1).
  { unfold copy_row, _vocab_id_match, mbind, M_bind, bind, surviving,
      mentions_reserved_id. simpl.
    rewrite (find_truthy _ _ Hkeys).
    destruct (existsb _ _); simpl.
    - eexists. split; [reflexivity|]. rewrite app_nil_r.
      by destruct out_fp.
    - rewrite write_returns. eexists. split; [reflexivity|].
      rewrite chunks_write_same. destruct out_fp as [q|]; simpl; split_and!; try done.
      intros p Hp. apply lookup_insert_ne. congruence. }
  destruct (IH w1) as (w2 & Hrun2 & Hout2 & Hd2 & Hf2 & Hfiles2);
    [by rewrite Hd1|].
  exists w2. split_and!.
  - simpl. by rewrite (run_bind _ _ _ _ _ Hrun1).
  - rewrite Hout2, Hout1, Hd1, <- app_assoc. f_equal.
    unfold surviving. simpl. by destruct (negb _).
  - congruence.
  - congruence.
  - intros p Hp. by rewrite Hfiles2, Hfiles1.
Qed.

(** One run of [append_vocabulary], with what it leaves for a later
    run: the output file, the faults, and a dict whose rows render as
    before. *)
Lemma append_vocabulary_run in_path out_path text general custom w :
  in_path ≠ out_path →
  open_fault w !! in_path = None →
  open_fault w !! out_path = None →
  files w !! in_path = Some text →
  dict_get (VOCABULARY_UPDATES w) AOU_GEN_ID = Some general →
  (2 ≤ length general)%nat →
  dict_get (VOCABULARY_UPDATES w) AOU_CUSTOM_ID = Some custom →
  (2 ≤ length custom)%nat →
  Forall (fun k => k ≠ EmptyString) (map fst (VOCABULARY_UPDATES w)) →
  ∃ w',
    append_vocabulary in_path out_path w = (Ok tt, w')
    ∧ files w' !! out_path
      = Some (surviving (VOCABULARY_UPDATES w)
                (lines (universal_newlines (concat_chunks text)))
              ++ [rendered DELIMITER get_aou_vocab_version general +:+ nl;
                  rendered DELIMITER get_aou_vocab_version custom])
    ∧ open_fault w' = open_fault w
    ∧ map fst (VOCABULARY_UPDATES w') = map fst (VOCABULARY_UPDATES w)
    ∧ (∃ general1,
         dict_get (VOCABULARY_UPDATES w') AOU_GEN_ID = Some general1
         ∧ length general1 = length general
         ∧ rendered DELIMITER get_aou_vocab_version general1
           = rendered DELIMITER get_aou_vocab_version general)
    ∧ (∃ custom1,
         dict_get (VOCABULARY_UPDATES w') AOU_CUSTOM_ID = Some custom1
         ∧ length custom1 = length custom
         ∧ rendered DELIMITER get_aou_vocab_version custom1
           = rendered DELIMITER get_aou_vocab_version custom).
Proof.
  intros Hne Hfin Hfout Hin Hg Hlg Hc Hlc Hkeys.
  unfold append_vocabulary.
  rewrite (run_bind _ _ _ _ _ (get_aou_vocabulary_row_run _ _ _ Hg Hlg)).
  set (general' := <[(length general - 2)%nat := get_aou_vocab_version]> general).
  set (d1 := dict_set (VOCABULARY_UPDATES w) AOU_GEN_ID general').
  set (w1 := set_VOCABULARY_UPDATES d1 w).
  assert (∃ custom1, dict_get d1 AOU_CUSTOM_ID = Some custom1
            ∧ length custom1 = length custom
            ∧ rendered DELIMITER get_aou_vocab_version custom1
              = rendered DELIMITER get_aou_vocab_version custom)
    as (custom1 & Hc1 & Hlc1 & Hr1).
  { destruct (decide (AOU_GEN_ID = AOU_CUSTOM_ID)) as [Heq|Hneq].
    - rewrite <- Heq in Hc |- *. rewrite Hg in Hc. injection Hc as <-.
      exists general'. split; [by eapply dict_get_set_eq|].
      subst general'. by rewrite length_insert, rendered_again.
    - exists custom. subst d1. by rewrite dict_get_set_ne. }
  rewrite (run_bind _ _ _ _ _
             (get_aou_vocabulary_row_run AOU_CUSTOM_ID custom1 w1 Hc1 ltac:(lia))).
  rewrite Hr1.
  set (custom' := <[(length custom1 - 2)%nat := get_aou_vocab_version]> custom1).
  set (d2 := dict_set (VOCABULARY_UPDATES w1) AOU_CUSTOM_ID custom').
  set (w2 := set_VOCABULARY_UPDATES d2 w1).
  assert (open_w out_path w2
          = (Ok (File out_path), set_files (<[out_path := []]> (files w2)) w2)) as Hopen.
  { unfold open_w. simpl. by rewrite Hfout. }
  rewrite (run_bind _ _ _ _ _ Hopen).
  set (w3 := set_files _ w2).
  assert (open_r in_path w3
          = (Ok (lines (universal_newlines (concat_chunks text))), w3)) as Hread.
  { unfold open_r. simpl. rewrite Hfin, lookup_insert_ne by done. by rewrite Hin. }
  rewrite (run_bind _ _ _ _ _ Hread).
  assert (map fst d2 = map fst (VOCABULARY_UPDATES w)) as Hkeys2.
  { subst d2 d1. simpl. by rewrite !dict_set_keys. }
  destruct (copy_rows_run in_path (File out_path)
              (lines (universal_newlines (concat_chunks text))) w3)
    as (w4 & Hloop & Hout & Hd4 & Hf4 & _).
  { simpl. by rewrite Hkeys2. }
  rewrite (run_bind _ _ _ _ _ Hloop).
  rewrite (run_bind _ _ _ _ _ (write_returns _ _ _)), write_returns.
  eexists. split; [reflexivity|].
  simpl in Hout, Hd4, Hf4. rewrite lookup_insert_eq in Hout. simpl in Hout.
  split_and!.
  - simpl. rewrite lookup_insert_eq, lookup_insert_eq. simpl.
    rewrite Hout. subst d2 d1. simpl.
    by rewrite !surviving_set, <- !app_assoc.
  - simpl. by rewrite Hf4.
  - simpl. by rewrite Hd4.
  - simpl. rewrite Hd4.
    destruct (decide (AOU_GEN_ID = AOU_CUSTOM_ID)) as [Heq|Hneq].
    + exists custom'. split; [|split].
      * subst d2. rewrite Heq. by eapply dict_get_set_eq.
      * subst custom'. rewrite length_insert, Hlc1.
        rewrite <- Heq, Hg in Hc. by injection Hc as <-.
      * subst custom'. rewrite rendered_again, Hr1.
        rewrite <- Heq, Hg in Hc. by injection Hc as <-.
    + exists general'. split; [|split].
      * subst d2. simpl. rewrite dict_get_set_ne by done.
        subst d1. by eapply dict_get_set_eq.
      * subst general'. by rewrite length_insert.
      * subst general'. by rewrite rendered_again.
  - simpl. rewrite Hd4. exists custom'. split; [|split].
    + subst d2. by eapply dict_get_set_eq.
    + subst custom'. by rewrite length_insert.
    + subst custom'. by rewrite rendered_again.
Qed.

(** C3: [append_vocabulary] writes the input records that contain no key
    of [VOCABULARY_UPDATES], as read and in input order, then the general
    row followed by a newline, then the custom row with nothing after it;
    both rows are the templates joined by the delimiter with the version
    field set to the digest of [AOU_VOCAB_PATH]. *)
Theorem append_vocabulary_output in_path out_path text general custom w :
  in_path ≠ out_path →
  open_fault w !! in_path = None →
  open_fault w !! out_path = None →
  files w !! in_path = Some text →
  dict_get (VOCABULARY_UPDATES w) AOU_GEN_ID = Some general →
  (2 ≤ length general)%nat →
  dict_get (VOCABULARY_UPDATES w) AOU_CUSTOM_ID = Some custom →
  (2 ≤ length custom)%nat →
  Forall (fun k => k ≠ EmptyString) (map fst (VOCABULARY_UPDATES w)) →
  ∃ w',
    append_vocabulary in_path out_path w = (Ok tt, w')
    ∧ chunks (File out_path) w'
      = surviving (VOCABULARY_UPDATES w)
          (lines (universal_newlines (concat_chunks text)))
        ++ [rendered DELIMITER (hash_dir AOU_VOCAB_PATH) general +:+ nl;
            rendered DELIMITER (hash_dir AOU_VOCAB_PATH) custom].
Proof.
  intros Hne Hfin Hfout Hin Hg Hlg Hc Hlc Hkeys.
  destruct (append_vocabulary_run in_path out_path text general custom w)
    as (w' & Hrun & Hout & _); try done.
  exists w'. split; [done|]. simpl. by rewrite Hout.
Qed.

Lemma surviving_keys d d' rows :
  map fst d = map fst d' → surviving d rows = surviving d' rows.
Proof. intros H. unfold surviving, mentions_reserved_id. by rewrite H. Qed.

Lemma surviving_app d rows rows' :
  surviving d (rows ++ rows') = surviving d rows ++ surviving d rows'.
Proof. apply List.filter_app. Qed.

Lemma surviving_again d rows : surviving d (surviving d rows) = surviving d rows.
Proof.
  unfold surviving. induction rows as [|row rows IH]; simpl; [done|].
  destruct (negb (mentions_reserved_id d row)) eqn:E; simpl; [|done].
  by rewrite E, IH.
Qed.

Lemma surviving_Forall (P : string → Prop) d rows :
  Forall P rows → Forall P (surviving d rows).
Proof.
  unfold surviving. induction 1 as [|row rows Hrow _ IH]; simpl; [done|].
  destruct (negb (mentions_reserved_id d row)); [by constructor|done].
Qed.

(** X18: augmentation is a fixed point when every input line ends with
    its newline and the two rendered rows are one line each with a
    reserved id in it: the second run, fed the first output with the same
    digest, writes the same chunks (what C4 says, short of inputs whose
    last record has no newline). *)
Lemma append_vocabulary_twice in_path out1 out2 text general custom w :
  in_path ≠ out1 →
  out1 ≠ out2 →
  open_fault w !! in_path = None →
  open_fault w !! out1 = None →
  open_fault w !! out2 = None →
  files w !! in_path = Some text →
  dict_get (VOCABULARY_UPDATES w) AOU_GEN_ID = Some general →
  (2 ≤ length general)%nat →
  dict_get (VOCABULARY_UPDATES w) AOU_CUSTOM_ID = Some custom →
  (2 ≤ length custom)%nat →
  Forall (fun k => k ≠ EmptyString) (map fst (VOCABULARY_UPDATES w)) →
  Forall (fun l => is_line l = true) (lines (universal_newlines (concat_chunks text))) →
  is_line (rendered DELIMITER get_aou_vocab_version general +:+ nl) = true →
  is_open_line (rendered DELIMITER get_aou_vocab_version custom) = true →
  mentions_reserved_id (VOCABULARY_UPDATES w)
    (rendered DELIMITER get_aou_vocab_version general +:+ nl) = true →
  mentions_reserved_id (VOCABULARY_UPDATES w)
    (rendered DELIMITER get_aou_vocab_version custom) = true →
  ∃ w1 w2,
    append_vocabulary in_path out1 w = (Ok tt, w1)
    ∧ append_vocabulary out1 out2 w1 = (Ok tt, w2)
    ∧ files w2 !! out2 = files w1 !! out1.
Proof.
  intros Hne Hne' Hfin Hf1 Hf2 Hin Hg Hlg Hc Hlc Hkeys Hlines Hgl Hcl Hgm Hcm.
  destruct (append_vocabulary_run in_path out1 text general custom w)
    as (w1 & Hrun1 & Hout1 & Hfault1 & Hkeys1
        & (general1 & Hg1 & Hlg1 & Hrg1) & (custom1 & Hc1 & Hlc1 & Hrc1)); try done.
  destruct (append_vocabulary_run out1 out2 _ general1 custom1 w1
              Hne' ltac:(by rewrite Hfault1) ltac:(by rewrite Hfault1)
              Hout1 Hg1 ltac:(lia) Hc1 ltac:(lia) ltac:(by rewrite Hkeys1))
    as (w2 & Hrun2 & Hout2 & _).
  exists w1, w2. split_and!; [done..|].
  rewrite Hout2, Hout1, Hrg1, Hrc1. f_equal.
  rewrite (surviving_keys _ _ _ Hkeys1).
  set (kept := surviving (VOCABULARY_UPDATES w)
                 (lines (universal_newlines (concat_chunks text)))).
  set (general_line := rendered DELIMITER get_aou_vocab_version general +:+ nl) in *.
  set (custom_line := rendered DELIMITER get_aou_vocab_version custom) in *.
  change (kept ++ [general_line; custom_line])
    with (kept ++ [general_line] ++ [custom_line]).
  rewrite (app_assoc kept), lines_of_written; cycle 1.
  { apply Forall_app. split; [by apply surviving_Forall|by constructor]. }
  { done. }
  rewrite !surviving_app. subst kept. rewrite surviving_again.
  unfold surviving at 2 3. simpl. rewrite Hgm, Hcm. simpl.
  by rewrite !app_nil_r, <- app_assoc.
Qed.

Lemma write_rows_run fp rows w :
  ∃ w', for_each rows (write fp) w = (Ok tt, w') ∧ chunks fp w' = chunks fp w ++ rows.
Proof.
  revert w. induction rows as [|row rows IH]; intros w.
  { exists w. by rewrite app_nil_r. }
  destruct (IH (write fp row w).2) as (w' & Hrun & Hout).
  exists w'. split.
  - simpl. by rewrite (run_bind _ _ _ _ _ (write_returns _ _ _)).
  - by rewrite Hout, chunks_write_same, <- app_assoc.
Qed.

Lemma surviving_no_reserved_id d rows :
  Forall (fun row => ∀ k, k ∈ map fst d → contains k row = false) (surviving d rows).
Proof.
  apply Forall_forall. intros row [_ Hrow]%list_elem_of_In%filter_In k Hk.
  apply negb_true_iff in Hrow. unfold mentions_reserved_id in Hrow.
  destruct (contains k row) eqn:E; [|done].
  rewrite <- Hrow. symmetry. apply existsb_exists. exists k.
  by rewrite <- list_elem_of_In.
Qed.

(** C8: the output of [append_concepts] is the input records that contain
    no key of [VOCABULARY_UPDATES], followed by the lines of the custom
    concept file as they are, the first one left out when the sniffer
    finds a header; so a record with a reserved id in it can only lie in
    that appended block. *)
Theorem append_concepts_output in_path out_path text resource header_found w :
  in_path ≠ out_path →
  out_path ≠ AOU_VOCAB_CONCEPT_CSV_PATH →
  open_fault w !! in_path = None →
  open_fault w !! out_path = None →
  open_fault w !! AOU_VOCAB_CONCEPT_CSV_PATH = None →
  files w !! in_path = Some text →
  files w !! AOU_VOCAB_CONCEPT_CSV_PATH = Some resource →
  has_header
    (concat_chunks (take 5 (lines (universal_newlines (concat_chunks resource)))))
  = Ok header_found →
  Forall (fun k => k ≠ EmptyString) (map fst (VOCABULARY_UPDATES w)) →
  ∃ r w' kept,
    append_concepts in_path out_path w = (r, w')
    ∧ r = match header_found, lines (universal_newlines (concat_chunks resource)) with
          | true, [] => Raise StopIteration
          | _, _ => Ok tt
          end
    ∧ chunks (File out_path) w'
      = kept ++ (if header_found
                 then tail (lines (universal_newlines (concat_chunks resource)))
                 else lines (universal_newlines (concat_chunks resource)))
    ∧ kept = surviving (VOCABULARY_UPDATES w)
               (lines (universal_newlines (concat_chunks text)))
    ∧ Forall (fun row => ∀ k, k ∈ map fst (VOCABULARY_UPDATES w) → contains k row = false)
        kept.
Proof.
  intros Hne Hres Hfin Hfout Hfres Hin Hresource Hsniff Hkeys.
  unfold append_concepts.
  assert (open_w out_path w
          = (Ok (File out_path), set_files (<[out_path := []]> (files w)) w)) as Hopen.
  { unfold open_w. by rewrite Hfout. }
  rewrite (run_bind _ _ _ _ _ Hopen).
  set (w1 := set_files _ w).
  assert (open_r in_path w1
          = (Ok (lines (universal_newlines (concat_chunks text))), w1)) as Hread.
  { unfold open_r. simpl. rewrite Hfin, lookup_insert_ne by done. by rewrite Hin. }
  rewrite (run_bind _ _ _ _ _ Hread).
  destruct (copy_rows_run in_path (File out_path)
              (lines (universal_newlines (concat_chunks text))) w1 Hkeys)
    as (w2 & Hloop & Hout & _ & Hf2 & Hfiles2).
  rewrite (run_bind _ _ _ _ _ Hloop).
  simpl in Hout. rewrite lookup_insert_eq in Hout. simpl in Hout.
  set (custom_concepts := lines (universal_newlines (concat_chunks resource))) in *.
  assert (open_r AOU_VOCAB_CONCEPT_CSV_PATH w2 = (Ok custom_concepts, w2)) as Hread2.
  { unfold open_r. rewrite Hf2. simpl. rewrite Hfres.
    rewrite Hfiles2 by congruence. simpl.
    rewrite lookup_insert_ne by done. by rewrite Hresource. }
  rewrite (run_bind _ _ _ _ _ Hread2).
  assert (lift (has_header (concat_chunks (take 5 custom_concepts))) w2
          = (Ok header_found, w2)) as Hlift by (unfold lift; by rewrite Hsniff).
  rewrite (run_bind _ _ _ _ _ Hlift).
  destruct header_found; [destruct custom_concepts as [|first rest]|].
  - exists (Raise StopIteration), w2, (surviving (VOCABULARY_UPDATES w)
                                         (lines (universal_newlines (concat_chunks text)))).
    split_and!; try done.
    + simpl. by rewrite Hout, app_nil_r.
    + apply surviving_no_reserved_id.
  - destruct (write_rows_run (File out_path) rest w2) as (w3 & Hrun & Hout3).
    exists (Ok tt), w3, (surviving (VOCABULARY_UPDATES w)
                           (lines (universal_newlines (concat_chunks text)))).
    split_and!; try done.
    + rewrite Hout3. simpl. by rewrite Hout.
    + apply surviving_no_reserved_id.
  - destruct (write_rows_run (File out_path) custom_concepts w2) as (w3 & Hrun & Hout3).
    exists (Ok tt), w3, (surviving (VOCABULARY_UPDATES w)
                           (lines (universal_newlines (concat_chunks text)))).
    split_and!; try done.
    + rewrite Hout3. simpl. by rewrite Hout.
    + apply surviving_no_reserved_id.
Qed.

End augmentors.

Section augmentor_runs.

#[local] Existing Instance Sample.imports.

Lemma get_aou_vocabulary_row_overwrites_template_witness :
  ∃ w',
    get_aou_vocabulary_row "AoU_General" Sample.world
    = (Ok (rendered DELIMITER get_aou_vocab_version
             ["AoU_General"; "AoU_General"; "aou.org/general"; "old"; "2000000000"]), w')
    ∧ dict_get (VOCABULARY_UPDATES w') "AoU_General"
      = Some ["AoU_General"; "AoU_General"; "aou.org/general"; "5d41402a"; "2000000000"]
    ∧ w' ≠ Sample.world.
Proof.
  destruct (get_aou_vocabulary_row_overwrites_template "AoU_General"
              ["AoU_General"; "AoU_General"; "aou.org/general"; "old"; "2000000000"]
              Sample.world) as (w' & Hrun & Hrow & _ & _ & Hne).
  - reflexivity.
  - simpl. lia.
  - exists w'. split_and!; [exact Hrun|exact Hrow|].
    apply Hne. discriminate.
Defined.

Lemma append_vocabulary_output_witness :
  ∃ w',
    append_vocabulary "in/VOCABULARY.csv" "out/VOCABULARY.csv" Sample.terminated
    = (Ok tt, w')
    ∧ chunks (File "out/VOCABULARY.csv") w'
      = surviving Sample.templates
          (lines (universal_newlines
                    (concat_chunks [Sample.vocabulary_header +:+ Sample.snomed +:+ nl])))
        ++ [rendered DELIMITER (hash_dir AOU_VOCAB_PATH)
              ["AoU_General"; "AoU_General"; "aou.org/general"; "old"; "2000000000"]
            +:+ nl;
            rendered DELIMITER (hash_dir AOU_VOCAB_PATH)
              ["AoU_Custom"; "AoU_Custom"; "aou.org/custom"; "old"; "2100000000"]].
Proof.
  apply (append_vocabulary_output "in/VOCABULARY.csv" "out/VOCABULARY.csv"
           [Sample.vocabulary_header +:+ Sample.snomed +:+ nl]
           ["AoU_General"; "AoU_General"; "aou.org/general"; "old"; "2000000000"]
           ["AoU_Custom"; "AoU_Custom"; "aou.org/custom"; "old"; "2100000000"]
           Sample.terminated).
  - discriminate.
  - reflexivity.
  - reflexivity.
  - reflexivity.
  - reflexivity.
  - simpl. lia.
  - reflexivity.
  - simpl. lia.
  - repeat constructor; discriminate.
Defined.

Lemma append_concepts_output_witness :
  ∃ r w' kept,
    append_concepts "in/CONCEPT.csv" "out/CONCEPT.csv" Sample.concepts = (r, w')
    ∧ r = Ok tt
    ∧ chunks (File "out/CONCEPT.csv") w'
      = kept ++ ["2000000001" +:+ Sample.tab +:+ "New" +:+ Sample.tab +:+ "AoU_General" +:+ nl]
    ∧ kept = [Sample.concept_header;
              "1" +:+ Sample.tab +:+ "Aspirin" +:+ Sample.tab +:+ "RxNorm" +:+ nl]
    ∧ Forall (fun row => ∀ k, k ∈ map fst Sample.templates → contains k row = false) kept.
Proof.
  apply (append_concepts_output "in/CONCEPT.csv" "out/CONCEPT.csv"
           [Sample.concept_header
            +:+ "1" +:+ Sample.tab +:+ "Aspirin" +:+ Sample.tab +:+ "RxNorm" +:+ nl
            +:+ "2" +:+ Sample.tab +:+ "Old" +:+ Sample.tab +:+ "AoU_General" +:+ nl]
           [Sample.concept_header
            +:+ "2000000001" +:+ Sample.tab +:+ "New" +:+ Sample.tab +:+ "AoU_General" +:+ nl]
           true Sample.concepts).
  - discriminate.
  - discriminate.
  - reflexivity.
  - reflexivity.
  - reflexivity.
  - reflexivity.
  - reflexivity.
  - reflexivity.
  - repeat constructor; discriminate.
Defined.

(** C4, at an input the code gets wrong: the vocabulary file ends without
    a newline after its last record.  The first run writes the general row
    onto the end of that record; the second run, reading the first
    output with the same digest, finds a reserved id in that line and
    drops it, so the SNOMED record is lost and the second output differs
    from the first. *)
Theorem append_vocabulary_twice_unterminated :
  ∃ w1 w2,
    append_vocabulary "in/VOCABULARY.csv" "out1/VOCABULARY.csv" Sample.unterminated
    = (Ok tt, w1)
    ∧ append_vocabulary "out1/VOCABULARY.csv" "out2/VOCABULARY.csv" w1 = (Ok tt, w2)
    ∧ concat_chunks (chunks (File "out1/VOCABULARY.csv") w1)
      = Sample.vocabulary_header +:+ Sample.snomed +:+ Sample.general_row +:+ nl
        +:+ Sample.custom_row
    ∧ concat_chunks (chunks (File "out2/VOCABULARY.csv") w2)
      = Sample.vocabulary_header +:+ Sample.general_row +:+ nl +:+ Sample.custom_row
    ∧ concat_chunks (chunks (File "out2/VOCABULARY.csv") w2)
      ≠ concat_chunks (chunks (File "out1/VOCABULARY.csv") w1).
Proof.
  exists (append_vocabulary "in/VOCABULARY.csv" "out1/VOCABULARY.csv"
            Sample.unterminated).2.
  exists (append_vocabulary "out1/VOCABULARY.csv" "out2/VOCABULARY.csv"
            (append_vocabulary "in/VOCABULARY.csv" "out1/VOCABULARY.csv"
               Sample.unterminated).2).2.
  split_and!.
  - vm_compute. reflexivity.
  - vm_compute. reflexivity.
  - vm_compute. reflexivity.
  - vm_compute. reflexivity.
  - vm_compute. discriminate.
Qed.

(** With the newline there, the second output is the first. *)
Lemma append_vocabulary_twice_terminated :
  ∃ w1 w2,
    append_vocabulary "in/VOCABULARY.csv" "out1/VOCABULARY.csv" Sample.terminated
    = (Ok tt, w1)
    ∧ append_vocabulary "out1/VOCABULARY.csv" "out2/VOCABULARY.csv" w1 = (Ok tt, w2)
    ∧ chunks (File "out2/VOCABULARY.csv") w2 = chunks (File "out1/VOCABULARY.csv") w1
    ∧ chunks (File "out1/VOCABULARY.csv") w1
      = [Sample.vocabulary_header; Sample.snomed +:+ nl; Sample.general_row +:+ nl;
         Sample.custom_row].
Proof.
  exists (append_vocabulary "in/VOCABULARY.csv" "out1/VOCABULARY.csv"
            Sample.terminated).2.
  exists (append_vocabulary "out1/VOCABULARY.csv" "out2/VOCABULARY.csv"
            (append_vocabulary "in/VOCABULARY.csv" "out1/VOCABULARY.csv"
               Sample.terminated).2).2.
  split_and!; vm_compute; reflexivity.
Qed.

End augmentor_runs.

(** ** AugmentationOrchestrator *)

Section orchestrator.

Context {imports : Imports}.

Lemma locate_concept_absent in_dir file_names found :
  has_resource CONCEPT file_names = false →
  (fold_left (locate in_dir) file_names found).1 = found.1.
Proof.
  revert found. induction file_names as [|f fs IH]; intros found; simpl; [done|].
  intros [Hf Hfs]%orb_false_iff. rewrite (IH _ Hfs).
  unfold locate. destruct (path.splitext (lower f)) as [t e]. simpl in Hf.
  rewrite Hf. by destruct (String.eqb t VOCABULARY).
Qed.

Lemma locate_vocabulary_absent in_dir file_names found :
  has_resource VOCABULARY file_names = false →
  (fold_left (locate in_dir) file_names found).2 = found.2.
Proof.
  revert found. induction file_names as [|f fs IH]; intros found; simpl; [done|].
  intros [Hf Hfs]%orb_false_iff. rewrite (IH _ Hfs).
  unfold locate. destruct (path.splitext (lower f)) as [t e]. simpl in Hf.
  rewrite Hf. by destruct (String.eqb t CONCEPT).
Qed.

(** C7: when no entry of the input directory has the base name [CONCEPT],
    or none has the base name [VOCABULARY] (lower-cased, extension
    stripped), [add_aou_vocabs] raises [IOError] saying which file was not
    found and leaves the world as it was: nothing is opened or written. *)
Theorem add_aou_vocabs_resource_not_found in_dir out_dir file_names w :
  listing w !! in_dir = Some file_names →
  has_resource CONCEPT file_names = false
  ∨ has_resource VOCABULARY file_names = false →
  ∃ msg,
    add_aou_vocabs in_dir out_dir w = (Raise (OSError PlainOSError msg), w)
    ∧ (msg = "CONCEPT.csv was not found in " +:+ in_dir
       ∨ msg = "VOCABULARY.csv was not found in " +:+ in_dir).
Proof.
  intros Hls Habsent. unfold add_aou_vocabs.
  assert (os_listdir in_dir w = (Ok file_names, w)) as Hrun
    by (unfold os_listdir; by rewrite Hls).
  rewrite (run_bind _ _ _ _ _ Hrun).
  destruct (fold_left (locate in_dir) file_names (None, None))
    as [concept_in_path vocabulary_in_path] eqn:E.
  destruct Habsent as [Hc|Hv].
  - pose proof (locate_concept_absent in_dir file_names (None, None) Hc) as H.
    rewrite E in H. simpl in H. subst. eexists. split; [reflexivity|]. by left.
  - pose proof (locate_vocabulary_absent in_dir file_names (None, None) Hv) as H.
    rewrite E in H. simpl in H. subst.
    destruct concept_in_path; eexists; (split; [reflexivity|]); [by right|by left].
Qed.

End orchestrator.

Section orchestrator_runs.

#[local] Existing Instance Sample.imports.

Lemma add_aou_vocabs_resource_not_found_witness :
  ∃ msg,
    add_aou_vocabs "in" "out"
      (Sample.with_dir "in" ["CONCEPT.csv"; "Vocabulary.bak.csv"] Sample.concepts)
    = (Raise (OSError PlainOSError msg),
       Sample.with_dir "in" ["CONCEPT.csv"; "Vocabulary.bak.csv"] Sample.concepts)
    ∧ (msg = "CONCEPT.csv was not found in in"
       ∨ msg = "VOCABULARY.csv was not found in in").
Proof.
  apply (add_aou_vocabs_resource_not_found "in" "out"
           ["CONCEPT.csv"; "Vocabulary.bak.csv"]).
  - reflexivity.
  - right. reflexivity.
Defined.

End orchestrator_runs.

(** ** FileTransformJob *)

Section file_transform.

Context {imports : Imports}.

Lemma os_makedirs_raises path e w w1 :
  os_makedirs path w = (Raise e, w1) → w1 = w ∧ ∃ k, e = OSError k path.
Proof.
  unfold os_makedirs. destruct (mkdir_fault w !! path) as [k|].
  - intros [= <- <-]. eauto.
  - destruct (listing w !! path); intros [= <- <-]. eauto.
Qed.

(** Whatever [OSError] directory creation ends with, [transform_file] logs
    that the directory already exists and goes on to open the three
    streams: refusal for any other cause is handled as pre-existence
    is. *)
Lemma transform_file_makedirs_raises file_path out_dir e w w1 :
  os_makedirs (path.join out_dir ERRORS) w = (Raise e, w1) →
  transform_file file_path out_dir w
  = (in_fp ← open_r file_path;
     out_fp ← open_w (path.join out_dir (path.basename file_path));
     err_fp ← open_w (path.join (path.join out_dir ERRORS) (path.basename file_path));
     _transform_csv in_fp out_fp (Some err_fp))
      (logging_info ("Error directory:" +:+ String TAB (path.join out_dir ERRORS)
                     +:+ String TAB " already exists") w).2.
Proof.
  intros Hmk. destruct (os_makedirs_raises _ _ _ _ Hmk) as (-> & k & ->).
  unfold transform_file, try_except, mbind, M_bind, bind at 1.
  by rewrite Hmk.
Qed.

(** Pre-existence of the errors directory is not an error. *)
Lemma transform_file_errors_dir_exists file_path out_dir names w :
  mkdir_fault w !! path.join out_dir ERRORS = None →
  listing w !! path.join out_dir ERRORS = Some names →
  transform_file file_path out_dir w
  = (in_fp ← open_r file_path;
     out_fp ← open_w (path.join out_dir (path.basename file_path));
     err_fp ← open_w (path.join (path.join out_dir ERRORS) (path.basename file_path));
     _transform_csv in_fp out_fp (Some err_fp))
      (logging_info ("Error directory:" +:+ String TAB (path.join out_dir ERRORS)
                     +:+ String TAB " already exists") w).2.
Proof.
  intros Hfault Hdir.
  apply (transform_file_makedirs_raises _ _
           (OSError FileExistsError (path.join out_dir ERRORS)) w w).
  unfold os_makedirs. by rewrite Hfault, Hdir.
Qed.

End file_transform.

Section file_transform_runs.

#[local] Existing Instance Sample.imports.

(** C9, where the code departs from it: creating [out/errors] is refused
    with [PermissionError], which is not pre-existence; [transform_file]
    does not stop there: it logs that the directory already exists, opens
    the streams and transforms the file to the end. *)
Theorem transform_file_creation_failure_suppressed :
  os_makedirs "out/errors" Sample.refused
  = (Raise (OSError PermissionError "out/errors"), Sample.refused)
  ∧ ∃ w',
      transform_file "in/f.csv" "out" Sample.refused = (Ok tt, w')
      ∧ infos w'
        = ["Error directory:" +:+ String TAB "out/errors" +:+ String TAB " already exists"]
      ∧ files w' !! "out/f.csv"
        = Some ["name" +:+ Sample.tab +:+ "valid_start_date" +:+ nl;
                "a" +:+ Sample.tab +:+ "2020-01-01" +:+ nl]
      ∧ files w' !! "out/errors/f.csv" = Some [].
Proof.
  split; [reflexivity|].
  exists (transform_file "in/f.csv" "out" Sample.refused).2.
  split_and!; vm_compute; reflexivity.
Qed.

(** When the error file cannot be opened afterwards, the transform does
    end with an exception, but with that of [open], and only after the
    output file of an earlier run has been emptied. *)
Lemma transform_file_creation_failure_then_open_fails :
  ∃ w',
    transform_file "in/f.csv" "out" Sample.refused_and_missing
    = (Raise (OSError FileNotFoundError "out/errors/f.csv"), w')
    ∧ infos w'
      = ["Error directory:" +:+ String TAB "out/errors" +:+ String TAB " already exists"]
    ∧ files Sample.refused_and_missing !! "out/f.csv" = Some ["kept from an earlier run"]
    ∧ files w' !! "out/f.csv" = Some [].
Proof.
  exists (transform_file "in/f.csv" "out" Sample.refused_and_missing).2.
  split_and!; vm_compute; reflexivity.
Qed.

End file_transform_runs.

(** * Further properties *)

(** ** DateNormalizer, continued *)

Lemma re_match_bq_canonical s :
  canonical_date s = true → Re.re_match BQ_DATE_PATTERN s = true.
Proof.
  intros H. apply re_match_spec. exists s. split; [by apply consume_bq|by left].
Qed.

Lemma eight_digits_inv t :
  eight_digits t = true →
  ∃ y1 y2 y3 y4 m1 m2 d1 d2,
    t = String y1 (String y2 (String y3 (String y4
          (String m1 (String m2 (String d1 (String d2 EmptyString)))))))
    ∧ forallb is_digit [y1; y2; y3; y4; m1; m2; d1; d2] = true.
Proof.
  intros [Hlen%Nat.eqb_eq Hd]%andb_true_iff.
  do 8 (destruct t as [|? t]; [done|]). destruct t; [|done].
  by eexists _, _, _, _, _, _, _, _.
Qed.

(** What the raw branch builds is in canonical form. *)
Lemma raw_match_slices v :
  Re.re_match RAW_DATE_PATTERN v = true →
  canonical_date (join "-" [slice v 0 4; slice v 4 6; slice v 6 8]) = true.
Proof.
  intros (t & Ht%consume_raw & Hv)%re_match_spec.
  apply eight_digits_inv in Ht
    as (y1 & y2 & y3 & y4 & m1 & m2 & d1 & d2 & -> & Hd).
  assert (join "-" [slice v 0 4; slice v 4 6; slice v 6 8]
          = String y1 (String y2 (String y3 (String y4 (String "-"
              (String m1 (String m2 (String "-"
                 (String d1 (String d2 EmptyString)))))))))) as ->
    by (by destruct Hv as [-> | ->]).
  unfold canonical_date. simpl list_ascii_of_string. cbv iota beta.
  by rewrite Hd.
Qed.

(** X1: normalising twice is normalising once: a value [format_date_str]
    returns is returned unchanged when given back to it. *)
Theorem format_date_str_idempotent v v' :
  format_date_str v = Ok v' → format_date_str v' = Ok v'.
Proof.
  unfold format_date_str at 1.
  destruct (Re.re_match BQ_DATE_PATTERN v) eqn:Hbq.
  - intros [= <-]. unfold format_date_str. by rewrite Hbq.
  - destruct (Re.re_match RAW_DATE_PATTERN v) eqn:Hraw; [|done].
    intros [= <-].
    pose proof (re_match_bq_canonical _ (raw_match_slices v Hraw)) as Hc.
    cbn [join] in Hc. unfold format_date_str. by rewrite Hc.
Qed.

Lemma format_date_str_idempotent_witness :
  format_date_str "20200101" = Ok "2020-01-01"
  ∧ format_date_str "2020-01-01" = Ok "2020-01-01".
Proof.
  split; [reflexivity|].
  apply (format_date_str_idempotent "20200101" "2020-01-01"). reflexivity.
Defined.

(** X2: a string already in canonical YYYY-MM-DD form is returned as it
    is. *)
Theorem format_date_str_canonical s :
  canonical_date s = true → format_date_str s = Ok s.
Proof.
  intros H. unfold format_date_str. by rewrite (re_match_bq_canonical s H).
Qed.

Lemma format_date_str_canonical_witness :
  canonical_date "1999-12-31" = true ∧ format_date_str "1999-12-31" = Ok "1999-12-31".
Proof.
  split; [reflexivity|].
  apply (format_date_str_canonical "1999-12-31"). reflexivity.
Defined.

(** X3: whatever [format_date_str] returns is in canonical form, except
    that a canonical date followed by one newline is returned with its
    newline. *)
Theorem format_date_str_result v v' :
  format_date_str v = Ok v' →
  canonical_date v' = true
  ∨ (v' = v ∧ ∃ t, v = t +:+ nl ∧ canonical_date t = true).
Proof.
  unfold format_date_str.
  destruct (Re.re_match BQ_DATE_PATTERN v) eqn:Hbq.
  - intros [= <-].
    apply re_match_spec in Hbq as (t & Ht%consume_bq & [-> | ->]); [by left|].
    right. split; [done|]. by exists t.
  - destruct (Re.re_match RAW_DATE_PATTERN v) eqn:Hraw; [|done].
    intros [= <-]. left. by apply raw_match_slices.
Qed.

Lemma format_date_str_result_witness :
  format_date_str "20200101" = Ok "2020-01-01"
  ∧ (canonical_date "2020-01-01" = true
     ∨ ("2020-01-01" = "20200101"
        ∧ ∃ t, "20200101" = t +:+ nl ∧ canonical_date t = true)).
Proof.
  split; [reflexivity|].
  apply (format_date_str_result "20200101" "2020-01-01"). reflexivity.
Defined.

(** ** RecordTransformer, continued *)

Section record_transformer_more.

Context {imports : Imports}.

Lemma files_write_other fp data p w :
  File p ≠ fp → files (write fp data w).2 !! p = files w !! p.
Proof.
  intros Hne. destruct fp as [q|]; simpl; [|done].
  apply lookup_insert_ne. congruence.
Qed.

(** The loop over the records, chunk by chunk. *)
Lemma transform_rows_run out_fp err_fp date_indexes rows w :
  out_fp ≠ err_fp →
  ∃ w',
    for_each rows (transform_row out_fp err_fp date_indexes) w = (Ok tt, w')
    ∧ chunks out_fp w' = chunks out_fp w ++ omap (written_for date_indexes) rows
    ∧ chunks err_fp w' = chunks err_fp w ++ omap (reported_for date_indexes) rows
    ∧ (∀ p, File p ≠ out_fp → File p ≠ err_fp → files w' !! p = files w !! p).
Proof.
  intros Hne. revert w. induction rows as [|row rows IH]; intros w.
  { exists w. by rewrite !app_nil_r. }
  assert (∃ w1,
            transform_row out_fp err_fp date_indexes row w = (Ok tt, w1)
            ∧ chunks out_fp w1
              = chunks out_fp w ++ option_list (written_for date_indexes row)
            ∧ chunks err_fp w1
              = chunks err_fp w ++ option_list (reported_for date_indexes row)
            ∧ (∀ p, File p ≠ out_fp → File p ≠ err_fp → files w1 !! p = files w !! p))
    as (w1 & Hrun1 & Ho1 & He1 & Hf1).
  { unfold transform_row, written_for, reported_for.
    destruct (normalize_dates date_indexes row) as [shown [e|]] eqn:E.
    - rewrite (normalize_dates_exception _ _ _ _ E), write_returns.
      eexists. split; [done|]. simpl option_list.
      rewrite chunks_write_same, chunks_write_other, app_nil_r by done.
      split_and!; [done..|]. intros p _ Hp. by apply files_write_other.
    - rewrite write_returns. eexists. split; [done|]. simpl option_list.
      rewrite chunks_write_same, chunks_write_other, app_nil_r by done.
      split_and!; [done..|]. intros p Hp _. by apply files_write_other. }
  destruct (IH w1) as (w2 & Hrun2 & Ho2 & He2 & Hf2).
  exists w2. split_and!.
  - simpl. by rewrite (run_bind _ _ _ _ _ Hrun1).
  - rewrite Ho2, Ho1, <- app_assoc. simpl.
    by destruct (written_for date_indexes row).
  - rewrite He2, He1, <- app_assoc. simpl.
    by destruct (reported_for date_indexes row).
  - intros p Hp Hp'. by rewrite Hf2, Hf1.
Qed.

Lemma transform_csv_run in_fp out_fp err_fp header rows w :
  csv_reader DELIMITER in_fp = header :: rows →
  out_fp ≠ default Stderr err_fp →
  ∃ w',
    _transform_csv in_fp out_fp err_fp w = (Ok tt, w')
    ∧ chunks out_fp w'
      = chunks out_fp w
        ++ csv_writerow DELIMITER LINE_TERMINATOR header
           :: omap (written_for (date_indexes_from 0 header)) rows
    ∧ chunks (default Stderr err_fp) w'
      = chunks (default Stderr err_fp) w
        ++ omap (reported_for (date_indexes_from 0 header)) rows
    ∧ (∀ p, File p ≠ out_fp → File p ≠ default Stderr err_fp →
         files w' !! p = files w !! p).
Proof.
  intros Hread Hne. unfold _transform_csv. rewrite Hread.
  set (hdr := csv_writerow DELIMITER LINE_TERMINATOR header).
  destruct (transform_rows_run out_fp (default Stderr err_fp)
              (date_indexes_from 0 header) rows (write out_fp hdr w).2 Hne)
    as (w' & Hrun & Hout & Herr & Hframe).
  exists w'. split_and!.
  - by rewrite (run_bind _ _ _ _ _ (write_returns _ _ _)).
  - by rewrite Hout, chunks_write_same, <- app_assoc.
  - by rewrite Herr, chunks_write_other.
  - intros p Hp Hp'. rewrite Hframe by done. by apply files_write_other.
Qed.

(** X4: the streams [_transform_csv] leaves, record for record: the
    output gets the header and then, in input order, the normalised rows
    of the records whose date fields all parse; the error stream gets, in
    input order, one message for each of the others. *)
Theorem transform_csv_streams in_fp out_fp err_fp header rows w :
  csv_reader DELIMITER in_fp = header :: rows →
  out_fp ≠ default Stderr err_fp →
  ∃ w',
    _transform_csv in_fp out_fp err_fp w = (Ok tt, w')
    ∧ chunks out_fp w'
      = chunks out_fp w
        ++ csv_writerow DELIMITER LINE_TERMINATOR header
           :: omap (written_for (date_indexes_from 0 header)) rows
    ∧ chunks (default Stderr err_fp) w'
      = chunks (default Stderr err_fp) w
        ++ omap (reported_for (date_indexes_from 0 header)) rows.
Proof.
  intros Hread Hne.
  destruct (transform_csv_run in_fp out_fp err_fp header rows w Hread Hne)
    as (w' & Hrun & Hout & Herr & _).
  by exists w'.
Qed.

(** X5: when no column name ends in [_date], every record is written as
    read, after the header, and nothing goes to the error stream. *)
Theorem transform_csv_without_date_columns in_fp out_fp err_fp header rows w :
  csv_reader DELIMITER in_fp = header :: rows →
  out_fp ≠ default Stderr err_fp →
  Forall (fun item => endswith "_date" item = false) header →
  ∃ w',
    _transform_csv in_fp out_fp err_fp w = (Ok tt, w')
    ∧ chunks out_fp w'
      = chunks out_fp w ++ map (csv_writerow DELIMITER LINE_TERMINATOR) (header :: rows)
    ∧ chunks (default Stderr err_fp) w' = chunks (default Stderr err_fp) w.
Proof.
  intros Hread Hne Hnone.
  destruct (transform_csv_run in_fp out_fp err_fp header rows w Hread Hne)
    as (w' & Hrun & Hout & Herr & _).
  assert (date_indexes_from 0 header = []) as Hidx.
  { clear -Hnone. generalize 0%nat.
    induction Hnone as [|item header Hitem _ IH]; intros n; simpl; [done|].
    rewrite Hitem. apply IH. }
  rewrite Hidx in Hout, Herr.
  exists w'. split_and!; [done|..].
  - rewrite Hout. f_equal.
  - rewrite Herr.
    replace (omap (reported_for []) rows) with (@nil string); [by rewrite app_nil_r|].
    clear. induction rows as [|row rows IH]; simpl; done.
Qed.

(** X6: a record whose date fields all parse is written, with nothing on
    the error stream; the row written has the length of the record, its
    date fields in normalised form and every other field as read. *)
Theorem parsed_record_written header row out_fp err_fp w :
  out_fp ≠ err_fp →
  existsb (field_fails row) (date_indexes_from 0 header) = false →
  ∃ row',
    transform_row out_fp err_fp (date_indexes_from 0 header) row w
    = write out_fp (csv_writerow DELIMITER LINE_TERMINATOR row') w
    ∧ chunks err_fp (write out_fp (csv_writerow DELIMITER LINE_TERMINATOR row') w).2
      = chunks err_fp w
    ∧ length row' = length row
    ∧ (∀ j, j ∈ date_indexes_from 0 header → normalised_at row row' j)
    ∧ (∀ j, j ∉ date_indexes_from 0 header → row' !! j = row !! j).
Proof.
  intros Hne Hok.
  destruct (normalize_dates (date_indexes_from 0 header) row) as [row' r] eqn:E.
  destruct (normalize_dates_spec _ _ _ _ (date_indexes_from_NoDup 0 header) E)
    as (Hlen & nd & Hin & Hout & Hr).
  destruct r as [e|].
  { destruct Hr as (i & rest & Hsplit & Hfail).
    assert (field_fails row i = true) as Hi.
    { unfold field_fails, failure_at in *. destruct (row !! i); [|done].
      by rewrite Hfail. }
    assert (existsb (field_fails row) (date_indexes_from 0 header) = true) as Hex.
    { apply existsb_exists. exists i. split; [|done].
      apply list_elem_of_In. rewrite Hsplit. apply elem_of_app. right. by left. }
    congruence. }
  subst nd. exists row'. split_and!; try done.
  - unfold transform_row. by rewrite E.
  - by apply chunks_write_other.
Qed.

Lemma date_indexes_from_spec index header i :
  i ∈ date_indexes_from index header
  ↔ ∃ item, (index ≤ i)%nat ∧ header !! (i - index)%nat = Some item
            ∧ endswith "_date" item = true.
Proof.
  revert index. induction header as [|item header IH]; intros index; simpl.
  { split; [by intros ?%elem_of_nil|by intros (? & _ & ? & _)]. }
  assert (i ∈ date_indexes_from (S index) header
          ↔ ∃ item', (index < i)%nat ∧ header !! (i - S index)%nat = Some item'
                     ∧ endswith "_date" item' = true) as IH' by apply IH.
  destruct (decide (i = index)) as [->|Hi].
  - replace (index - index)%nat with 0%nat by lia. simpl.
    destruct (endswith "_date" item) eqn:E.
    + split; [intros _; by exists item|intros _; by left].
    + split.
      * intros (? & ? & _)%IH'. lia.
      * intros (? & _ & [= <-] & ?). congruence.
  - assert (∀ A (P : A → Prop),
              (∃ x, (index ≤ i)%nat ∧ P x) ↔ (∃ x, (index < i)%nat ∧ P x)) as Hlt.
    { intros A P. split; intros (x & ? & ?); exists x; (split; [lia|done]). }
    destruct (i - index)%nat as [|k] eqn:Ek.
    + split.
      * destruct (endswith "_date" item);
          [intros [->|(? & ? & _)%IH']%elem_of_cons|intros (? & ? & _)%IH']; lia.
      * intros (? & ? & _). lia.
    + replace (i - S index)%nat with k in IH' by lia. simpl.
      rewrite Hlt, <- IH'.
      destruct (endswith "_date" item); [|done].
      rewrite elem_of_cons. split; [by intros [?|?]|by right].
Qed.

(** X7: the date columns are exactly the positions of the header fields
    whose name ends in [_date]. *)
Theorem date_indexes_are_date_columns header i :
  i ∈ date_indexes_from 0 header
  ↔ ∃ item, header !! i = Some item ∧ endswith "_date" item = true.
Proof.
  rewrite date_indexes_from_spec. replace (i - 0)%nat with i by lia.
  split; [intros (item & _ & ?); by exists item|].
  intros (item & ?). exists item. split; [lia|done].
Qed.

End record_transformer_more.

Section record_transformer_more_runs.

#[local] Existing Instance Sample.imports.

Lemma transform_csv_streams_witness :
  ∃ w',
    _transform_csv
      ["name" +:+ Sample.tab +:+ "valid_start_date" +:+ nl;
       "a" +:+ Sample.tab +:+ "20200101" +:+ nl;
       "b" +:+ Sample.tab +:+ "2020/01/01" +:+ nl;
       "c" +:+ Sample.tab +:+ "2020-03-04" +:+ nl]
      (File "out/f.csv") None Sample.world = (Ok tt, w')
    ∧ chunks (File "out/f.csv") w'
      = chunks (File "out/f.csv") Sample.world
        ++ csv_writerow DELIMITER LINE_TERMINATOR ["name"; "valid_start_date"]
           :: omap (written_for (date_indexes_from 0 ["name"; "valid_start_date"]))
                [["a"; "20200101"]; ["b"; "2020/01/01"]; ["c"; "2020-03-04"]]
    ∧ chunks Stderr w'
      = chunks Stderr Sample.world
        ++ omap (reported_for (date_indexes_from 0 ["name"; "valid_start_date"]))
             [["a"; "20200101"]; ["b"; "2020/01/01"]; ["c"; "2020-03-04"]].
Proof.
  apply (transform_csv_streams
           ["name" +:+ Sample.tab +:+ "valid_start_date" +:+ nl;
            "a" +:+ Sample.tab +:+ "20200101" +:+ nl;
            "b" +:+ Sample.tab +:+ "2020/01/01" +:+ nl;
            "c" +:+ Sample.tab +:+ "2020-03-04" +:+ nl]
           (File "out/f.csv") None ["name"; "valid_start_date"]
           [["a"; "20200101"]; ["b"; "2020/01/01"]; ["c"; "2020-03-04"]]).
  - reflexivity.
  - discriminate.
Defined.

Lemma transform_csv_without_date_columns_witness :
  ∃ w',
    _transform_csv
      ["name" +:+ Sample.tab +:+ "code" +:+ nl; "a" +:+ Sample.tab +:+ "20200101" +:+ nl]
      (File "out/f.csv") (Some (File "out/errors/f.csv")) Sample.world = (Ok tt, w')
    ∧ chunks (File "out/f.csv") w'
      = chunks (File "out/f.csv") Sample.world
        ++ map (csv_writerow DELIMITER LINE_TERMINATOR)
             [["name"; "code"]; ["a"; "20200101"]]
    ∧ chunks (File "out/errors/f.csv") w' = chunks (File "out/errors/f.csv") Sample.world.
Proof.
  apply (transform_csv_without_date_columns
           ["name" +:+ Sample.tab +:+ "code" +:+ nl;
            "a" +:+ Sample.tab +:+ "20200101" +:+ nl]
           (File "out/f.csv") (Some (File "out/errors/f.csv"))
           ["name"; "code"] [["a"; "20200101"]]).
  - reflexivity.
  - discriminate.
  - repeat constructor.
Defined.

Lemma parsed_record_written_witness :
  ∃ row',
    transform_row (File "out") Stderr
      (date_indexes_from 0 ["name"; "valid_start_date"]) ["a"; "20200101"] Sample.world
    = write (File "out") (csv_writerow DELIMITER LINE_TERMINATOR row') Sample.world
    ∧ chunks Stderr
        (write (File "out") (csv_writerow DELIMITER LINE_TERMINATOR row') Sample.world).2
      = chunks Stderr Sample.world
    ∧ length row' = 2%nat
    ∧ (∀ j, j ∈ date_indexes_from 0 ["name"; "valid_start_date"] →
         normalised_at ["a"; "20200101"] row' j)
    ∧ (∀ j, j ∉ date_indexes_from 0 ["name"; "valid_start_date"] →
         row' !! j = ["a"; "20200101"] !! j).
Proof.
  apply (parsed_record_written ["name"; "valid_start_date"] ["a"; "20200101"]
           (File "out") Stderr Sample.world).
  - discriminate.
  - reflexivity.
Defined.

End record_transformer_more_runs.

(** ** FileTransformJob, continued *)

Section file_transform_more.

Context {imports : Imports}.

(** Creating the errors directory never stops the job and leaves the
    files and the faults alone. *)
Lemma errors_dir_step dir msg w :
  ∃ w1,
    try_except (os_makedirs dir) any_os_error (fun _ => logging_info msg) w = (Ok tt, w1)
    ∧ files w1 = files w
    ∧ open_fault w1 = open_fault w.
Proof.
  unfold try_except, os_makedirs.
  destruct (mkdir_fault w !! dir) as [k|]; simpl; [by eexists|].
  destruct (listing w !! dir); simpl; by eexists.
Qed.

Lemma transform_file_unfold file_path out_dir w w1 :
  try_except (os_makedirs (path.join out_dir ERRORS)) any_os_error
    (fun _ =>
       logging_info ("Error directory:" +:+ String TAB (path.join out_dir ERRORS)
                     +:+ String TAB " already exists")) w = (Ok tt, w1) →
  transform_file file_path out_dir w
  = (in_fp ← open_r file_path;
     out_fp ← open_w (path.join out_dir (path.basename file_path));
     err_fp ← open_w (path.join (path.join out_dir ERRORS) (path.basename file_path));
     _transform_csv in_fp out_fp (Some err_fp)) w1.
Proof. intros H. unfold transform_file. by rewrite (run_bind _ _ _ _ _ H). Qed.

Lemma for_each_preserves {A} (P : World → Prop) (xs : list A) body :
  (∀ x w r w', body x w = (r, w') → P w → P w') →
  ∀ w r w', for_each xs body w = (r, w') → P w → P w'.
Proof.
  intros Hbody. induction xs as [|x xs IH]; intros w r w'; simpl.
  - by intros [= _ <-].
  - unfold mbind, M_bind, bind. destruct (body x w) as [[[]|e] w1] eqn:E.
    + intros Hrest Hw. eapply IH; [done|]. by eapply Hbody.
    + intros [= _ <-] Hw. by eapply Hbody.
Qed.

Lemma write_keeps_files fp data p w :
  is_Some (files w !! p) → is_Some (files (write fp data w).2 !! p).
Proof.
  destruct fp as [q|]; simpl; [|done]. intros Hp.
  destruct (decide (q = p)) as [->|Hne].
  - rewrite lookup_insert_eq. by eexists.
  - by rewrite lookup_insert_ne.
Qed.

(** A file that is there stays there through [_transform_csv]. *)
Lemma transform_csv_keeps_files in_fp out_fp err_fp p w r w' :
  _transform_csv in_fp out_fp err_fp w = (r, w') →
  is_Some (files w !! p) → is_Some (files w' !! p).
Proof.
  unfold _transform_csv. destruct (csv_reader DELIMITER in_fp) as [|header rows].
  { by intros [= _ <-]. }
  rewrite (run_bind _ _ _ _ _ (write_returns _ _ _)).
  intros Hrun Hp.
  eapply (for_each_preserves (fun w => is_Some (files w !! p))); [|done|].
  - clear. intros row w r w'. unfold transform_row.
    destruct (normalize_dates _ row) as [shown [e|]].
    + destruct (value_or_index_error e).
      * rewrite write_returns. intros [= _ <-]. apply write_keeps_files.
      * by intros [= _ <-].
    + rewrite write_returns. intros [= _ <-]. apply write_keeps_files.
  - by apply write_keeps_files.
Qed.

(** X8: with the input readable and the two result paths writable and
    distinct from it and from each other, [transform_file] ends normally;
    the file of the input's base name in [out_dir] holds exactly the header
    and the normalised rows, the one under the errors subdirectory exactly
    the messages, whatever they held before; no other file changes. *)
Theorem transform_file_output file_path out_dir text header rows w :
  file_path ≠ path.join out_dir (path.basename file_path) →
  file_path ≠ path.join (path.join out_dir ERRORS) (path.basename file_path) →
  path.join out_dir (path.basename file_path)
  ≠ path.join (path.join out_dir ERRORS) (path.basename file_path) →
  open_fault w !! file_path = None →
  open_fault w !! path.join out_dir (path.basename file_path) = None →
  open_fault w !! path.join (path.join out_dir ERRORS) (path.basename file_path) = None →
  files w !! file_path = Some text →
  csv_reader DELIMITER (lines (universal_newlines (concat_chunks text))) = header :: rows →
  ∃ w',
    transform_file file_path out_dir w = (Ok tt, w')
    ∧ files w' !! path.join out_dir (path.basename file_path)
      = Some (csv_writerow DELIMITER LINE_TERMINATOR header
              :: omap (written_for (date_indexes_from 0 header)) rows)
    ∧ files w' !! path.join (path.join out_dir ERRORS) (path.basename file_path)
      = Some (omap (reported_for (date_indexes_from 0 header)) rows)
    ∧ (∀ p, p ≠ path.join out_dir (path.basename file_path) →
            p ≠ path.join (path.join out_dir ERRORS) (path.basename file_path) →
            files w' !! p = files w !! p).
Proof.
  set (out_file := path.join out_dir (path.basename file_path)).
  set (err_file := path.join (path.join out_dir ERRORS) (path.basename file_path)).
  intros Hio Hie Hoe Hfi Hfo Hfe Hin Hread.
  destruct (errors_dir_step (path.join out_dir ERRORS)
              ("Error directory:" +:+ String TAB (path.join out_dir ERRORS)
               +:+ String TAB " already exists") w) as (w1 & Hmk & Hfiles1 & Hfault1).
  rewrite (transform_file_unfold _ _ _ _ Hmk). fold out_file err_file.
  assert (open_r file_path w1
          = (Ok (lines (universal_newlines (concat_chunks text))), w1)) as Hopen.
  { unfold open_r. by rewrite Hfault1, Hfi, Hfiles1, Hin. }
  rewrite (run_bind _ _ _ _ _ Hopen).
  assert (open_w out_file w1
          = (Ok (File out_file), set_files (<[out_file := []]> (files w1)) w1)) as Hout.
  { unfold open_w. by rewrite Hfault1, Hfo. }
  rewrite (run_bind _ _ _ _ _ Hout).
  set (w2 := set_files _ w1).
  assert (open_w err_file w2
          = (Ok (File err_file), set_files (<[err_file := []]> (files w2)) w2)) as Herr.
  { unfold open_w. simpl. by rewrite Hfault1, Hfe. }
  rewrite (run_bind _ _ _ _ _ Herr).
  set (w3 := set_files _ w2).
  destruct (transform_csv_run (lines (universal_newlines (concat_chunks text)))
              (File out_file) (Some (File err_file)) header rows w3 Hread)
    as (w' & Hrun & Hco & Hce & Hframe); [simpl; congruence|].
  exists w'. split; [done|].
  simpl in Hco, Hce.
  rewrite lookup_insert_ne, lookup_insert_eq in Hco by done.
  rewrite lookup_insert_eq in Hce. simpl in Hco, Hce.
  assert (is_Some (files w' !! out_file)) as [co Eo].
  { eapply transform_csv_keeps_files; [done|]. simpl.
    rewrite lookup_insert_ne, lookup_insert_eq by done. by eexists. }
  assert (is_Some (files w' !! err_file)) as [ce Ee].
  { eapply transform_csv_keeps_files; [done|]. simpl.
    rewrite lookup_insert_eq. by eexists. }
  rewrite Eo in Hco. rewrite Ee in Hce. simpl in Hco, Hce.
  split_and!.
  - by rewrite Eo, Hco.
  - by rewrite Ee, Hce.
  - intros p Hpo Hpe. rewrite Hframe by (simpl; congruence).
    simpl. by rewrite !lookup_insert_ne, Hfiles1.
Qed.

(** X9: when the input file is not there, [transform_file] ends with
    [FileNotFoundError] for it and creates no output or error file. *)
Theorem transform_file_missing_input file_path out_dir w :
  open_fault w !! file_path = None →
  files w !! file_path = None →
  ∃ w',
    transform_file file_path out_dir w
    = (Raise (OSError FileNotFoundError file_path), w')
    ∧ files w' = files w.
Proof.
  intros Hfault Hin.
  destruct (errors_dir_step (path.join out_dir ERRORS)
              ("Error directory:" +:+ String TAB (path.join out_dir ERRORS)
               +:+ String TAB " already exists") w) as (w1 & Hmk & Hfiles1 & Hfault1).
  rewrite (transform_file_unfold _ _ _ _ Hmk).
  exists w1. split; [|done].
  unfold mbind, M_bind, bind, open_r. by rewrite Hfault1, Hfault, Hfiles1, Hin.
Qed.

(** X10: an input without any record, not even a header, makes
    [transform_file] end with [StopIteration], after the output file and
    the error file have been created empty. *)
Theorem transform_file_empty_input file_path out_dir text w :
  file_path ≠ path.join out_dir (path.basename file_path) →
  file_path ≠ path.join (path.join out_dir ERRORS) (path.basename file_path) →
  open_fault w !! file_path = None →
  open_fault w !! path.join out_dir (path.basename file_path) = None →
  open_fault w !! path.join (path.join out_dir ERRORS) (path.basename file_path) = None →
  files w !! file_path = Some text →
  csv_reader DELIMITER (lines (universal_newlines (concat_chunks text))) = [] →
  ∃ w',
    transform_file file_path out_dir w = (Raise StopIteration, w')
    ∧ files w' !! path.join out_dir (path.basename file_path) = Some []
    ∧ files w' !! path.join (path.join out_dir ERRORS) (path.basename file_path)
      = Some [].
Proof.
  set (out_file := path.join out_dir (path.basename file_path)).
  set (err_file := path.join (path.join out_dir ERRORS) (path.basename file_path)).
  intros Hio Hie Hfi Hfo Hfe Hin Hread.
  destruct (errors_dir_step (path.join out_dir ERRORS)
              ("Error directory:" +:+ String TAB (path.join out_dir ERRORS)
               +:+ String TAB " already exists") w) as (w1 & Hmk & Hfiles1 & Hfault1).
  rewrite (transform_file_unfold _ _ _ _ Hmk). fold out_file err_file.
  assert (open_r file_path w1
          = (Ok (lines (universal_newlines (concat_chunks text))), w1)) as Hopen.
  { unfold open_r. by rewrite Hfault1, Hfi, Hfiles1, Hin. }
  rewrite (run_bind _ _ _ _ _ Hopen).
  assert (open_w out_file w1
          = (Ok (File out_file), set_files (<[out_file := []]> (files w1)) w1)) as Hout.
  { unfold open_w. by rewrite Hfault1, Hfo. }
  rewrite (run_bind _ _ _ _ _ Hout).
  set (w2 := set_files _ w1).
  assert (open_w err_file w2
          = (Ok (File err_file), set_files (<[err_file := []]> (files w2)) w2)) as Herr.
  { unfold open_w. simpl. by rewrite Hfault1, Hfe. }
  rewrite (run_bind _ _ _ _ _ Herr).
  unfold _transform_csv. rewrite Hread.
  eexists. split; [reflexivity|]. simpl. split.
  - destruct (decide (err_file = out_file)) as [->|Hne].
    + by rewrite lookup_insert_eq.
    + by rewrite lookup_insert_ne, lookup_insert_eq.
  - by rewrite lookup_insert_eq.
Qed.

Lemma for_each_raise {A} (xs ys : list A) x body w w1 e w2 :
  for_each xs body w = (Ok tt, w1) →
  body x w1 = (Raise e, w2) →
  for_each (xs ++ x :: ys) body w = (Raise e, w2).
Proof.
  revert w. induction xs as [|x' xs IH]; intros w; simpl.
  - intros [= <-] Hx. unfold mbind, M_bind, bind. by rewrite Hx.
  - unfold mbind, M_bind, bind. destruct (body x' w) as [[[]|e'] w'] eqn:E; [|done].
    intros Hxs Hx. by apply IH.
Qed.

(** X11: [transform_files] fails fast: when the files before some entry
    are transformed and that entry's transform raises, the exception
    leaves [transform_files] at once, with the world as that transform
    left it; the entries after it are not looked at. *)
Theorem transform_files_fail_fast in_dir out_dir before bad rest w w1 e w2 :
  listing w !! in_dir = Some (before ++ bad :: rest) →
  for_each before (fun f => transform_file (path.join in_dir f) out_dir) w = (Ok tt, w1) →
  transform_file (path.join in_dir bad) out_dir w1 = (Raise e, w2) →
  transform_files in_dir out_dir w = (Raise e, w2).
Proof.
  intros Hls Hbefore Hbad. unfold transform_files.
  assert (os_listdir in_dir w = (Ok (before ++ bad :: rest), w)) as Hrun
    by (unfold os_listdir; by rewrite Hls).
  rewrite (run_bind _ _ _ _ _ Hrun).
  by apply (for_each_raise before rest bad _ w w1 e w2).
Qed.

End file_transform_more.

Section file_transform_more_runs.

#[local] Existing Instance Sample.imports.

Lemma transform_file_output_witness :
  ∃ w',
    transform_file "in/f.csv" "out" Sample.refused = (Ok tt, w')
    ∧ files w' !! path.join "out" (path.basename "in/f.csv")
      = Some (csv_writerow DELIMITER LINE_TERMINATOR ["name"; "valid_start_date"]
              :: omap (written_for (date_indexes_from 0 ["name"; "valid_start_date"]))
                   [["a"; "20200101"]])
    ∧ files w' !! path.join (path.join "out" ERRORS) (path.basename "in/f.csv")
      = Some (omap (reported_for (date_indexes_from 0 ["name"; "valid_start_date"]))
                [["a"; "20200101"]])
    ∧ (∀ p, p ≠ path.join "out" (path.basename "in/f.csv") →
            p ≠ path.join (path.join "out" ERRORS) (path.basename "in/f.csv") →
            files w' !! p = files Sample.refused !! p).
Proof.
  apply (transform_file_output "in/f.csv" "out"
           ["name" +:+ Sample.tab +:+ "valid_start_date" +:+ nl
            +:+ "a" +:+ Sample.tab +:+ "20200101" +:+ nl]
           ["name"; "valid_start_date"] [["a"; "20200101"]] Sample.refused).
  - vm_compute. discriminate.
  - vm_compute. discriminate.
  - vm_compute. discriminate.
  - reflexivity.
  - reflexivity.
  - reflexivity.
  - reflexivity.
  - reflexivity.
Defined.

Lemma transform_file_missing_input_witness :
  ∃ w',
    transform_file "in/gone.csv" "out" More.batch
    = (Raise (OSError FileNotFoundError "in/gone.csv"), w')
    ∧ files w' = files More.batch.
Proof.
  apply (transform_file_missing_input "in/gone.csv" "out" More.batch); reflexivity.
Defined.

Lemma transform_file_empty_input_witness :
  ∃ w',
    transform_file "in/empty.csv" "out" More.blank = (Raise StopIteration, w')
    ∧ files w' !! path.join "out" (path.basename "in/empty.csv") = Some []
    ∧ files w' !! path.join (path.join "out" ERRORS) (path.basename "in/empty.csv")
      = Some [].
Proof.
  apply (transform_file_empty_input "in/empty.csv" "out" [EmptyString] More.blank).
  - vm_compute. discriminate.
  - vm_compute. discriminate.
  - reflexivity.
  - reflexivity.
  - reflexivity.
  - reflexivity.
  - reflexivity.
Defined.

Lemma transform_files_fail_fast_witness :
  transform_files "in" "out" More.batch
  = (Raise (OSError FileNotFoundError "in/gone.csv"),
     (transform_file "in/gone.csv" "out"
        (transform_file "in/a.csv" "out" More.batch).2).2).
Proof.
  apply (transform_files_fail_fast "in" "out" ["a.csv"] "gone.csv" ["c.csv"]
           More.batch (transform_file "in/a.csv" "out" More.batch).2).
  - reflexivity.
  - vm_compute. reflexivity.
  - vm_compute. reflexivity.
Defined.

End file_transform_more_runs.

(** ** VocabularyAugmentor and ConceptAugmentor, continued *)

Section augmentors_more.

Context {imports : Imports}.

Lemma dict_set_set d k v :
  dict_set (dict_set d k v) k v = dict_set d k v.
Proof.
  induction d as [|[k' v'] d IH]; simpl; [done|].
  destruct (String.eqb k' k) eqn:E; simpl; rewrite E; [done|]. by rewrite IH.
Qed.

(** X12: asking for a row twice is asking once: after a call of
    [get_aou_vocabulary_row] that returned, the same call returns the same
    string and changes nothing any more. *)
Theorem get_aou_vocabulary_row_again vocab_id line w w1 :
  get_aou_vocabulary_row vocab_id w = (Ok line, w1) →
  get_aou_vocabulary_row vocab_id w1 = (Ok line, w1).
Proof.
  unfold get_aou_vocabulary_row at 1.
  destruct (dict_get (VOCABULARY_UPDATES w) vocab_id) as [vocab_row|] eqn:Hget; [|done].
  destruct (length vocab_row <? 2)%nat eqn:Hlen; [done|].
  intros [= <- <-]. apply Nat.ltb_ge in Hlen.
  rewrite (get_aou_vocabulary_row_run vocab_id
             (<[(length vocab_row - 2)%nat := get_aou_vocab_version]> vocab_row)).
  - rewrite rendered_again. unfold rendered. simpl.
    by rewrite length_insert, list_insert_insert_eq, dict_set_set.
  - simpl. by eapply dict_get_set_eq.
  - by rewrite length_insert.
Qed.

(** The copy loop with its warnings. *)
Lemma copy_rows_warnings in_path out_fp rows w :
  Forall (fun k => k ≠ EmptyString) (map fst (VOCABULARY_UPDATES w)) →
  ∃ w',
    for_each rows (copy_row in_path out_fp) w = (Ok tt, w')
    ∧ chunks out_fp w' = chunks out_fp w ++ surviving (VOCABULARY_UPDATES w) rows
    ∧ warnings w'
      = warnings w ++ omap (warning_for (VOCABULARY_UPDATES w) in_path) rows.
Proof.
  intros Hkeys. revert w Hkeys. induction rows as [|row rows IH]; intros w Hkeys.
  { exists w. by rewrite !app_nil_r. }
  assert (∃ w1, copy_row in_path out_fp row w = (Ok tt, w1)
            ∧ chunks out_fp w1 = chunks out_fp w ++ surviving (VOCABULARY_UPDATES w) [row]
            ∧ warnings w1
              = warnings w
                ++ option_list (warning_for (VOCABULARY_UPDATES w) in_path row)
            ∧ VOCABULARY_UPDATES w1 = VOCABULARY_UPDATES w)
    as (w1 & Hrun1 & Hout1 & Hwarn1 & Hd1).
  { unfold copy_row, _vocab_id_match, mbind, M_bind, bind, surviving, warning_for.
    simpl. rewrite (find_truthy _ _ Hkeys). fold (mentions_reserved_id (VOCABULARY_UPDATES w) row).
    destruct (mentions_reserved_id (VOCABULARY_UPDATES w) row); simpl.
    - eexists. split; [reflexivity|]. rewrite app_nil_r. by destruct out_fp.
    - rewrite write_returns. eexists. split; [reflexivity|].
      rewrite chunks_write_same. destruct out_fp; simpl; by rewrite app_nil_r. }
  destruct (IH w1) as (w2 & Hrun2 & Hout2 & Hwarn2); [by rewrite Hd1|].
  exists w2. split_and!.
  - simpl. by rewrite (run_bind _ _ _ _ _ Hrun1).
  - rewrite Hout2, Hout1, Hd1, <- app_assoc. f_equal.
    unfold surviving. simpl. by destruct (negb _).
  - rewrite Hwarn2, Hwarn1, Hd1, <- app_assoc. f_equal. simpl.
    by destruct (warning_for _ _ row).
Qed.

(** X13: in the copy loop of both augmentors every input line is either
    written or warned about, once and in input order: the lines without a
    reserved id go to the output, each other line adds one warning that
    names the first reserved id found in it, and the two counts add up to
    the number of lines. *)
Theorem copy_rows_conservation in_path out_fp rows w :
  Forall (fun k => k ≠ EmptyString) (map fst (VOCABULARY_UPDATES w)) →
  ∃ w',
    for_each rows (copy_row in_path out_fp) w = (Ok tt, w')
    ∧ chunks out_fp w' = chunks out_fp w ++ surviving (VOCABULARY_UPDATES w) rows
    ∧ warnings w'
      = warnings w ++ omap (warning_for (VOCABULARY_UPDATES w) in_path) rows
    ∧ (length (surviving (VOCABULARY_UPDATES w) rows)
       + length (omap (warning_for (VOCABULARY_UPDATES w) in_path) rows)
       = length rows)%nat.
Proof.
  intros Hkeys.
  destruct (copy_rows_warnings in_path out_fp rows w Hkeys) as (w' & Hrun & Hout & Hwarn).
  exists w'. split_and!; [done..|].
  clear. induction rows as [|row rows IH]; [done|].
  unfold surviving, omap in *. simpl. unfold warning_for at 1.
  destruct (mentions_reserved_id (VOCABULARY_UPDATES w) row); simpl; lia.
Qed.

(** The start of [append_vocabulary]: both rows rendered, the output
    file opened. *)
Lemma append_vocabulary_start in_path out_path general custom w :
  dict_get (VOCABULARY_UPDATES w) AOU_GEN_ID = Some general →
  (2 ≤ length general)%nat →
  dict_get (VOCABULARY_UPDATES w) AOU_CUSTOM_ID = Some custom →
  (2 ≤ length custom)%nat →
  open_fault w !! out_path = None →
  ∃ w3,
    append_vocabulary in_path out_path w
    = (in_fp ← open_r in_path;
       for_each in_fp (copy_row in_path (File out_path));;
       write (File out_path) (rendered DELIMITER get_aou_vocab_version general +:+ nl);;
       write (File out_path) (rendered DELIMITER get_aou_vocab_version custom)) w3
    ∧ files w3 = <[out_path := []]> (files w)
    ∧ open_fault w3 = open_fault w
    ∧ map fst (VOCABULARY_UPDATES w3) = map fst (VOCABULARY_UPDATES w).
Proof.
  intros Hg Hlg Hc Hlc Hfout. unfold append_vocabulary.
  rewrite (run_bind _ _ _ _ _ (get_aou_vocabulary_row_run _ _ _ Hg Hlg)).
  set (general' := <[(length general - 2)%nat := get_aou_vocab_version]> general).
  set (d1 := dict_set (VOCABULARY_UPDATES w) AOU_GEN_ID general').
  set (w1 := set_VOCABULARY_UPDATES d1 w).
  assert (∃ custom1, dict_get d1 AOU_CUSTOM_ID = Some custom1
            ∧ length custom1 = length custom
            ∧ rendered DELIMITER get_aou_vocab_version custom1
              = rendered DELIMITER get_aou_vocab_version custom)
    as (custom1 & Hc1 & Hlc1 & Hr1).
  { destruct (decide (AOU_GEN_ID = AOU_CUSTOM_ID)) as [Heq|Hneq].
    - rewrite <- Heq in Hc |- *. rewrite Hg in Hc. injection Hc as <-.
      exists general'. split; [by eapply dict_get_set_eq|].
      subst general'. by rewrite length_insert, rendered_again.
    - exists custom. subst d1. by rewrite dict_get_set_ne. }
  rewrite (run_bind _ _ _ _ _
             (get_aou_vocabulary_row_run AOU_CUSTOM_ID custom1 w1 Hc1 ltac:(lia))).
  rewrite Hr1.
  set (d2 := dict_set (VOCABULARY_UPDATES w1) AOU_CUSTOM_ID _).
  set (w2 := set_VOCABULARY_UPDATES d2 w1).
  assert (open_w out_path w2
          = (Ok (File out_path), set_files (<[out_path := []]> (files w2)) w2)) as Hopen.
  { unfold open_w. simpl. by rewrite Hfout. }
  rewrite (run_bind _ _ _ _ _ Hopen).
  eexists. split; [reflexivity|]. simpl. split_and!; [done..|].
  subst d2 d1. simpl. by rewrite !dict_set_keys.
Qed.

(** X14: augmenting a vocabulary file in place loses it: with the same
    path for input and output the file is emptied before it is read, so
    the result holds the two synthetic rows and nothing of what was
    there. *)
Theorem append_vocabulary_in_place path general custom w :
  dict_get (VOCABULARY_UPDATES w) AOU_GEN_ID = Some general →
  (2 ≤ length general)%nat →
  dict_get (VOCABULARY_UPDATES w) AOU_CUSTOM_ID = Some custom →
  (2 ≤ length custom)%nat →
  open_fault w !! path = None →
  ∃ w',
    append_vocabulary path path w = (Ok tt, w')
    ∧ files w' !! path
      = Some [rendered DELIMITER (hash_dir AOU_VOCAB_PATH) general +:+ nl;
              rendered DELIMITER (hash_dir AOU_VOCAB_PATH) custom].
Proof.
  intros Hg Hlg Hc Hlc Hfault.
  destruct (append_vocabulary_start path path general custom w)
    as (w3 & -> & Hfiles & Hfault3 & _); try done.
  assert (open_r path w3 = (Ok [], w3)) as Hread.
  { unfold open_r. by rewrite Hfault3, Hfault, Hfiles, lookup_insert_eq. }
  rewrite (run_bind _ _ _ _ _ Hread). simpl for_each.
  unfold mbind, M_bind, bind, ret. simpl.
  eexists. split; [reflexivity|]. simpl.
  by rewrite lookup_insert_eq, lookup_insert_eq, Hfiles, lookup_insert_eq.
Qed.

(** X15: when the vocabulary file to read is not there,
    [append_vocabulary] ends with [FileNotFoundError] for it, and the
    output file, opened first, is left behind empty. *)
Theorem append_vocabulary_missing_input in_path out_path general custom w :
  in_path ≠ out_path →
  dict_get (VOCABULARY_UPDATES w) AOU_GEN_ID = Some general →
  (2 ≤ length general)%nat →
  dict_get (VOCABULARY_UPDATES w) AOU_CUSTOM_ID = Some custom →
  (2 ≤ length custom)%nat →
  open_fault w !! in_path = None →
  open_fault w !! out_path = None →
  files w !! in_path = None →
  ∃ w',
    append_vocabulary in_path out_path w
    = (Raise (OSError FileNotFoundError in_path), w')
    ∧ files w' !! out_path = Some [].
Proof.
  intros Hne Hg Hlg Hc Hlc Hfin Hfout Hin.
  destruct (append_vocabulary_start in_path out_path general custom w)
    as (w3 & -> & Hfiles & Hfault3 & _); try done.
  exists w3. split.
  - unfold mbind, M_bind, bind, open_r.
    by rewrite Hfault3, Hfin, Hfiles, lookup_insert_ne, Hin.
  - by rewrite Hfiles, lookup_insert_eq.
Qed.

(** X16: when a reserved id has no template in [VOCABULARY_UPDATES],
    [append_vocabulary] ends with [TypeError] before any file is opened:
    the files are as they were. *)
Theorem append_vocabulary_missing_template in_path out_path w :
  dict_get (VOCABULARY_UPDATES w) AOU_GEN_ID = None
  ∨ (∃ general,
       dict_get (VOCABULARY_UPDATES w) AOU_GEN_ID = Some general
       ∧ (2 ≤ length general)%nat
       ∧ dict_get (VOCABULARY_UPDATES w) AOU_CUSTOM_ID = None) →
  ∃ msg w',
    append_vocabulary in_path out_path w = (Raise (TypeError msg), w')
    ∧ files w' = files w.
Proof.
  intros [Hg|(general & Hg & Hlg & Hc)]; unfold append_vocabulary.
  - exists "'NoneType' object does not support item assignment", w.
    split; [|done].
    unfold mbind, M_bind, bind, get_aou_vocabulary_row. by rewrite Hg.
  - rewrite (run_bind _ _ _ _ _ (get_aou_vocabulary_row_run _ _ _ Hg Hlg)).
    eexists _, _. split.
    + unfold mbind, M_bind, bind, get_aou_vocabulary_row. simpl.
      rewrite dict_get_set_ne, Hc; [reflexivity|]. intros Heq. congruence.
    + done.
Qed.

(** X17: when the custom concept file cannot be read or sniffed,
    [append_concepts] ends with that exception after the copy loop: the
    output file is left holding the surviving input records and none of
    the custom concepts. *)
Theorem append_concepts_partial_output in_path out_path text e w :
  in_path ≠ out_path →
  out_path ≠ AOU_VOCAB_CONCEPT_CSV_PATH →
  open_fault w !! in_path = None →
  open_fault w !! out_path = None →
  open_fault w !! AOU_VOCAB_CONCEPT_CSV_PATH = None →
  files w !! in_path = Some text →
  Forall (fun k => k ≠ EmptyString) (map fst (VOCABULARY_UPDATES w)) →
  (files w !! AOU_VOCAB_CONCEPT_CSV_PATH = None
   ∧ e = OSError FileNotFoundError AOU_VOCAB_CONCEPT_CSV_PATH)
  ∨ (∃ resource,
       files w !! AOU_VOCAB_CONCEPT_CSV_PATH = Some resource
       ∧ has_header
           (concat_chunks (take 5 (lines (universal_newlines (concat_chunks resource)))))
         = Raise e) →
  ∃ w',
    append_concepts in_path out_path w = (Raise e, w')
    ∧ chunks (File out_path) w'
      = surviving (VOCABULARY_UPDATES w)
          (lines (universal_newlines (concat_chunks text))).
Proof.
  intros Hne Hres Hfin Hfout Hfres Hin Hkeys Hfail.
  unfold append_concepts.
  assert (open_w out_path w
          = (Ok (File out_path), set_files (<[out_path := []]> (files w)) w)) as Hopen.
  { unfold open_w. by rewrite Hfout. }
  rewrite (run_bind _ _ _ _ _ Hopen).
  set (w1 := set_files _ w).
  assert (open_r in_path w1
          = (Ok (lines (universal_newlines (concat_chunks text))), w1)) as Hread.
  { unfold open_r. simpl. rewrite Hfin, lookup_insert_ne by done. by rewrite Hin. }
  rewrite (run_bind _ _ _ _ _ Hread).
  destruct (copy_rows_run in_path (File out_path)
              (lines (universal_newlines (concat_chunks text))) w1 Hkeys)
    as (w2 & Hloop & Hout & _ & Hf2 & Hfiles2).
  rewrite (run_bind _ _ _ _ _ Hloop).
  simpl in Hout. rewrite lookup_insert_eq in Hout. simpl in Hout.
  exists w2. split; [|done].
  destruct Hfail as [[Hnone ->]|(resource & Hsome & Hsniff)].
  - unfold mbind, M_bind, bind, open_r. rewrite Hf2. simpl. rewrite Hfres.
    rewrite Hfiles2 by congruence. simpl.
    rewrite lookup_insert_ne by done. by rewrite Hnone.
  - assert (open_r AOU_VOCAB_CONCEPT_CSV_PATH w2
            = (Ok (lines (universal_newlines (concat_chunks resource))), w2)) as Hread2.
    { unfold open_r. rewrite Hf2. simpl. rewrite Hfres.
      rewrite Hfiles2 by congruence. simpl.
      rewrite lookup_insert_ne by done. by rewrite Hsome. }
    rewrite (run_bind _ _ _ _ _ Hread2).
    unfold mbind, M_bind, bind, lift. by rewrite Hsniff.
Qed.

End augmentors_more.

Section augmentors_more_runs.

#[local] Existing Instance Sample.imports.

Lemma get_aou_vocabulary_row_again_witness :
  get_aou_vocabulary_row "AoU_General"
    (get_aou_vocabulary_row "AoU_General" Sample.world).2
  = (Ok Sample.general_row, (get_aou_vocabulary_row "AoU_General" Sample.world).2).
Proof.
  apply (get_aou_vocabulary_row_again "AoU_General" Sample.general_row Sample.world).
  vm_compute. reflexivity.
Defined.

Lemma copy_rows_conservation_witness :
  ∃ w',
    for_each
      ["SNOMED" +:+ Sample.tab +:+ "x" +:+ nl;
       "AoU_Custom" +:+ Sample.tab +:+ "AoU_General" +:+ nl;
       "LOINC" +:+ Sample.tab +:+ "y" +:+ nl]
      (copy_row "in/VOCABULARY.csv" (File "out/VOCABULARY.csv")) Sample.world
    = (Ok tt, w')
    ∧ chunks (File "out/VOCABULARY.csv") w'
      = chunks (File "out/VOCABULARY.csv") Sample.world
        ++ surviving (VOCABULARY_UPDATES Sample.world)
             ["SNOMED" +:+ Sample.tab +:+ "x" +:+ nl;
              "AoU_Custom" +:+ Sample.tab +:+ "AoU_General" +:+ nl;
              "LOINC" +:+ Sample.tab +:+ "y" +:+ nl]
    ∧ warnings w'
      = warnings Sample.world
        ++ omap (warning_for (VOCABULARY_UPDATES Sample.world) "in/VOCABULARY.csv")
             ["SNOMED" +:+ Sample.tab +:+ "x" +:+ nl;
              "AoU_Custom" +:+ Sample.tab +:+ "AoU_General" +:+ nl;
              "LOINC" +:+ Sample.tab +:+ "y" +:+ nl]
    ∧ (length (surviving (VOCABULARY_UPDATES Sample.world)
                 ["SNOMED" +:+ Sample.tab +:+ "x" +:+ nl;
                  "AoU_Custom" +:+ Sample.tab +:+ "AoU_General" +:+ nl;
                  "LOINC" +:+ Sample.tab +:+ "y" +:+ nl])
       + length (omap (warning_for (VOCABULARY_UPDATES Sample.world) "in/VOCABULARY.csv")
                   ["SNOMED" +:+ Sample.tab +:+ "x" +:+ nl;
                    "AoU_Custom" +:+ Sample.tab +:+ "AoU_General" +:+ nl;
                    "LOINC" +:+ Sample.tab +:+ "y" +:+ nl])
       = 3)%nat.
Proof.
  apply (copy_rows_conservation "in/VOCABULARY.csv" (File "out/VOCABULARY.csv")
           ["SNOMED" +:+ Sample.tab +:+ "x" +:+ nl;
            "AoU_Custom" +:+ Sample.tab +:+ "AoU_General" +:+ nl;
            "LOINC" +:+ Sample.tab +:+ "y" +:+ nl] Sample.world).
  repeat constructor; discriminate.
Defined.

Lemma append_vocabulary_in_place_witness :
  ∃ w',
    append_vocabulary "in/VOCABULARY.csv" "in/VOCABULARY.csv" Sample.terminated
    = (Ok tt, w')
    ∧ files w' !! "in/VOCABULARY.csv"
      = Some [rendered DELIMITER (hash_dir AOU_VOCAB_PATH)
                ["AoU_General"; "AoU_General"; "aou.org/general"; "old"; "2000000000"]
              +:+ nl;
              rendered DELIMITER (hash_dir AOU_VOCAB_PATH)
                ["AoU_Custom"; "AoU_Custom"; "aou.org/custom"; "old"; "2100000000"]].
Proof.
  apply (append_vocabulary_in_place "in/VOCABULARY.csv"
           ["AoU_General"; "AoU_General"; "aou.org/general"; "old"; "2000000000"]
           ["AoU_Custom"; "AoU_Custom"; "aou.org/custom"; "old"; "2100000000"]
           Sample.terminated).
  - reflexivity.
  - simpl. lia.
  - reflexivity.
  - simpl. lia.
  - reflexivity.
Defined.

Lemma append_vocabulary_missing_input_witness :
  ∃ w',
    append_vocabulary "in/VOCABULARY.csv" "out/VOCABULARY.csv" Sample.world
    = (Raise (OSError FileNotFoundError "in/VOCABULARY.csv"), w')
    ∧ files w' !! "out/VOCABULARY.csv" = Some [].
Proof.
  apply (append_vocabulary_missing_input "in/VOCABULARY.csv" "out/VOCABULARY.csv"
           ["AoU_General"; "AoU_General"; "aou.org/general"; "old"; "2000000000"]
           ["AoU_Custom"; "AoU_Custom"; "aou.org/custom"; "old"; "2100000000"]
           Sample.world).
  - discriminate.
  - reflexivity.
  - simpl. lia.
  - reflexivity.
  - simpl. lia.
  - reflexivity.
  - reflexivity.
  - reflexivity.
Defined.

Lemma append_vocabulary_missing_template_witness :
  ∃ msg w',
    append_vocabulary "in/VOCABULARY.csv" "out/VOCABULARY.csv" More.no_templates
    = (Raise (TypeError msg), w')
    ∧ files w' = files More.no_templates.
Proof.
  apply (append_vocabulary_missing_template "in/VOCABULARY.csv" "out/VOCABULARY.csv"
           More.no_templates).
  left. reflexivity.
Defined.

Lemma append_concepts_partial_output_witness :
  ∃ w',
    append_concepts "in/CONCEPT.csv" "out/CONCEPT.csv" More.no_resource
    = (Raise (OSError FileNotFoundError AOU_VOCAB_CONCEPT_CSV_PATH), w')
    ∧ chunks (File "out/CONCEPT.csv") w'
      = surviving (VOCABULARY_UPDATES More.no_resource)
          (lines (universal_newlines
                    (concat_chunks
                       [Sample.concept_header
                        +:+ "1" +:+ Sample.tab +:+ "Aspirin" +:+ Sample.tab +:+ "RxNorm" +:+ nl
                        +:+ "2" +:+ Sample.tab +:+ "Old" +:+ Sample.tab +:+ "AoU_General"
                        +:+ nl]))).
Proof.
  apply (append_concepts_partial_output "in/CONCEPT.csv" "out/CONCEPT.csv"
           [Sample.concept_header
            +:+ "1" +:+ Sample.tab +:+ "Aspirin" +:+ Sample.tab +:+ "RxNorm" +:+ nl
            +:+ "2" +:+ Sample.tab +:+ "Old" +:+ Sample.tab +:+ "AoU_General" +:+ nl]
           (OSError FileNotFoundError AOU_VOCAB_CONCEPT_CSV_PATH) More.no_resource).
  - discriminate.
  - discriminate.
  - reflexivity.
  - reflexivity.
  - reflexivity.
  - reflexivity.
  - repeat constructor; discriminate.
  - left. split; reflexivity.
Defined.

Lemma append_vocabulary_twice_witness :
  ∃ w1 w2,
    append_vocabulary "in/VOCABULARY.csv" "out1/VOCABULARY.csv" Sample.terminated
    = (Ok tt, w1)
    ∧ append_vocabulary "out1/VOCABULARY.csv" "out2/VOCABULARY.csv" w1 = (Ok tt, w2)
    ∧ files w2 !! "out2/VOCABULARY.csv" = files w1 !! "out1/VOCABULARY.csv".
Proof.
  apply (append_vocabulary_twice "in/VOCABULARY.csv" "out1/VOCABULARY.csv"
           "out2/VOCABULARY.csv"
           [Sample.vocabulary_header +:+ Sample.snomed +:+ nl]
           ["AoU_General"; "AoU_General"; "aou.org/general"; "old"; "2000000000"]
           ["AoU_Custom"; "AoU_Custom"; "aou.org/custom"; "old"; "2100000000"]
           Sample.terminated).
  - discriminate.
  - discriminate.
  - reflexivity.
  - reflexivity.
  - reflexivity.
  - reflexivity.
  - reflexivity.
  - simpl. lia.
  - reflexivity.
  - simpl. lia.
  - repeat constructor; discriminate.
  - repeat constructor.
  - reflexivity.
  - reflexivity.
  - reflexivity.
  - reflexivity.
Defined.

End augmentors_more_runs.

(** ** AugmentationOrchestrator, continued *)

Section orchestrator_more.

Context {imports : Imports}.

(** X19: when several entries of the directory have the base name of a
    resource, the last one listed is the one used, for each resource on
    its own: whatever was found before, an entry named [CONCEPT] that no
    later entry named [CONCEPT] follows ends up as the concept path,
    whatever else the later entries are; and an entry named [VOCABULARY]
    (and not also [CONCEPT], which the code tests first) that no later
    entry named [VOCABULARY] follows ends up as the vocabulary path. *)
Theorem locate_last_match_wins in_dir before file_name after found :
  ((path.splitext (lower file_name)).1 = CONCEPT →
   has_resource CONCEPT after = false →
   (fold_left (locate in_dir) (before ++ file_name :: after) found).1
   = Some (path.join in_dir file_name))
  ∧ ((path.splitext (lower file_name)).1 = VOCABULARY →
     (path.splitext (lower file_name)).1 ≠ CONCEPT →
     has_resource VOCABULARY after = false →
     (fold_left (locate in_dir) (before ++ file_name :: after) found).2
     = Some (path.join in_dir file_name)).
Proof.
  rewrite fold_left_app. simpl. split.
  - intros Ht Hc. rewrite (locate_concept_absent _ _ _ Hc).
    unfold locate. destruct (path.splitext (lower file_name)) as [t e].
    simpl in Ht. subst t. by rewrite String.eqb_refl.
  - intros Ht Hne Hv. rewrite (locate_vocabulary_absent _ _ _ Hv).
    unfold locate. destruct (path.splitext (lower file_name)) as [t e].
    simpl in Ht, Hne. subst t. apply String.eqb_neq in Hne.
    by rewrite Hne, String.eqb_refl.
Qed.

End orchestrator_more.

Section orchestrator_more_runs.

#[local] Existing Instance Sample.imports.

(** A directory that holds both resources, the concepts twice: the later
    concept file is used although the vocabulary file is listed after it,
    and the vocabulary file is used although a concept file precedes it. *)
Lemma locate_last_match_wins_witness :
  (fold_left (locate "in")
     (["CONCEPT.csv"] ++ "Concept.csv" :: ["VOCABULARY.csv"; "notes.txt"])
     (None, None)).1
  = Some (path.join "in" "Concept.csv")
  ∧ (fold_left (locate "in")
       (["CONCEPT.csv"; "Concept.csv"] ++ "VOCABULARY.csv" :: ["notes.txt"])
       (None, None)).2
    = Some (path.join "in" "VOCABULARY.csv").
Proof.
  split.
  - refine (proj1 (locate_last_match_wins "in" ["CONCEPT.csv"] "Concept.csv"
                     ["VOCABULARY.csv"; "notes.txt"] (None, None)) _ _);
      reflexivity.
  - refine (proj2 (locate_last_match_wins "in" ["CONCEPT.csv"; "Concept.csv"]
                     "VOCABULARY.csv" ["notes.txt"] (None, None)) _ _ _);
      [reflexivity|vm_compute; discriminate|reflexivity].
Defined.

End orchestrator_more_runs.

(** ** The command line *)

Section command_line_more.

Context {imports : Imports} {commands : Commands}.

Lemma getattr_parsed command in_dir out_dir args :
  parse_args command in_dir out_dir = Some args →
  getattr args "command" = inl command
  ∧ getattr args "in_dir" = inl in_dir
  ∧ getattr args "out_dir" = inl out_dir
  ∧ ∀ name, name ≠ "command" → name ≠ "in_dir" → name ≠ "out_dir" →
      getattr args name
      = inr ("'Namespace' object has no attribute '" +:+ name +:+ "'").
Proof.
  unfold parse_args. destruct (existsb _ _); [|done]. intros [= <-].
  unfold getattr. split_and!.
  - by rewrite lookup_insert_eq.
  - rewrite lookup_insert_ne by done. by rewrite lookup_insert_eq.
  - rewrite !lookup_insert_ne by done. by rewrite lookup_insert_eq.
  - intros name H1 H2 H3. by rewrite !lookup_insert_ne, lookup_empty by done.
Qed.

(** The append branches do call their function when the namespace has
    the attribute they read. *)
Lemma main_append_vocabulary_given_file args file out_dir w :
  getattr args "command" = inl APPEND_VOCABULARY →
  APPEND_VOCABULARY ≠ TRANSFORM_FILES →
  APPEND_VOCABULARY ≠ ADD_AOU_VOCABS →
  getattr args "file" = inl file →
  getattr args "out_dir" = inl out_dir →
  main args w = called (append_vocabulary file out_dir) w.
Proof.
  intros Hc Ht%String.eqb_neq Ha%String.eqb_neq Hf Ho.
  unfold main, attr. by rewrite !Hc, Ht, Ha, String.eqb_refl, Hf, Ho.
Qed.

(** X20: of the four commands the parser accepts, [APPEND_VOCABULARY]
    and [APPEND_CONCEPTS] cannot run: the script reads [args.file], and
    the namespace the parser returns has the attributes [command],
    [in_dir] and [out_dir] only, so the lookup raises [AttributeError]
    before [append_vocabulary] or [append_concepts] is called, and nothing
    is read or written. *)
Theorem main_append_commands_raise command in_dir out_dir args w :
  parse_args command in_dir out_dir = Some args →
  command ≠ TRANSFORM_FILES →
  command ≠ ADD_AOU_VOCABS →
  main args w = (AttributeError "'Namespace' object has no attribute 'file'", w).
Proof.
  intros Hparse Ht%String.eqb_neq Ha%String.eqb_neq.
  destruct (getattr_parsed _ _ _ _ Hparse) as (Hc & _ & _ & Hother).
  unfold parse_args in Hparse. simpl in Hparse. rewrite Ht, Ha in Hparse. simpl in Hparse.
  unfold main, attr. rewrite !Hc, Ht, Ha.
  rewrite (Hother "file") by done.
  destruct (String.eqb command APPEND_VOCABULARY); [done|].
  destruct (String.eqb command APPEND_CONCEPTS); [done|].
  by rewrite orb_false_r in Hparse.
Qed.

End command_line_more.

Section command_line_runs.

#[local] Existing Instance Sample.imports.
#[local] Existing Instance More.commands.

Lemma main_append_commands_raise_witness :
  parse_args "append_vocabulary" "in" "out"
  = Some (<["command" := "append_vocabulary"]>
            (<["in_dir" := "in"]> (<["out_dir" := "out"]> ∅)))
  ∧ main (<["command" := "append_vocabulary"]>
            (<["in_dir" := "in"]> (<["out_dir" := "out"]> ∅)))
      Sample.terminated
    = (AttributeError "'Namespace' object has no attribute 'file'", Sample.terminated).
Proof.
  split; [reflexivity|].
  apply (main_append_commands_raise "append_vocabulary" "in" "out").
  - reflexivity.
  - discriminate.
  - discriminate.
Defined.

End command_line_runs.

(** ** sandbox.py *)

Section sandbox_names.

Import sandbox.

Lemma sub_non_word_cons c s :
  sub_non_word "_" (String c s)
  = String (if is_word c then c else "_"%char) (sub_non_word "_" s).
Proof.
  change (sub_non_word "_" (String c s))
    with (if is_word c then String c (sub_non_word "_" s)
          else "_" +:+ sub_non_word "_" s).
  by destruct (is_word c).
Qed.

Lemma string_length_app a b :
  String.length (a +:+ b) = (String.length a + String.length b)%nat.
Proof.
  induction a as [|c a IH]; [done|].
  change (String c a +:+ b) with (String c (a +:+ b)). simpl. by rewrite IH.
Qed.

(** X21: the table name of a rule is the dataset id, an underscore, and
    the rule name with each character that is not a word character
    replaced by an underscore: the same length, only word characters, and
    the rule name itself when it had only word characters. *)
Theorem sandbox_table_name_sanitised dataset_id rule_name :
  ∃ suffix,
    get_sandbox_table_name dataset_id rule_name = dataset_id +:+ "_" +:+ suffix
    ∧ String.length suffix = String.length rule_name
    ∧ forallb is_word (list_ascii_of_string suffix) = true
    ∧ (∀ i c, String.get i rule_name = Some c →
         String.get i suffix = Some (if is_word c then c else "_"%char))
    ∧ (forallb is_word (list_ascii_of_string rule_name) = true → suffix = rule_name).
Proof.
  exists (sub_non_word "_" rule_name). split; [done|].
  induction rule_name as [|c s (Hlen & Hword & Hget & Hsame)]; [by split_and!|].
  rewrite sub_non_word_cons. split_and!.
  - change (S (String.length (sub_non_word "_" s)) = S (String.length s)).
    by rewrite Hlen.
  - change (is_word (if is_word c then c else "_"%char)
            && forallb is_word (list_ascii_of_string (sub_non_word "_" s)) = true).
    rewrite Hword, andb_true_r.
    destruct (is_word c) eqn:E; [exact E|]. vm_compute. reflexivity.
  - intros [|i] c'.
    + change (Some c = Some c' →
              Some (if is_word c then c else "_"%char)
              = Some (if is_word c' then c' else "_"%char)).
      by intros [= ->].
    + apply Hget.
  - change (is_word c && forallb is_word (list_ascii_of_string s) = true →
            String (if is_word c then c else "_"%char) (sub_non_word "_" s)
            = String c s).
    intros [Hc Hs]%andb_true_iff. by rewrite Hc, (Hsame Hs).
Qed.

(** X22: distinct datasets have distinct sandbox datasets: the sandbox id
    is the dataset id followed by [_sandbox], and determines it. *)
Theorem sandbox_dataset_id_injective a b :
  get_sandbox_dataset_id a = get_sandbox_dataset_id b → a = b.
Proof.
  unfold get_sandbox_dataset_id. generalize ("_" +:+ SANDBOX_SUFFIX). intros t.
  revert b. induction a as [|c a IH]; intros [|c' b] H.
  - done.
  - apply (f_equal String.length) in H. rewrite !string_length_app in H.
    simpl in H. lia.
  - apply (f_equal String.length) in H. rewrite !string_length_app in H.
    simpl in H. lia.
  - change (String c (a +:+ t) = String c' (b +:+ t)) in H.
    injection H as -> H. by rewrite (IH b H).
Qed.

Lemma sandbox_dataset_id_injective_witness :
  get_sandbox_dataset_id "unioned_ehr" = "unioned_ehr_sandbox"
  ∧ "unioned_ehr" = "unioned_ehr".
Proof.
  split; [reflexivity|].
  apply (sandbox_dataset_id_injective "unioned_ehr" "unioned_ehr"). reflexivity.
Defined.

End sandbox_names.

Section sandbox_service.

Import sandbox.

Context {S : Type} {bq : BigQuery S}.

(** X23: under a service where listing changes nothing and a dataset just
    created is listed, [check_and_create_sandbox_dataset] creates at most
    once: whenever it returns, what it returns is the sandbox id of the
    dataset, and calling it again returns the same id and leaves the
    service as it is. *)
Theorem check_and_create_sandbox_dataset_again project_id dataset_id s id s1 :
  (∀ p s0 r s0', list_datasets p s0 = (r, s0') → s0' = s0) →
  (∀ p d f desc s0 s0',
     create_dataset p d f desc FALSE s0 = (Ok tt, s0') →
     ∃ ids, list_datasets p s0' = (Ok ids, s0') ∧ d ∈ ids) →
  check_and_create_sandbox_dataset project_id dataset_id s = (Ok id, s1) →
  id = get_sandbox_dataset_id dataset_id
  ∧ check_and_create_sandbox_dataset project_id dataset_id s1 = (Ok id, s1).
Proof.
  intros Hpure Hcreate. unfold check_and_create_sandbox_dataset at 1.
  destruct (list_datasets project_id s) as [[datasets|e] s'] eqn:Hlist; [|done].
  pose proof (Hpure _ _ _ _ Hlist) as ->.
  destruct (bool_decide (get_sandbox_dataset_id dataset_id ∈ datasets)) eqn:Hin.
  - intros [= <- <-]. split; [done|].
    unfold check_and_create_sandbox_dataset. by rewrite Hlist, Hin.
  - unfold create_sandbox_dataset.
    destruct (create_dataset _ _ _ _ FALSE s) as [[[]|e] s''] eqn:Hmake; [|done].
    intros [= <- <-]. split; [done|].
    destruct (Hcreate _ _ _ _ _ _ Hmake) as (ids & Hlist' & Hid).
    unfold check_and_create_sandbox_dataset. rewrite Hlist'.
    by rewrite (bool_decide_eq_true_2 _ Hid).
Qed.

End sandbox_service.

Section sandbox_runs.

Import sandbox.

Lemma memory_list_pure p (s0 : list (string * string)) r s0' :
  list_datasets p s0 = (r, s0') → s0' = s0.
Proof. by intros [= _ <-]. Qed.

Lemma listed_app p s s' : listed p (s ++ s') = listed p s ++ listed p s'.
Proof. apply omap_app. Qed.

Lemma memory_create_lists p d f desc (s0 s0' : list (string * string)) :
  create_dataset p d f desc FALSE s0 = (Ok tt, s0') →
  ∃ ids, list_datasets p s0' = (Ok ids, s0') ∧ d ∈ ids.
Proof.
  simpl. destruct (bool_decide (d ∈ listed p s0) && true); [done|].
  intros [= <-]. eexists. split; [done|].
  rewrite listed_app. apply elem_of_app. right. unfold listed. simpl.
  rewrite String.eqb_refl. by left.
Qed.

Lemma check_and_create_sandbox_dataset_again_witness :
  "ehr_sandbox" = get_sandbox_dataset_id "ehr"
  ∧ check_and_create_sandbox_dataset "project" "ehr"
      [("project", "ehr"); ("project", "ehr_sandbox")]
    = (Ok "ehr_sandbox", [("project", "ehr"); ("project", "ehr_sandbox")]).
Proof.
  apply (check_and_create_sandbox_dataset_again "project" "ehr" [("project", "ehr")]).
  - apply memory_list_pure.
  - apply memory_create_lists.
  - reflexivity.
Defined.

End sandbox_runs.

(** ** The file map away from the path written *)

Section frames.

Context {imports : Imports}.

Lemma copy_row_files in_path out_fp row p w r w' :
  copy_row in_path out_fp row w = (r, w') →
  File p ≠ out_fp → files w' !! p = files w !! p.
Proof.
  unfold copy_row, _vocab_id_match, mbind, M_bind, bind. simpl.
  destruct (truthy_opt _).
  - by intros [= _ <-].
  - rewrite write_returns. intros [= _ <-] Hp. by apply files_write_other.
Qed.

Lemma get_aou_vocabulary_row_files vocab_id w r w' :
  get_aou_vocabulary_row vocab_id w = (r, w') → files w' = files w.
Proof.
  unfold get_aou_vocabulary_row.
  destruct (dict_get _ vocab_id) as [row|]; [|by intros [= _ <-]].
  destruct (length row <? 2)%nat; by intros [= _ <-].
Qed.

Lemma open_w_files path p w r w' :
  open_w path w = (r, w') → p ≠ path → files w' !! p = files w !! p.
Proof.
  unfold open_w. destruct (open_fault w !! path); intros [= _ <-] Hp; [done|].
  simpl. by apply lookup_insert_ne.
Qed.

Lemma open_r_world path w r w' : open_r path w = (r, w') → w' = w.
Proof.
  unfold open_r. destruct (open_fault w !! path); [by intros [= _ <-]|].
  destruct (files w !! path); by intros [= _ <-].
Qed.

Lemma copy_rows_files in_path out_fp rows p w r w' :
  for_each rows (copy_row in_path out_fp) w = (r, w') →
  File p ≠ out_fp → files w' !! p = files w !! p.
Proof.
  intros Hrun Hp.
  apply (for_each_preserves (fun w0 => files w0 !! p = files w !! p)
           rows (copy_row in_path out_fp)) with (w := w) (r := r); [|done..].
  intros row w0 r0 w0' Hrow <-. by eapply copy_row_files.
Qed.

Lemma write_rows_files fp rows p w r w' :
  for_each rows (write fp) w = (r, w') →
  File p ≠ fp → files w' !! p = files w !! p.
Proof.
  intros Hrun Hp.
  apply (for_each_preserves (fun w0 => files w0 !! p = files w !! p)
           rows (write fp)) with (w := w) (r := r); [|done..].
  intros row w0 r0 w0'. rewrite write_returns. intros [= _ <-] <-.
  by apply files_write_other.
Qed.

Lemma append_vocabulary_frame in_path out_path p w r w' :
  append_vocabulary in_path out_path w = (r, w') →
  p ≠ out_path → files w' !! p = files w !! p.
Proof.
  unfold append_vocabulary, mbind, M_bind, bind. intros Hrun Hp.
  destruct (get_aou_vocabulary_row AOU_GEN_ID w) as [[g|e] w1] eqn:E1;
    pose proof (get_aou_vocabulary_row_files _ _ _ _ E1) as H1;
    [|injection Hrun as _ <-; by rewrite H1].
  destruct (get_aou_vocabulary_row AOU_CUSTOM_ID w1) as [[c|e] w2] eqn:E2;
    pose proof (get_aou_vocabulary_row_files _ _ _ _ E2) as H2;
    [|injection Hrun as _ <-; by rewrite H2, H1].
  destruct (open_w out_path w2) as [[out_fp|e] w3] eqn:E3;
    pose proof (open_w_files _ p _ _ _ E3 Hp) as H3;
    [|injection Hrun as _ <-; by rewrite H3, H2, H1].
  assert (out_fp = File out_path) as ->.
  { unfold open_w in E3. destruct (open_fault w2 !! out_path); congruence. }
  destruct (open_r in_path w3) as [[in_fp|e] w4] eqn:E4;
    pose proof (open_r_world _ _ _ _ E4) as ->;
    [|injection Hrun as _ <-; by rewrite H3, H2, H1].
  destruct (for_each in_fp (copy_row in_path (File out_path)) w3)
    as [[[]|e] w5] eqn:E5;
    pose proof (copy_rows_files _ _ _ p _ _ _ E5 ltac:(congruence)) as H5;
    [|injection Hrun as _ <-; by rewrite H5, H3, H2, H1].
  rewrite write_returns in Hrun. rewrite write_returns in Hrun.
  injection Hrun as _ <-. simpl.
  rewrite !lookup_insert_ne by done. by rewrite H5, H3, H2, H1.
Qed.

Lemma append_concepts_frame in_path out_path p w r w' :
  append_concepts in_path out_path w = (r, w') →
  p ≠ out_path → files w' !! p = files w !! p.
Proof.
  unfold append_concepts, mbind, M_bind, bind. intros Hrun Hp.
  destruct (open_w out_path w) as [[out_fp|e] w1] eqn:E1;
    pose proof (open_w_files _ p _ _ _ E1 Hp) as H1;
    [|injection Hrun as _ <-; by rewrite H1].
  assert (out_fp = File out_path) as ->.
  { unfold open_w in E1. destruct (open_fault w !! out_path); congruence. }
  destruct (open_r in_path w1) as [[in_fp|e] w2] eqn:E2;
    pose proof (open_r_world _ _ _ _ E2) as ->;
    [|injection Hrun as _ <-; by rewrite H1].
  destruct (for_each in_fp (copy_row in_path (File out_path)) w1)
    as [[[]|e] w3] eqn:E3;
    pose proof (copy_rows_files _ _ _ p _ _ _ E3 ltac:(congruence)) as H3;
    [|injection Hrun as _ <-; by rewrite H3, H1].
  destruct (open_r AOU_VOCAB_CONCEPT_CSV_PATH w3) as [[aou_gen_fp|e] w4] eqn:E4;
    pose proof (open_r_world _ _ _ _ E4) as ->;
    [|injection Hrun as _ <-; by rewrite H3, H1].
  unfold lift in Hrun.
  destruct (has_header _) as [header_found|e];
    [|injection Hrun as _ <-; by rewrite H3, H1].
  assert (∀ rows, for_each rows (write (File out_path)) w3 = (r, w') →
                  files w' !! p = files w !! p) as Hrows.
  { intros rows Hw.
    rewrite (write_rows_files _ _ p _ _ _ Hw ltac:(congruence)). by rewrite H3, H1. }
  destruct header_found; [destruct aou_gen_fp as [|first rest]|]; simpl in Hrun.
  - unfold raise in Hrun. injection Hrun as _ <-. by rewrite H3, H1.
  - by eapply Hrows.
  - by eapply Hrows.
Qed.

End frames.

(** ** AugmentationOrchestrator: the whole job *)

Section orchestrator_job.

Context {imports : Imports}.

Lemma write_rows_keeps fp rows w r w' :
  for_each rows (write fp) w = (r, w') →
  VOCABULARY_UPDATES w' = VOCABULARY_UPDATES w ∧ open_fault w' = open_fault w.
Proof.
  intros Hrun.
  apply (for_each_preserves
           (fun w0 => VOCABULARY_UPDATES w0 = VOCABULARY_UPDATES w
                      ∧ open_fault w0 = open_fault w)
           rows (write fp)) with (w := w) (r := r); [|done..].
  intros row w0 r0 w0'. rewrite write_returns. intros [= _ <-] [<- <-].
  by destruct fp.
Qed.

(** One run of [append_concepts] that gets to its end. *)
Lemma append_concepts_run in_path out_path text resource header_found w :
  in_path ≠ out_path →
  out_path ≠ AOU_VOCAB_CONCEPT_CSV_PATH →
  open_fault w !! in_path = None →
  open_fault w !! out_path = None →
  open_fault w !! AOU_VOCAB_CONCEPT_CSV_PATH = None →
  files w !! in_path = Some text →
  files w !! AOU_VOCAB_CONCEPT_CSV_PATH = Some resource →
  has_header
    (concat_chunks (take 5 (lines (universal_newlines (concat_chunks resource)))))
  = Ok header_found →
  (header_found = true → lines (universal_newlines (concat_chunks resource)) ≠ []) →
  Forall (fun k => k ≠ EmptyString) (map fst (VOCABULARY_UPDATES w)) →
  ∃ w',
    append_concepts in_path out_path w = (Ok tt, w')
    ∧ chunks (File out_path) w'
      = surviving (VOCABULARY_UPDATES w)
          (lines (universal_newlines (concat_chunks text)))
        ++ (if header_found
            then tail (lines (universal_newlines (concat_chunks resource)))
            else lines (universal_newlines (concat_chunks resource)))
    ∧ VOCABULARY_UPDATES w' = VOCABULARY_UPDATES w
    ∧ open_fault w' = open_fault w.
Proof.
  intros Hne Hres Hfin Hfout Hfres Hin Hresource Hsniff Hnonempty Hkeys.
  unfold append_concepts.
  assert (open_w out_path w
          = (Ok (File out_path), set_files (<[out_path := []]> (files w)) w)) as Hopen.
  { unfold open_w. by rewrite Hfout. }
  rewrite (run_bind _ _ _ _ _ Hopen).
  set (w1 := set_files _ w).
  assert (open_r in_path w1
          = (Ok (lines (universal_newlines (concat_chunks text))), w1)) as Hread.
  { unfold open_r. simpl. rewrite Hfin, lookup_insert_ne by done. by rewrite Hin. }
  rewrite (run_bind _ _ _ _ _ Hread).
  destruct (copy_rows_run in_path (File out_path)
              (lines (universal_newlines (concat_chunks text))) w1 Hkeys)
    as (w2 & Hloop & Hout & Hd2 & Hf2 & Hfiles2).
  rewrite (run_bind _ _ _ _ _ Hloop).
  simpl in Hout. rewrite lookup_insert_eq in Hout. simpl in Hout.
  set (custom_concepts := lines (universal_newlines (concat_chunks resource))) in *.
  assert (open_r AOU_VOCAB_CONCEPT_CSV_PATH w2 = (Ok custom_concepts, w2)) as Hread2.
  { unfold open_r. rewrite Hf2. simpl. rewrite Hfres.
    rewrite Hfiles2 by congruence. simpl.
    rewrite lookup_insert_ne by done. by rewrite Hresource. }
  rewrite (run_bind _ _ _ _ _ Hread2).
  assert (lift (has_header (concat_chunks (take 5 custom_concepts))) w2
          = (Ok header_found, w2)) as Hlift by (unfold lift; by rewrite Hsniff).
  rewrite (run_bind _ _ _ _ _ Hlift).
  assert (∀ rows,
            ∃ w', for_each rows (write (File out_path)) w2 = (Ok tt, w')
                  ∧ chunks (File out_path) w'
                    = surviving (VOCABULARY_UPDATES w)
                        (lines (universal_newlines (concat_chunks text))) ++ rows
                  ∧ VOCABULARY_UPDATES w' = VOCABULARY_UPDATES w
                  ∧ open_fault w' = open_fault w) as Hrows.
  { intros rows.
    destruct (write_rows_run (File out_path) rows w2) as (w3 & Hrun & Hout3).
    destruct (write_rows_keeps _ _ _ _ _ Hrun) as [Hd3 Hf3].
    exists w3. split_and!; [done|..].
    - rewrite Hout3. simpl. by rewrite Hout.
    - by rewrite Hd3, Hd2.
    - by rewrite Hf3, Hf2. }
  destruct header_found; [destruct custom_concepts as [|first rest]|].
  - by destruct Hnonempty.
  - apply (Hrows rest).
  - apply (Hrows custom_concepts).
Qed.

(** X25: the whole job: when the search finds a concept file and a
    vocabulary file, every file needed can be opened, and the two output
    paths differ from each other, from the inputs and from the custom
    concept file, [add_aou_vocabs] ends normally with both augmented
    files written under [out_dir] under the names the inputs have. *)
Theorem add_aou_vocabs_output in_dir out_dir file_names concept_in vocabulary_in
    concepts vocabularies resource header_found general custom w :
  listing w !! in_dir = Some file_names →
  fold_left (locate in_dir) file_names (None, None)
  = (Some concept_in, Some vocabulary_in) →
  concept_in ≠ path.join out_dir (path.basename concept_in) →
  path.join out_dir (path.basename concept_in) ≠ AOU_VOCAB_CONCEPT_CSV_PATH →
  vocabulary_in ≠ path.join out_dir (path.basename vocabulary_in) →
  vocabulary_in ≠ path.join out_dir (path.basename concept_in) →
  path.join out_dir (path.basename concept_in)
  ≠ path.join out_dir (path.basename vocabulary_in) →
  open_fault w !! concept_in = None →
  open_fault w !! path.join out_dir (path.basename concept_in) = None →
  open_fault w !! AOU_VOCAB_CONCEPT_CSV_PATH = None →
  open_fault w !! vocabulary_in = None →
  open_fault w !! path.join out_dir (path.basename vocabulary_in) = None →
  files w !! concept_in = Some concepts →
  files w !! AOU_VOCAB_CONCEPT_CSV_PATH = Some resource →
  files w !! vocabulary_in = Some vocabularies →
  has_header
    (concat_chunks (take 5 (lines (universal_newlines (concat_chunks resource)))))
  = Ok header_found →
  (header_found = true → lines (universal_newlines (concat_chunks resource)) ≠ []) →
  dict_get (VOCABULARY_UPDATES w) AOU_GEN_ID = Some general →
  (2 ≤ length general)%nat →
  dict_get (VOCABULARY_UPDATES w) AOU_CUSTOM_ID = Some custom →
  (2 ≤ length custom)%nat →
  Forall (fun k => k ≠ EmptyString) (map fst (VOCABULARY_UPDATES w)) →
  ∃ w',
    add_aou_vocabs in_dir out_dir w = (Ok tt, w')
    ∧ chunks (File (path.join out_dir (path.basename concept_in))) w'
      = surviving (VOCABULARY_UPDATES w)
          (lines (universal_newlines (concat_chunks concepts)))
        ++ (if header_found
            then tail (lines (universal_newlines (concat_chunks resource)))
            else lines (universal_newlines (concat_chunks resource)))
    ∧ chunks (File (path.join out_dir (path.basename vocabulary_in))) w'
      = surviving (VOCABULARY_UPDATES w)
          (lines (universal_newlines (concat_chunks vocabularies)))
        ++ [rendered DELIMITER (hash_dir AOU_VOCAB_PATH) general +:+ nl;
            rendered DELIMITER (hash_dir AOU_VOCAB_PATH) custom].
Proof.
  set (cout := path.join out_dir (path.basename concept_in)).
  set (vout := path.join out_dir (path.basename vocabulary_in)).
  intros Hls Hfound Hc1 Hc2 Hv1 Hv2 Hcv Hfc Hfco Hfr Hfv Hfvo Hcin Hrin Hvin
         Hsniff Hnonempty Hg Hlg Hcu Hlcu Hkeys.
  unfold add_aou_vocabs.
  assert (os_listdir in_dir w = (Ok file_names, w)) as Hrun
    by (unfold os_listdir; by rewrite Hls).
  rewrite (run_bind _ _ _ _ _ Hrun), Hfound. fold cout vout.
  destruct (append_concepts_run concept_in cout concepts resource header_found w)
    as (w1 & Hrun1 & Hout1 & Hd1 & Hf1); try done.
  rewrite (run_bind _ _ _ _ _ Hrun1).
  destruct (append_vocabulary_run vocabulary_in vout vocabularies general custom w1)
    as (w2 & Hrun2 & Hout2 & _); try done.
  { by rewrite Hf1. }
  { by rewrite Hf1. }
  { by rewrite (append_concepts_frame _ _ vocabulary_in _ _ _ Hrun1 Hv2). }
  { by rewrite Hd1. }
  { by rewrite Hd1. }
  { by rewrite Hd1. }
  exists w2. split_and!; [done|..].
  - rewrite <- Hout1. simpl.
    by rewrite (append_vocabulary_frame _ _ cout _ _ _ Hrun2 Hcv).
  - simpl. by rewrite Hout2, Hd1.
Qed.

End orchestrator_job.

Section orchestrator_job_runs.

#[local] Existing Instance Sample.imports.

Lemma add_aou_vocabs_output_witness :
  ∃ w',
    add_aou_vocabs "in" "out" More.both = (Ok tt, w')
    ∧ chunks (File (path.join "out" (path.basename "in/CONCEPT.csv"))) w'
      = surviving (VOCABULARY_UPDATES More.both)
          (lines (universal_newlines
                    (concat_chunks
                       [Sample.concept_header
                        +:+ "1" +:+ Sample.tab +:+ "Aspirin" +:+ Sample.tab +:+ "RxNorm" +:+ nl
                        +:+ "2" +:+ Sample.tab +:+ "Old" +:+ Sample.tab +:+ "AoU_General"
                        +:+ nl])))
        ++ (if true
            then tail (lines (universal_newlines
                                (concat_chunks
                                   [Sample.concept_header
                                    +:+ "2000000001" +:+ Sample.tab +:+ "New"
                                    +:+ Sample.tab +:+ "AoU_General" +:+ nl])))
            else lines (universal_newlines
                          (concat_chunks
                             [Sample.concept_header
                              +:+ "2000000001" +:+ Sample.tab +:+ "New"
                              +:+ Sample.tab +:+ "AoU_General" +:+ nl])))
    ∧ chunks (File (path.join "out" (path.basename "in/VOCABULARY.csv"))) w'
      = surviving (VOCABULARY_UPDATES More.both)
          (lines (universal_newlines
                    (concat_chunks [Sample.vocabulary_header +:+ Sample.snomed +:+ nl])))
        ++ [rendered DELIMITER (hash_dir AOU_VOCAB_PATH)
              ["AoU_General"; "AoU_General"; "aou.org/general"; "old"; "2000000000"]
            +:+ nl;
            rendered DELIMITER (hash_dir AOU_VOCAB_PATH)
              ["AoU_Custom"; "AoU_Custom"; "aou.org/custom"; "old"; "2100000000"]].
Proof.
  apply (add_aou_vocabs_output "in" "out" ["CONCEPT.csv"; "VOCABULARY.csv"]
           "in/CONCEPT.csv" "in/VOCABULARY.csv"
           [Sample.concept_header
            +:+ "1" +:+ Sample.tab +:+ "Aspirin" +:+ Sample.tab +:+ "RxNorm" +:+ nl
            +:+ "2" +:+ Sample.tab +:+ "Old" +:+ Sample.tab +:+ "AoU_General" +:+ nl]
           [Sample.vocabulary_header +:+ Sample.snomed +:+ nl]
           [Sample.concept_header
            +:+ "2000000001" +:+ Sample.tab +:+ "New" +:+ Sample.tab +:+ "AoU_General" +:+ nl]
           true
           ["AoU_General"; "AoU_General"; "aou.org/general"; "old"; "2000000000"]
           ["AoU_Custom"; "AoU_Custom"; "aou.org/custom"; "old"; "2100000000"]
           More.both).
  - reflexivity.
  - reflexivity.
  - vm_compute. discriminate.
  - vm_compute. discriminate.
  - vm_compute. discriminate.
  - vm_compute. discriminate.
  - vm_compute. discriminate.
  - reflexivity.
  - reflexivity.
  - reflexivity.
  - reflexivity.
  - reflexivity.
  - reflexivity.
  - reflexivity.
  - reflexivity.
  - reflexivity.
  - intros _. vm_compute. discriminate.
  - reflexivity.
  - simpl. lia.
  - reflexivity.
  - simpl. lia.
  - repeat constructor; discriminate.
Defined.

End orchestrator_job_runs.

Section date_normalizer_runs.

Lemma format_date_str_raises_unless_newline_witness :
  endswith nl "2020-1-01" = false
  ∧ format_date_str "2020-1-01"
    = Raise (ValueError ("Cannot parse value " +:+ "2020-1-01" +:+ " as date")).
Proof.
  split; [reflexivity|].
  apply (format_date_str_raises_unless_newline "2020-1-01"); reflexivity.
Defined.

End date_normalizer_runs.
